(** * svitlo_live: schedule parsing, transition search and outage intervals

    A shallow embedding of the time logic of
    [svitlo_live/coordinator.py] and [svitlo_live/calendar.py].

    Conventions.
    - Python [str] is [string]; a Python list is a [list].
    - A Python exception is a value of [error] carried by [exc].
    - A calendar date is its proleptic ordinal ([date.toordinal()]), an
      integer; the model has no upper bound on ordinals.
    - Python integers are [Z]; list positions and loop counters that
      start at zero are [nat].
    - A [datetime] is the record of its wall-clock fields.  In
      [coordinator.py] the two datetimes the code compares or adds to
      carry the same [tzinfo], so Python compares and adds on the
      wall-clock fields.  In [calendar.py] the events hold instants,
      given by their fields in UTC; they are obtained from wall-clock
      times of Europe/Kyiv by [dt_util.as_utc], which depends on the
      time-zone database and is a parameter of the model. *)

From Stdlib Require Import String Ascii List Arith ZArith Bool Lia DecimalString
  Permutation Sorted.
Import ListNotations.
Local Open Scope string_scope.
Local Open Scope list_scope.
Local Open Scope nat_scope.

(** ** Exceptions *)

Inductive error : Type :=
| ValueError
| IndexError.

Inductive exc (A : Type) : Type :=
| Ok (a : A)
| Raise (e : error).

Arguments Ok {A} a.
Arguments Raise {A} e.

Definition bind {A B : Type} (m : exc A) (k : A -> exc B) : exc B :=
  match m with
  | Ok a => k a
  | Raise e => Raise e
  end.

Notation "x <- m ;; k" := (bind m (fun x => k))
  (at level 61, m at next level, right associativity).

(** [xs[i]] for a non-negative index. *)
Definition getitem {A : Type} (xs : list A) (i : nat) : exc A :=
  match nth_error xs i with
  | Some x => Ok x
  | None => Raise IndexError
  end.

(** [xs[i]] for any integer index: a negative index counts from the
    end. *)
Definition getitem_z {A : Type} (xs : list A) (i : Z) : exc A :=
  let n := Z.of_nat (length xs) in
  let i' := (if i <? 0 then i + n else i)%Z in
  if (i' <? 0)%Z then Raise IndexError
  else getitem xs (Z.to_nat i').

(** The bound of a slice, clamped into [0 .. len(xs)]. *)
Definition slice_bound (n : nat) (a : Z) : nat :=
  if (a <? 0)%Z then Z.to_nat (Z.max 0 (a + Z.of_nat n))
  else Nat.min (Z.to_nat a) n.

(** [xs[a:]] *)
Definition slice_from {A : Type} (xs : list A) (a : Z) : list A :=
  skipn (slice_bound (length xs) a) xs.

(** [xs[:b]] *)
Definition slice_to {A : Type} (xs : list A) (b : Z) : list A :=
  firstn (slice_bound (length xs) b) xs.

(** [s in states] for a list of strings. *)
Definition str_in (s : string) (states : list string) : bool :=
  existsb (String.eqb s) states.

(** ** Dates and datetimes *)

Definition date := Z.
Bind Scope Z_scope with date.

Record datetime : Type := mkDatetime {
  dt_date : date;
  dt_hour : Z;
  dt_minute : Z;
  dt_second : Z;
  dt_microsecond : Z
}.

Definition valid_datetime (d : datetime) : Prop :=
  (0 <= dt_hour d < 24 /\ 0 <= dt_minute d < 60 /\
   0 <= dt_second d < 60 /\ 0 <= dt_microsecond d < 1000000)%Z.

(** [d + timedelta(minutes=k)]: Python normalises the sum of the
    wall-clock time and the delta with floor division. *)
Definition add_minutes (d : datetime) (k : Z) : datetime :=
  let t := (dt_hour d * 60 + dt_minute d + k)%Z in
  mkDatetime (dt_date d + t / 1440)%Z ((t mod 1440) / 60)%Z (t mod 60)%Z
             (dt_second d) (dt_microsecond d).

(** [d + timedelta(days=k)] *)
Definition add_days (d : datetime) (k : Z) : datetime :=
  mkDatetime (dt_date d + k)%Z (dt_hour d) (dt_minute d)
             (dt_second d) (dt_microsecond d).

(** Minutes on the wall clock since ordinal 0, 00:00. *)
Definition wall_minutes (d : datetime) : Z :=
  (dt_date d * 1440 + dt_hour d * 60 + dt_minute d)%Z.

(** The wall-clock fields as one number of microseconds: the order of
    two datetimes that carry one [tzinfo]. *)
Definition wall_micros (d : datetime) : Z :=
  ((wall_minutes d * 60 + dt_second d) * 1000000 + dt_microsecond d)%Z.

(** [a <= b] *)
Definition dt_leb (a b : datetime) : bool :=
  (wall_micros a <=? wall_micros b)%Z.

Definition dt_lt (a b : datetime) : Prop :=
  (wall_micros a < wall_micros b)%Z.

(** ** Schedule parser ([coordinator.py]) *)

Definition halfhours_from_hour_class (cls : string) : list string :=
  if (cls =? "on")%string then ["on"; "on"]
  else if (cls =? "off")%string then ["off"; "off"]
  else if (cls =? "f4")%string then ["off"; "on"]
  else if (cls =? "f5")%string then ["on"; "off"]
  else ["on"; "on"].

(** A [td] element: its stripped text and its [class] attribute. *)
Record td : Type := mkTd {
  td_text : string;
  td_class : option (list string)
}.

(** [td.get("class", [])] *)
Definition td_get_class (c : td) : list string :=
  match td_class c with
  | Some l => l
  | None => []
  end.

Section Parser.

(** Keys of [CLASS_MAP] of [const.py]. *)
Variable CLASS_MAP : list string.

(** [datetime.strptime(s, "%d.%m.%Y").date()]; [None] is [ValueError]. *)
Variable strptime_dmy : string -> option date.

(** [next((c for c in td.get("class", []) if c in CLASS_MAP), "on")] *)
Definition cell_class (c : td) : string :=
  match find (fun k => str_in k CLASS_MAP) (td_get_class c) with
  | Some k => k
  | None => "on"
  end.

(** The loop [for td in cells: ... hour_classes.append(cls)]. *)
Definition collect_hour_classes (cells : list td) : list string :=
  fold_left (fun acc c => acc ++ [cell_class c]) cells [].

(** The loop [for cls in hour_classes: halfhours.extend(...)]. *)
Definition expand_halfhours (hour_classes : list string) : list string :=
  fold_left (fun acc cls => acc ++ halfhours_from_hour_class cls)
            hour_classes [].

(** [parse_table]: a table is the list of its [tbody tr] rows, a row
    the list of its [td] cells. *)
Definition parse_table (rows : list (list td))
  : exc (date * list string * list string) :=
  if length rows <? 2 then Raise ValueError
  else
    row0 <- getitem rows 0 ;;
    header <- getitem row0 0 ;;
    match strptime_dmy (td_text header) with
    | None => Raise ValueError
    | Some day =>
        row1 <- getitem rows 1 ;;
        let cells := slice_from row1 1 in
        let cells := if negb (length cells =? 24) then slice_to cells 24
                     else cells in
        let hour_classes := collect_hour_classes cells in
        let halfhours := expand_halfhours hour_classes in
        Ok (day, hour_classes, halfhours)
    end.

End Parser.

(** The per-hour table of the specification, on the four recognised
    codes. *)
Inductive HourClass : Type := HC_on | HC_off | HC_f4 | HC_f5.

Definition hour_class_code (h : HourClass) : string :=
  match h with
  | HC_on => "on" | HC_off => "off" | HC_f4 => "f4" | HC_f5 => "f5"
  end.

Definition spec_expansion (h : HourClass) : list string :=
  match h with
  | HC_on => ["on"; "on"]
  | HC_off => ["off"; "off"]
  | HC_f4 => ["off"; "on"]
  | HC_f5 => ["on"; "off"]
  end.

Definition recognised (cls : string) : Prop :=
  cls = "on" \/ cls = "off" \/ cls = "f4" \/ cls = "f5".

(** ** Text of integers and of times *)

(** [str(n)] for [n >= 0]. *)
Definition decimal (z : Z) : string :=
  NilZero.string_of_uint (N.to_uint (Z.to_N z)).

(** The format [{z:02d}]. *)
Definition fmt_02d (z : Z) : string :=
  if (z <? 0)%Z then "-" ++ decimal (- z)
  else
    let s := decimal z in
    if String.length s <? 2 then "0" ++ s else s.

(** [f"{h:02d}:{m:02d}"] and [strftime('%H:%M')]. *)
Definition fmt_hhmm (h m : Z) : string := fmt_02d h ++ ":" ++ fmt_02d m.

(** [s.split(":")] *)
Fixpoint split_colon (s : string) : list string :=
  match s with
  | EmptyString => [EmptyString]
  | String c rest =>
      if Ascii.eqb c ":"%char then EmptyString :: split_colon rest
      else match split_colon rest with
           | [] => [String c EmptyString]
           | h :: t => String c h :: t
           end
  end.

(** [int(s)] on the strings of decimal digits; every other string is a
    [ValueError] here (Python also accepts a sign, surrounding blanks
    and underscores, none of which [fmt_02d] writes for [z >= 0]). *)
Definition py_int (s : string) : exc Z :=
  match s with
  | EmptyString => Raise ValueError
  | _ => match NilEmpty.uint_of_string s with
         | Some u => Ok (Z.of_N (N.of_uint u))
         | None => Raise ValueError
         end
  end.

(** [d.replace(hour=h, minute=m, second=0, microsecond=0)] on the date
    [day]: out-of-range fields are a [ValueError]. *)
Definition at_time (day : date) (h m : Z) : exc datetime :=
  if ((0 <=? h) && (h <? 24) && (0 <=? m) && (m <? 60))%Z%bool
  then Ok (mkDatetime day h m 0 0)
  else Raise ValueError.

(** ** Transition calculator ([coordinator.py]) *)

Definition pack : Type := date * list string * list string.

(** The loop of [next_change_idx] over the remaining [step]s. *)
Fixpoint scan_change (series : list string) (cur : string) (idx : Z)
         (steps : list nat) : exc (option Z) :=
  match steps with
  | [] => Ok None
  | step :: rest =>
      let j := ((idx + Z.of_nat step) mod Z.of_nat (length series))%Z in
      sj <- getitem_z series j ;;
      if negb (sj =? cur)%string then Ok (Some j)
      else scan_change series cur idx rest
  end.

Definition next_change_idx (series : list string) (idx : Z)
  : exc (option Z) :=
  cur <- getitem_z series idx ;;
  let n := length series in
  scan_change series cur idx (seq 1 n).

(** [next((i for i, s in enumerate(xs) if s in target_states), None)] *)
Fixpoint first_match (target_states : list string) (xs : list string)
  : option nat :=
  match xs with
  | [] => None
  | s :: rest =>
      if str_in s target_states then Some 0
      else option_map S (first_match target_states rest)
  end.

(** The search sequence [seq2] of [find_next_at]. *)
Definition search_sequence (today_half : list string) (idx : Z)
           (tomorrow_pack : option pack) : list string :=
  let seq := slice_from today_half (idx + 1) ++ slice_to today_half (idx + 1) in
  match tomorrow_pack with
  | Some (_, _, tomorrow_half) => seq ++ tomorrow_half
  | None => seq
  end.

(** [now.replace(second=0, microsecond=0)] with the minute set to the
    start of its half hour. *)
Definition base_aligned (now : datetime) : datetime :=
  let minute_block_start := (if dt_minute now <? 30 then 0 else 30)%Z in
  mkDatetime (dt_date now) (dt_hour now) minute_block_start 0 0.

(** [find_next_at]; [now] is the reading of [dt_util.now()] it takes,
    by its wall-clock fields.  The source returns the text
    [dt_util.as_utc(next_local).isoformat()]; the model returns
    [next_local], by its wall-clock fields, the local time from which
    that text is rendered.  The order of the instants behind two such
    wall-clock times is not that of their fields where the clocks of
    the zone are put back. *)
Definition find_next_at (target_states : list string) (base_date : date)
           (today_half : list string) (idx : Z)
           (tomorrow_pack : option pack) (now : datetime)
  : option datetime :=
  match first_match target_states
                    (search_sequence today_half idx tomorrow_pack) with
  | None => None
  | Some pos =>
      Some (add_minutes (base_aligned now) ((Z.of_nat pos + 1) * 30))
  end.

(** The slot index computed at the head of [_build_payload]. *)
Definition current_slot_index (now_local : datetime) (today_date : date) : Z :=
  if negb (dt_date now_local =? today_date)%Z then 0%Z
  else (dt_hour now_local * 2 + (if 30 <=? dt_minute now_local then 1 else 0))%Z.

(** ** The published record and the coordinator *)

(** The dictionary built by [_build_payload], one field per key.
    [pl_next_on_at] and [pl_next_off_at] hold the local times returned
    by [find_next_at]. *)
Record payload : Type := mkPayload {
  pl_queue : string;
  pl_date : string;
  pl_now_status : string;
  pl_now_halfhour_index : Z;
  pl_next_change_at : option string;
  pl_today_24h_classes : list string;
  pl_today_48half : list string;
  pl_updated : string;
  pl_source : string;
  pl_source_last_modified : option string;
  pl_next_on_at : option datetime;
  pl_next_off_at : option datetime;
  pl_tomorrow_date : option string;
  pl_tomorrow_24h_classes : option (list string);
  pl_tomorrow_48half : option (list string)
}.

(** The attributes of [SvitloCoordinator] that the time logic reads and
    writes.  [unsub_precise] holds the instant of the armed timer;
    [data] is the record last published; [refresh_requests] counts the
    calls of [async_request_refresh]. *)
Record coordinator : Type := mkCoordinator {
  queue : string;
  unsub_precise : option datetime;
  today_pack_cached : option pack;
  tomorrow_pack_cached : option pack;
  data : option payload;
  refresh_requests : nat
}.

(** The three readings of [dt_util.now()] taken by one run of
    [_build_payload]: its own and one in each [find_next_at]. *)
Record readings : Type := mkReadings {
  now_payload : datetime;
  now_next_on : datetime;
  now_next_off : datetime
}.

Section Coordinator.

(** [date.isoformat()] *)
Variable date_isoformat : date -> string.

(** [datetime.fromisoformat(s).date()]; [None] is [ValueError]. *)
Variable date_fromisoformat : string -> option date.

Definition _build_payload (self_queue : string) (today_pack : pack)
           (tomorrow_pack : option pack) (updated : string)
           (source_url : string) (source_last_modified : option string)
           (clock : readings) : exc payload :=
  let '(today_date, hour_classes, halfhours) := today_pack in
  let now_local := now_payload clock in
  let idx := current_slot_index now_local today_date in
  cur <- getitem_z halfhours idx ;;
  nci <- next_change_idx halfhours idx ;;
  let next_change_hhmm :=
    match nci with
    | Some nci =>
        let h := (nci / 2)%Z in
        let m := (if negb (nci mod 2 =? 0)%Z then 30 else 0)%Z in
        Some (fmt_hhmm h m)
    | None => None
    end in
  let next_on_at :=
    find_next_at ["on"] today_date halfhours idx tomorrow_pack
                 (now_next_on clock) in
  let next_off_at :=
    find_next_at ["off"] today_date halfhours idx tomorrow_pack
                 (now_next_off clock) in
  Ok (mkPayload self_queue (date_isoformat today_date) cur idx
                next_change_hhmm hour_classes halfhours updated source_url
                source_last_modified next_on_at next_off_at
                (option_map (fun t => date_isoformat (fst (fst t)))
                            tomorrow_pack)
                (option_map (fun t => snd (fst t)) tomorrow_pack)
                (option_map (fun t => snd t) tomorrow_pack)).

(** The body of the [try] of [_schedule_precise_refresh]: the instant
    to arm.  [now] is the reading compared with the candidate. *)
Definition precise_candidate (next_change_hhmm base_date_iso : string)
           (now : datetime) : exc datetime :=
  match date_fromisoformat base_date_iso with
  | None => Raise ValueError
  | Some base_day =>
      match split_colon next_change_hhmm with
      | [x; y] =>
          hh <- py_int x ;;
          mm <- py_int y ;;
          candidate <- at_time base_day hh mm ;;
          if dt_leb candidate now then Ok (add_days candidate 1)
          else Ok candidate
      | _ =>
          (* the comprehension converts every part before the
             unpacking fails; both failures are a ValueError *)
          Raise ValueError
      end
  end.

Definition _schedule_precise_refresh (self : coordinator) (d : payload)
           (now : datetime) : coordinator :=
  let self := mkCoordinator (queue self) None (today_pack_cached self)
                            (tomorrow_pack_cached self) (data self)
                            (refresh_requests self) in
  match pl_next_change_at d with
  | None => self
  | Some next_change_hhmm =>
      if (next_change_hhmm =? "")%string || (pl_date d =? "")%string
      then self
      else
        match precise_candidate next_change_hhmm (pl_date d) now with
        | Ok candidate =>
            mkCoordinator (queue self) (Some candidate)
                          (today_pack_cached self)
                          (tomorrow_pack_cached self) (data self)
                          (refresh_requests self)
        | Raise _ => self
        end
  end.

(** [_precise_tick]; [utcnow_iso] is the text
    [dt_util.utcnow().replace(microsecond=0).isoformat()]. *)
Definition _precise_tick (self : coordinator) (clock : readings)
           (utcnow_iso : string) : exc coordinator :=
  self <-
    match today_pack_cached self with
    | Some today_pack =>
        p <- _build_payload (queue self) today_pack
               (tomorrow_pack_cached self)
               (match data self with
                | Some d => pl_updated d
                | None => utcnow_iso
                end)
               (match data self with
                | Some d => pl_source d
                | None => ""
                end)
               (match data self with
                | Some d => pl_source_last_modified d
                | None => None
                end)
               clock ;;
        (* async_set_updated_data(payload) *)
        Ok (mkCoordinator (queue self) (unsub_precise self)
                          (today_pack_cached self)
                          (tomorrow_pack_cached self) (Some p)
                          (refresh_requests self))
    | None => Ok self
    end ;;
  (* async_request_refresh() *)
  Ok (mkCoordinator (queue self) (unsub_precise self)
                    (today_pack_cached self) (tomorrow_pack_cached self)
                    (data self) (S (refresh_requests self))).

(** [_async_update_data] from the parsed packs on, followed by the
    base class storing the returned record in [data].  When
    [_build_payload] raises, the poll fails: no record is published and
    no timer is touched (the packs alone stay cached). *)
Definition _async_update_data (self : coordinator) (today_pack : pack)
           (tomorrow_pack : option pack)
           (source_last_modified : option string)
           (polled_at url : string) (clock : readings)
           (now_schedule : datetime) : exc coordinator :=
  let self := mkCoordinator (queue self) (unsub_precise self)
                            (Some today_pack) tomorrow_pack (data self)
                            (refresh_requests self) in
  p <- _build_payload (queue self) today_pack tomorrow_pack polled_at url
         source_last_modified clock ;;
  let self := _schedule_precise_refresh self p now_schedule in
  Ok (mkCoordinator (queue self) (unsub_precise self)
                    (today_pack_cached self) (tomorrow_pack_cached self)
                    (Some p) (refresh_requests self)).

End Coordinator.

(** ** Interval builder ([calendar.py]) *)

(** A [CalendarEvent].  [ev_start] and [ev_end] are instants, given by
    their fields in UTC. *)
Record CalendarEvent : Type := mkCalendarEvent {
  ev_summary : string;
  ev_start : datetime;
  ev_end : datetime;
  ev_description : string
}.

Section Calendar.

(** [self.summary] *)
Variable summary : string.

(** [datetime.fromisoformat(s).date()]; [None] is [ValueError]. *)
Variable date_fromisoformat : string -> option date.

(** [dt_util.as_utc] on a wall-clock time of [TZ_KYIV] with fold 0, as
    [datetime.combine] and [replace] give it: the fields, in UTC, of
    the instant that the zone assigns to that wall-clock time. *)
Variable as_utc : datetime -> datetime.

Definition _make_event (day : date) (start_idx end_idx : nat)
  : exc CalendarEvent :=
  let start_h := Z.of_nat (start_idx / 2) in
  let start_m := if negb (start_idx mod 2 =? 0) then 30%Z else 0%Z in
  let end_h := Z.of_nat (end_idx / 2) in
  let end_m := if negb (end_idx mod 2 =? 0) then 30%Z else 0%Z in
  start_local <- at_time day start_h start_m ;;
  end_local <-
    (if end_idx <? 48 then at_time day end_h end_m
     else Ok (mkDatetime (day + 1)%Z 0 0 0 0)) ;;
  let start_utc := as_utc start_local in
  let end_utc := as_utc end_local in
  Ok (mkCalendarEvent summary start_utc end_utc
        ("No electricity "
           ++ fmt_hhmm (dt_hour start_local) (dt_minute start_local)
           ++ "–"
           ++ fmt_hhmm (dt_hour end_local) (dt_minute end_local))).

(** The variables of the loop of [_build_day_events]. *)
Record run_state : Type := mkRunState {
  events : list CalendarEvent;
  current_state : string;
  start_idx : nat
}.

(** One iteration of [for i in range(1, 48)]. *)
Definition run_step (base_day : date) (halfhours : list string)
           (st : run_state) (i : nat) : exc run_state :=
  h <- getitem halfhours i ;;
  if negb (h =? current_state st)%string then
    evs <-
      (if (current_state st =? "off")%string then
         ev <- _make_event base_day (start_idx st) i ;;
         Ok (events st ++ [ev])
       else Ok (events st)) ;;
    Ok (mkRunState evs h i)
  else Ok st.

Fixpoint run_loop (base_day : date) (halfhours : list string)
         (st : run_state) (range : list nat) : exc run_state :=
  match range with
  | [] => Ok st
  | i :: rest =>
      st' <- run_step base_day halfhours st i ;;
      run_loop base_day halfhours st' rest
  end.

Definition _build_day_events (date_str : option string)
           (halfhours : list string) : exc (list CalendarEvent) :=
  let no_date :=
    match date_str with
    | None => true
    | Some s => (s =? "")%string
    end in
  if no_date || (length halfhours =? 0) || negb (length halfhours =? 48)
  then Ok []
  else
    match date_str with
    | None => Ok []
    | Some s =>
        match date_fromisoformat s with
        | None => Raise ValueError
        | Some base_day =>
            h0 <- getitem halfhours 0 ;;
            st <- run_loop base_day halfhours (mkRunState [] h0 0)
                           (seq 1 47) ;;
            if (current_state st =? "off")%string then
              ev <- _make_event base_day (start_idx st) 48 ;;
              Ok (events st ++ [ev])
            else Ok (events st)
        end
    end.

End Calendar.

(** *** Slots, runs and their events *)

(** The start of slot [i] of [day], on the wall clock of [TZ_KYIV]. *)
Definition slot_time (day : date) (i : nat) : datetime :=
  mkDatetime day (Z.of_nat (i / 2)) (if i mod 2 =? 0 then 0%Z else 30%Z) 0 0.

(** The start of slot [i] of [day], in minutes of the wall clock. *)
Definition slot_start (day : date) (i : nat) : Z :=
  (day * 1440 + 30 * Z.of_nat i)%Z.

(** The boundary before slot [i] of [day], on the wall clock: the start
    of slot [i], and for [i = 48] midnight of the following day. *)
Definition slot_boundary (day : date) (i : nat) : datetime :=
  if i <? 48 then slot_time day i else mkDatetime (day + 1) 0 0 0 0.

(** The event of the run of slots [a .. e-1] of [day]: from the instant
    of the start of slot [a] to the instant of the start of slot [e],
    which for [e = 48] is midnight of the following day; the
    description names both wall-clock times. *)
Definition run_event (summary : string) (as_utc : datetime -> datetime)
           (day : date) (a e : nat) : CalendarEvent :=
  let start_local := slot_time day a in
  let end_local :=
    if e <? 48 then slot_time day e else mkDatetime (day + 1) 0 0 0 0 in
  mkCalendarEvent summary (as_utc start_local) (as_utc end_local)
    ("No electricity "
       ++ fmt_hhmm (dt_hour start_local) (dt_minute start_local)
       ++ "–"
       ++ fmt_hhmm (dt_hour end_local) (dt_minute end_local)).

(** The slots [s .. e-1] are a whole run of off slots: all off, with
    no off slot just before or just after. *)
Definition is_off_run (halfhours : list string) (s e : nat) : Prop :=
  s < e <= 48
  /\ (forall i, s <= i < e -> nth_error halfhours i = Some "off")
  /\ (s = 0 \/ nth_error halfhours (s - 1) <> Some "off")
  /\ (e = 48 \/ nth_error halfhours e <> Some "off").

(** Whole off runs, one after the other, each starting after the slot
    that follows the run before; the index is the first slot where a
    further run may start. *)
Inductive run_chain (halfhours : list string)
  : list (nat * nat) -> nat -> Prop :=
| run_chain_nil : run_chain halfhours [] 0
| run_chain_snoc (runs : list (nat * nat)) (b s e : nat) :
    run_chain halfhours runs b ->
    b <= s ->
    is_off_run halfhours s e ->
    run_chain halfhours (runs ++ [(s, e)]) (S e).

(** Before the iteration [i = k] of [_build_day_events]: the open run
    starts at [start_idx], where the state changed, and holds
    [current_state] up to slot [k-1]; the events emitted so far are
    those of a chain of whole off runs that hold every off slot before
    the open run. *)
Definition run_inv (summary : string) (as_utc : datetime -> datetime)
           (base_day : date) (halfhours : list string) (k : nat)
           (st : run_state) : Prop :=
  start_idx st < k
  /\ (forall i, start_idx st <= i < k ->
                nth_error halfhours i = Some (current_state st))
  /\ (start_idx st = 0
      \/ nth_error halfhours (start_idx st - 1) <> Some (current_state st))
  /\ exists runs b,
      events st
      = map (fun r => run_event summary as_utc base_day (fst r) (snd r)) runs
      /\ run_chain halfhours runs b
      /\ b <= start_idx st
              + (if (current_state st =? "off")%string then 0 else 1)
      /\ (forall i, i < start_idx st ->
                    nth_error halfhours i = Some "off" ->
                    exists r, In r runs /\ fst r <= i < snd r).

(** *** Re-expansion of the intervals of a day *)

(** The instants of the slot boundaries of [day] increase: no half hour
    of the day is skipped by the wall clock of the zone. *)
Definition increasing_on_day (as_utc : datetime -> datetime) (day : date)
  : Prop :=
  forall i, i < 48 ->
    (wall_micros (as_utc (slot_boundary day i))
     < wall_micros (as_utc (slot_boundary day (S i))))%Z.

(** Every half hour of [day] lasts thirty minutes: the offset of the
    zone does not change during the day. *)
Definition steady_on_day (as_utc : datetime -> datetime) (day : date)
  : Prop :=
  forall i, i < 48 ->
    wall_micros (as_utc (slot_boundary day (S i)))
    = (wall_micros (as_utc (slot_boundary day i)) + 30 * 60 * 1000000)%Z.



(** ** The search order in the words of the specification *)

(** The slots of today in the order of the search from slot [idx]:
    [idx+1 .. 47], then [0 .. idx]. *)
Definition search_order (idx : nat) : list nat :=
  seq (idx + 1) (47 - idx) ++ seq 0 (idx + 1).

(** [today.halfHours[idx+1 .. 47]], then [today.halfHours[0 .. idx]],
    then [tomorrow.halfHours[0 .. 47]] when tomorrow is present. *)
Definition spec_search_sequence (today_half : list string) (idx : nat)
           (tomorrow_pack : option pack) : list string :=
  map (fun i => nth i today_half "") (search_order idx)
  ++ match tomorrow_pack with
     | Some (_, _, tomorrow_half) =>
         map (fun i => nth i tomorrow_half "") (seq 0 48)
     | None => []
     end.

(** ** Sample inputs *)

Module Sample.

(** The four codes of the published table. *)
Definition class_map : list string := ["on"; "off"; "f4"; "f5"].

(** 1 January 2025 is ordinal 739252. *)
Definition strptime_dmy (s : string) : option date :=
  if (s =? "01.01.2025")%string then Some 739252%Z else None.

Definition date_isoformat (d : date) : string :=
  if (d =? 739252)%Z then "2025-01-01"
  else if (d =? 739253)%Z then "2025-01-02"
  else "".

(** 30 March 2025 is ordinal 739340 and 26 October 2025 is ordinal
    739550. *)
Definition date_fromisoformat (s : string) : option date :=
  if (s =? "2025-01-01")%string then Some 739252%Z
  else if (s =? "2025-01-02")%string then Some 739253%Z
  else if (s =? "2025-03-30")%string then Some 739340%Z
  else if (s =? "2025-10-26")%string then Some 739550%Z
  else None.

(** [dt_util.as_utc] on the wall-clock times of Europe/Kyiv with fold 0,
    between the changes of the clocks in October 2024 and in March
    2026: three hours ahead of UTC from 04:00 of 30 March 2025 to 04:00
    of 26 October 2025 on the wall clock, two hours ahead otherwise.
    The wall-clock times from 03:00 to 03:59 of 30 March do not exist
    and are read with the offset from before the change; those of
    26 October occur twice and are read as their first occurrence. *)
Definition kyiv_as_utc (d : datetime) : datetime :=
  let summer :=
    ((wall_micros (mkDatetime 739340 4 0 0 0) <=? wall_micros d)
     && (wall_micros d <? wall_micros (mkDatetime 739550 4 0 0 0)))%Z%bool in
  add_minutes d (if summer then -180 else -120).

Definition off_cell : td := mkTd "" (Some ["off"]).

(** A day table whose queue row has the label cell and 23 hour
    cells. *)
Definition rows_23_cells : list (list td) :=
  [ [mkTd "01.01.2025" None];
    mkTd "Queue 1.1" None :: repeat off_cell 23 ].

(** A day table whose queue row has 25 hour cells, the last one
    "f4". *)
Definition rows_25_cells : list (list td) :=
  [ [mkTd "01.01.2025" None];
    mkTd "Queue 1.1" None
      :: repeat off_cell 24 ++ [mkTd "" (Some ["f4"])] ].

(** A day that is off from 00:00 to 06:00 and on afterwards. *)
Definition morning_off_pack : pack :=
  (739252%Z, repeat "off" 6 ++ repeat "on" 18,
   repeat "off" 12 ++ repeat "on" 36).

(** A coordinator before its first poll. *)
Definition fresh_coordinator : coordinator :=
  mkCoordinator "1.1" None None None None 0.

(** The clock standing at [t] for a whole run. *)
Definition clock_at (t : datetime) : readings := mkReadings t t t.

(** The record published by a poll of [morning_off_pack] at 05:00 of
    its day, and the coordinator after that poll. *)
Definition polled_payload : payload :=
  mkPayload "1.1" "2025-01-01" "off" 10 (Some "06:00")
            (repeat "off" 6 ++ repeat "on" 18)
            (repeat "off" 12 ++ repeat "on" 36)
            "2025-01-01T03:00:00+00:00" "https://svitlo.live/kyiv"
            (Some "2025-01-01T02:40:00+00:00")
            (Some (mkDatetime 739252 6 0 0 0))
            (Some (mkDatetime 739252 5 30 0 0))
            None None None.

Definition polled_coordinator : coordinator :=
  mkCoordinator "1.1" (Some (mkDatetime 739252 6 0 0 0))
                (Some morning_off_pack) None (Some polled_payload) 0.

End Sample.

(** ** The whole of [parse_queue] and of a poll ([coordinator.py]) *)

(** What [parse_queue] reads of the fetched document: the
    [table.graph] tables of the queue's [div] ([None] when there is no
    such [div]), and the [content] of the [last-modified] meta element
    ([None] when the element or the attribute is missing). *)
Record document : Type := mkDocument {
  doc_tables : option (list (list (list td)));
  doc_last_modified : option string
}.

(** [c in s] for a character [c]. *)
Fixpoint has_char (c : ascii) (s : string) : bool :=
  match s with
  | EmptyString => false
  | String a rest => Ascii.eqb a c || has_char c rest
  end.

Section ParseQueue.

Variable CLASS_MAP : list string.
Variable strptime_dmy : string -> option date.

(** The body of the [try] that rewrites the last-modified text as a UTC
    ISO text; [None] when it raises. *)
Variable last_modified_as_utc : string -> option string.

(** The last lines of [parse_queue], on [source_last_modified]. *)
Definition convert_last_modified (source_last_modified : option string)
  : option string :=
  match source_last_modified with
  | None => None
  | Some s =>
      if negb (s =? "")%string && has_char "-" s && has_char ":" s then
        match last_modified_as_utc s with
        | Some u => Some u
        | None => Some s
        end
      else Some s
  end.

Definition parse_queue (doc : document)
  : exc (pack * option pack * option string) :=
  match doc_tables doc with
  | None => Raise ValueError
  | Some tables =>
      if length tables =? 0 then Raise ValueError
      else
        t0 <- getitem tables 0 ;;
        today_pack <- parse_table CLASS_MAP strptime_dmy t0 ;;
        tomorrow_pack <-
          (if 1 <? length tables then
             t1 <- getitem tables 1 ;;
             p <- parse_table CLASS_MAP strptime_dmy t1 ;;
             Ok (Some p)
           else Ok None) ;;
        Ok (today_pack, tomorrow_pack,
            convert_last_modified (doc_last_modified doc))
  end.

End ParseQueue.

(** How a poll ends: the record is returned and stored; or
    [UpdateFailed] is raised; or an exception of [_build_payload]
    leaves the method as it is.  Each case carries the coordinator
    after the poll. *)
Inductive poll_outcome : Type :=
| Published (self : coordinator)
| UpdateFailed (self : coordinator)
| Propagated (e : error) (self : coordinator).

Section Poll.

Variable CLASS_MAP : list string.
Variable strptime_dmy : string -> option date.
Variable last_modified_as_utc : string -> option string.
Variable date_isoformat : date -> string.
Variable date_fromisoformat : string -> option date.

(** [_async_update_data] from the fetched document on. *)
Definition poll (self : coordinator) (doc : document)
           (polled_at url : string) (clock : readings)
           (now_schedule : datetime) : poll_outcome :=
  match parse_queue CLASS_MAP strptime_dmy last_modified_as_utc doc with
  | Raise _ => UpdateFailed self
  | Ok (today_pack, tomorrow_pack, source_last_modified) =>
      let self := mkCoordinator (queue self) (unsub_precise self)
                                (Some today_pack) tomorrow_pack (data self)
                                (refresh_requests self) in
      match _build_payload date_isoformat (queue self) today_pack
                           tomorrow_pack polled_at url source_last_modified
                           clock with
      | Raise e => Propagated e self
      | Ok p =>
          let self := _schedule_precise_refresh date_fromisoformat self p
                                                now_schedule in
          Published (mkCoordinator (queue self) (unsub_precise self)
                                   (today_pack_cached self)
                                   (tomorrow_pack_cached self) (Some p)
                                   (refresh_requests self))
      end
  end.

End Poll.

(** ** Calendar queries ([calendar.py]) *)

(** [ev.start < end_date and ev.end > start_date]: a comparison of
    instants.  The window is given, like the events, by the fields in
    UTC of its instants. *)
Definition overlaps (start_date end_date : datetime) (ev : CalendarEvent)
  : bool :=
  ((wall_micros (ev_start ev) <? wall_micros end_date)
   && (wall_micros start_date <? wall_micros (ev_end ev)))%Z%bool.

(** [events.sort(key=lambda e: e.start)]: the stable sort, by
    insertion. *)
Fixpoint insert_by_start (ev : CalendarEvent) (sorted : list CalendarEvent)
  : list CalendarEvent :=
  match sorted with
  | [] => [ev]
  | h :: t =>
      if (wall_micros (ev_start h) <? wall_micros (ev_start ev))%Z
      then h :: insert_by_start ev t
      else ev :: h :: t
  end.

Definition sort_by_start (events : list CalendarEvent) : list CalendarEvent :=
  fold_right insert_by_start [] events.

Section CalendarQueries.

Variable summary : string.
Variable date_fromisoformat : string -> option date.
Variable as_utc : datetime -> datetime.

(** [async_get_events]; [coordinator_data] is [self.coordinator.data]. *)
Definition async_get_events (coordinator_data : option payload)
           (start_date end_date : datetime) : exc (list CalendarEvent) :=
  let today_half :=
    match coordinator_data with
    | Some d => pl_today_48half d
    | None => []
    end in
  let tomorrow_half :=
    match coordinator_data with
    | Some d => match pl_tomorrow_48half d with
                | Some h => h
                | None => []
                end
    | None => []
    end in
  let date_today_str := option_map pl_date coordinator_data in
  let date_tomorrow_str :=
    match coordinator_data with
    | Some d => pl_tomorrow_date d
    | None => None
    end in
  today_events <-
    _build_day_events summary date_fromisoformat as_utc date_today_str
                      today_half ;;
  tomorrow_events <-
    _build_day_events summary date_fromisoformat as_utc date_tomorrow_str
                      tomorrow_half ;;
  let events := today_events ++ tomorrow_events in
  Ok (fold_left
        (fun filtered ev =>
           if overlaps start_date end_date ev then filtered ++ [ev]
           else filtered)
        events []).

(** [async_update]: the new value of [self._event]; [now_utc] is the
    reading of [dt_util.utcnow()], an instant given by its fields in
    UTC. *)
Definition async_update (coordinator_data : option payload)
           (now_utc : datetime) : exc (option CalendarEvent) :=
  let start := add_days now_utc (-1) in
  let end_ := add_days now_utc 2 in
  events <- async_get_events coordinator_data start end_ ;;
  let events := sort_by_start events in
  let current :=
    find (fun e => dt_leb (ev_start e) now_utc
                   && (wall_micros now_utc <? wall_micros (ev_end e))%Z)
         events in
  let upcoming :=
    find (fun e => (wall_micros now_utc <? wall_micros (ev_start e))%Z)
         events in
  Ok (match current with
      | Some e => Some e
      | None => upcoming
      end).

End CalendarQueries.

(** ** Group format ([svitlo_ua/config_flow.py]) *)

(** [s.split(sep)] for a separator of one character.  A [str] is held
    as its UTF-8 bytes; the byte of an ASCII separator occurs in them
    only as that character. *)
Fixpoint split_on (sep : ascii) (s : string) : list string :=
  match s with
  | EmptyString => [EmptyString]
  | String c rest =>
      if Ascii.eqb c sep then EmptyString :: split_on sep rest
      else match split_on sep rest with
           | [] => [String c EmptyString]
           | h :: t => String c h :: t
           end
  end.

Section GroupFormat.

(** [str.isdigit] *)
Variable isdigit : string -> bool.

Definition _validate_group_format (group : string) : bool :=
  if (group =? "")%string then false
  else
    match split_on "." group with
    | [p0] => isdigit p0
    | [p0; p1] => isdigit p0 && isdigit p1
    | _ => false
    end.

End GroupFormat.

(** [str.isdigit] on ASCII text: not empty, every character one of
    0..9. *)
Fixpoint all_ascii_digits (s : string) : bool :=
  match s with
  | EmptyString => true
  | String c rest =>
      (48 <=? nat_of_ascii c) && (nat_of_ascii c <=? 57)
      && all_ascii_digits rest
  end.

Definition ascii_isdigit (s : string) : bool :=
  negb (s =? "")%string && all_ascii_digits s.

(** * Properties *)

(** ** Shared facts on loops and lists *)

Lemma fold_left_extend {A B : Type} (f : A -> list B) (l : list A)
      (acc : list B) :
  fold_left (fun acc x => acc ++ f x) l acc = acc ++ concat (map f l).
Proof.
  revert acc; induction l as [|x l IH]; intros acc; simpl.
  - now rewrite app_nil_r.
  - rewrite IH. now rewrite <- app_assoc.
Qed.

Lemma expand_halfhours_concat (hour_classes : list string) :
  expand_halfhours hour_classes
  = concat (map halfhours_from_hour_class hour_classes).
Proof. unfold expand_halfhours. now rewrite fold_left_extend. Qed.

Lemma collect_hour_classes_map (CLASS_MAP : list string) (cells : list td) :
  collect_hour_classes CLASS_MAP cells = map (cell_class CLASS_MAP) cells.
Proof.
  unfold collect_hour_classes.
  rewrite (fold_left_extend (fun c => [cell_class CLASS_MAP c])). simpl.
  induction cells as [|c cells IH]; simpl; [reflexivity|now rewrite IH].
Qed.

Lemma halfhours_from_hour_class_length (cls : string) :
  length (halfhours_from_hour_class cls) = 2.
Proof.
  unfold halfhours_from_hour_class.
  repeat match goal with |- context [if ?b then _ else _] => destruct b end;
    reflexivity.
Qed.

Lemma expand_halfhours_length (hour_classes : list string) :
  length (expand_halfhours hour_classes) = 2 * length hour_classes.
Proof.
  rewrite expand_halfhours_concat.
  induction hour_classes as [|c l IH]; simpl; [reflexivity|].
  rewrite length_app, halfhours_from_hour_class_length, IH. lia.
Qed.

Lemma halfhours_from_hour_class_spec (h : HourClass) :
  halfhours_from_hour_class (hour_class_code h) = spec_expansion h.
Proof. destruct h; reflexivity. Qed.

Lemma halfhours_from_hour_class_other (cls : string) :
  ~ recognised cls -> halfhours_from_hour_class cls = ["on"; "on"].
Proof.
  intros H. unfold halfhours_from_hour_class.
  repeat match goal with
         | |- context [(?a =? ?b)%string] =>
             destruct (String.eqb_spec a b);
             [exfalso; apply H; unfold recognised; auto|]
         end.
  reflexivity.
Qed.

(** Every entry of a derived grid is ["on"] or ["off"]. *)
Lemma expand_halfhours_on_off (hour_classes : list string) (s : string) :
  In s (expand_halfhours hour_classes) -> s = "on" \/ s = "off".
Proof.
  rewrite expand_halfhours_concat.
  induction hour_classes as [|c l IH]; simpl; [tauto|].
  rewrite in_app_iff. intros [H|H]; [|auto].
  unfold halfhours_from_hour_class in H.
  repeat match type of H with
         | context [if ?b then _ else _] => destruct b
         end; simpl in H; intuition auto.
Qed.

(** ** Schedule parser *)

(** C2: for every sequence of 24 hour-class codes the derived half-hour
    grid has exactly 48 entries and is the concatenation, in order, of
    the per-hour expansions; the expansion of the four recognised codes
    is the fixed table on->[on,on], off->[off,off], f4->[off,on],
    f5->[on,off]; every other code expands to [on,on]; and a cell that
    carries no recognised class is read as "on", hence expands to
    [on,on]. *)
Theorem halfhours_grid_mapping (CLASS_MAP : list string)
        (hour_classes : list string) :
  length hour_classes = 24 ->
  length (expand_halfhours hour_classes) = 48
  /\ expand_halfhours hour_classes
     = concat (map halfhours_from_hour_class hour_classes)
  /\ (forall h : HourClass,
        halfhours_from_hour_class (hour_class_code h) = spec_expansion h)
  /\ (forall cls : string,
        ~ recognised cls -> halfhours_from_hour_class cls = ["on"; "on"])
  /\ (forall c : td,
        (forall k, In k (td_get_class c) -> str_in k CLASS_MAP = false) ->
        cell_class CLASS_MAP c = "on"
        /\ halfhours_from_hour_class (cell_class CLASS_MAP c) = ["on"; "on"]).
Proof.
  intros Hlen. repeat split.
  - rewrite expand_halfhours_length, Hlen. reflexivity.
  - apply expand_halfhours_concat.
  - apply halfhours_from_hour_class_spec.
  - apply halfhours_from_hour_class_other.
  - unfold cell_class.
    destruct (find _ (td_get_class c)) as [k|] eqn:E; [|reflexivity].
    apply find_some in E. destruct E as [Hin Hk].
    rewrite (H k Hin) in Hk. discriminate.
  - unfold cell_class.
    destruct (find _ (td_get_class c)) as [k|] eqn:E; [|reflexivity].
    apply find_some in E. destruct E as [Hin Hk].
    rewrite (H k Hin) in Hk. discriminate.
Qed.

Lemma halfhours_grid_mapping_witness :
  length (expand_halfhours
            (["off"; "on"; "on"; "on"; "on"; "f4"] ++ repeat "on" 18)) = 48
  /\ nth_error (expand_halfhours
                  (["off"; "on"; "on"; "on"; "on"; "f4"] ++ repeat "on" 18)) 10
     = Some "off"
  /\ nth_error (expand_halfhours
                  (["off"; "on"; "on"; "on"; "on"; "f4"] ++ repeat "on" 18)) 11
     = Some "on".
Proof.
  split.
  - exact (proj1 (halfhours_grid_mapping
                    ["on"; "off"; "f4"; "f5"]
                    (["off"; "on"; "on"; "on"; "on"; "f4"] ++ repeat "on" 18)
                    eq_refl)).
  - split; reflexivity.
Defined.

(** What [parse_table] returns on a table with a dated header and a
    queue row: the classes of at most the first 24 hour cells. *)
Lemma parse_table_result (CLASS_MAP : list string)
      (strptime_dmy : string -> option date)
      (header : td) (row0 row1 : list td) (rest : list (list td))
      (day : date) :
  strptime_dmy (td_text header) = Some day ->
  parse_table CLASS_MAP strptime_dmy ((header :: row0) :: row1 :: rest)
  = Ok (day,
        map (cell_class CLASS_MAP) (firstn 24 (skipn 1 row1)),
        concat (map halfhours_from_hour_class
                    (map (cell_class CLASS_MAP) (firstn 24 (skipn 1 row1))))).
Proof.
  intros Hd. unfold parse_table. simpl length. simpl Nat.ltb. cbn iota.
  simpl getitem. simpl bind. rewrite Hd.
  assert (Hs : slice_from row1 1 = skipn 1 row1).
  { unfold slice_from, slice_bound. simpl.
    destruct row1 as [|c l]; simpl; [reflexivity|].
    reflexivity. }
  rewrite Hs.
  assert (Hc : (if negb (length (skipn 1 row1) =? 24)
                then slice_to (skipn 1 row1) 24 else skipn 1 row1)
               = firstn 24 (skipn 1 row1)).
  { destruct (Nat.eqb_spec (length (skipn 1 row1)) 24) as [E|E];
      cbn [negb].
    - symmetry. apply firstn_all2. lia.
    - unfold slice_to, slice_bound.
      change (24 <? 0)%Z with false. cbn iota.
      change (Z.to_nat 24) with 24.
      destruct (Nat.le_gt_cases (length (skipn 1 row1)) 24) as [L|L].
      + rewrite Nat.min_r by lia.
        rewrite firstn_all. now rewrite firstn_all2 by lia.
      + rewrite Nat.min_l by lia. reflexivity. }
  rewrite Hc, collect_hour_classes_map, expand_halfhours_concat.
  reflexivity.
Qed.

(** With 24 hour cells or more exactly the first 24 are used. *)
Lemma parse_table_first_24 (CLASS_MAP : list string)
      (strptime_dmy : string -> option date)
      (header label : td) (row0 cells : list td) (rest : list (list td))
      (day : date) :
  strptime_dmy (td_text header) = Some day ->
  24 <= length cells ->
  exists hour_classes halfhours,
    parse_table CLASS_MAP strptime_dmy
                ((header :: row0) :: (label :: cells) :: rest)
    = Ok (day, hour_classes, halfhours)
    /\ hour_classes = map (cell_class CLASS_MAP) (firstn 24 cells)
    /\ length hour_classes = 24 /\ length halfhours = 48.
Proof.
  intros Hd Hl. eexists _, _. split.
  - apply parse_table_result. exact Hd.
  - simpl skipn. split; [reflexivity|].
    rewrite <- expand_halfhours_concat, expand_halfhours_length.
    rewrite length_map, length_firstn. lia.
Qed.

(** With fewer than 24 hour cells the table is accepted, and the
    schedule returned is as short as the row. *)
Lemma parse_table_short_row (CLASS_MAP : list string)
      (strptime_dmy : string -> option date)
      (header label : td) (row0 cells : list td) (rest : list (list td))
      (day : date) :
  strptime_dmy (td_text header) = Some day ->
  length cells < 24 ->
  exists hour_classes halfhours,
    parse_table CLASS_MAP strptime_dmy
                ((header :: row0) :: (label :: cells) :: rest)
    = Ok (day, hour_classes, halfhours)
    /\ length hour_classes = length cells
    /\ length halfhours = 2 * length cells.
Proof.
  intros Hd Hl. eexists _, _. split.
  - apply parse_table_result. exact Hd.
  - simpl skipn.
    rewrite <- expand_halfhours_concat, expand_halfhours_length.
    rewrite length_map, length_firstn. lia.
Qed.

(** C1, on the code: a day table whose queue row has 23 hour cells is
    not rejected.  [parse_table] returns a schedule of 23 hour classes
    and 46 half hours. *)
Theorem parse_table_23_cells_accepted :
  parse_table Sample.class_map Sample.strptime_dmy Sample.rows_23_cells
  = Ok (739252%Z, repeat "off" 23, repeat "off" 46).
Proof. vm_compute. reflexivity. Qed.

(** A row of 25 hour cells is cut to its first 24: the 25th cell, of
    class "f4", leaves no trace. *)
Example parse_table_25_cells_truncated :
  parse_table Sample.class_map Sample.strptime_dmy Sample.rows_25_cells
  = Ok (739252%Z, repeat "off" 24, repeat "off" 48).
Proof. vm_compute. reflexivity. Qed.

(** ** Indexing *)

Lemma getitem_lt {A : Type} (xs : list A) (i : nat) :
  i < length xs ->
  exists x, getitem xs i = Ok x /\ nth_error xs i = Some x.
Proof.
  intros H. unfold getitem.
  destruct (nth_error xs i) as [x|] eqn:E.
  - exists x. auto.
  - apply nth_error_None in E. lia.
Qed.

Lemma getitem_z_nonneg {A : Type} (xs : list A) (i : Z) :
  (0 <= i)%Z -> getitem_z xs i = getitem xs (Z.to_nat i).
Proof.
  intros H. unfold getitem_z.
  destruct (Z.ltb_spec i 0) as [L|L]; [lia|].
  destruct (Z.ltb_spec i 0) as [L'|L']; [lia|reflexivity].
Qed.

Lemma getitem_z_in_range {A : Type} (xs : list A) (i : Z) :
  (0 <= i < Z.of_nat (length xs))%Z ->
  exists x, getitem_z xs i = Ok x /\ nth_error xs (Z.to_nat i) = Some x.
Proof.
  intros H. rewrite getitem_z_nonneg by lia. apply getitem_lt. lia.
Qed.

Lemma seq_split_at (pre post : list nat) (s a n : nat) :
  seq a n = pre ++ s :: post ->
  s = a + length pre /\ pre = seq a (length pre).
Proof.
  revert a n. induction pre as [|p pre IH]; intros a n H.
  - destruct n as [|n]; simpl in H; [discriminate|].
    injection H as H1 _. simpl. split; [lia|reflexivity].
  - destruct n as [|n]; simpl in H; [discriminate|].
    injection H as H1 H2. apply IH in H2. destruct H2 as [H2 H3].
    simpl. split; [lia|]. now rewrite <- H3, H1.
Qed.

(** ** Transition calculator *)

(** The scan stops at the first step whose slot differs from [cur]. *)
Lemma scan_change_spec (series : list string) (cur : string) (idx : Z)
      (steps : list nat) :
  0 < length series ->
  exists r,
    scan_change series cur idx steps = Ok r
    /\ match r with
       | Some j =>
           exists pre s post,
             steps = pre ++ s :: post
             /\ j = ((idx + Z.of_nat s) mod Z.of_nat (length series))%Z
             /\ nth_error series (Z.to_nat j) <> Some cur
             /\ Forall (fun s' =>
                          nth_error series
                            (Z.to_nat ((idx + Z.of_nat s')
                                         mod Z.of_nat (length series)))
                          = Some cur) pre
       | None =>
           Forall (fun s' =>
                     nth_error series
                       (Z.to_nat ((idx + Z.of_nat s')
                                    mod Z.of_nat (length series)))
                     = Some cur) steps
       end.
Proof.
  intros Hn. induction steps as [|step rest IH].
  - exists None. simpl. auto.
  - simpl.
    set (j := ((idx + Z.of_nat step) mod Z.of_nat (length series))%Z).
    assert (Hj : (0 <= j < Z.of_nat (length series))%Z)
      by (apply Z.mod_pos_bound; lia).
    destruct (getitem_z_in_range series j Hj) as [sj [Hg Hs]].
    rewrite Hg. simpl.
    destruct (String.eqb_spec sj cur) as [E|E]; simpl.
    + destruct IH as [r [Hr Hm]]. exists r. split; [exact Hr|].
      destruct r as [j'|].
      * destruct Hm as [pre [s [post [H1 [H2 [H3 H4]]]]]].
        exists (step :: pre), s, post. repeat split; auto.
        -- now rewrite H1.
        -- constructor; [|exact H4]. fold j. now rewrite Hs, E.
      * constructor; [|exact Hm]. fold j. now rewrite Hs, E.
    + exists (Some j). split; [reflexivity|].
      exists [], step, rest. repeat split; auto.
      rewrite Hs. intros C. injection C as C. contradiction.
Qed.

(** C3: on a grid of 48 slots and an index in 0..47, [next_change_idx]
    returns a result; when the result is an index [j], then
    [j = (idx + step) mod 48] for a step in 1..48, slot [j] differs from
    slot [idx], and no earlier step of the scan reaches a differing
    slot; the result is absent exactly when all 48 slots hold the same
    state. *)
Theorem next_change_idx_first_differing (series : list string) (idx : Z) :
  length series = 48 ->
  (0 <= idx < 48)%Z ->
  exists r,
    next_change_idx series idx = Ok r
    /\ match r with
       | Some j =>
           exists step : Z,
             (1 <= step <= 48)%Z
             /\ j = ((idx + step) mod 48)%Z
             /\ nth_error series (Z.to_nat j)
                <> nth_error series (Z.to_nat idx)
             /\ forall s' : Z,
                 (1 <= s' < step)%Z ->
                 nth_error series (Z.to_nat ((idx + s') mod 48))
                 = nth_error series (Z.to_nat idx)
       | None =>
           forall s' : Z,
             (1 <= s' <= 48)%Z ->
             nth_error series (Z.to_nat ((idx + s') mod 48))
             = nth_error series (Z.to_nat idx)
       end
    /\ (r = None <->
        forall i j : nat,
          i < 48 -> j < 48 -> nth_error series i = nth_error series j).
Proof.
  intros Hlen Hidx. unfold next_change_idx.
  destruct (getitem_z_in_range series idx) as [cur [Hg Hc]]; [lia|].
  rewrite Hg. simpl bind.
  destruct (scan_change_spec series cur idx (seq 1 (length series)))
    as [r [Hr Hm]]; [lia|].
  exists r. split; [exact Hr|].
  rewrite Hlen in Hm. change (Z.of_nat 48) with 48%Z in Hm.
  assert (Hcase :
    match r with
    | Some j =>
        exists step : Z,
          (1 <= step <= 48)%Z
          /\ j = ((idx + step) mod 48)%Z
          /\ nth_error series (Z.to_nat j)
             <> nth_error series (Z.to_nat idx)
          /\ forall s' : Z,
              (1 <= s' < step)%Z ->
              nth_error series (Z.to_nat ((idx + s') mod 48))
              = nth_error series (Z.to_nat idx)
    | None =>
        forall s' : Z,
          (1 <= s' <= 48)%Z ->
          nth_error series (Z.to_nat ((idx + s') mod 48))
          = nth_error series (Z.to_nat idx)
    end).
  { destruct r as [j|].
    - destruct Hm as [pre [s [post [H1 [H2 [H3 H4]]]]]].
      pose proof (seq_split_at _ _ _ _ _ H1) as [Hs Hpre].
      assert (Hin : In s (seq 1 48)) by (rewrite H1; apply in_elt).
      apply in_seq in Hin.
      exists (Z.of_nat s). repeat split; try lia; auto.
      + now rewrite Hc.
      + intros s' Hs'. rewrite Hc.
        rewrite Forall_forall in H4.
        specialize (H4 (Z.to_nat s')).
        rewrite Z2Nat.id in H4 by lia. apply H4.
        rewrite Hpre. apply in_seq. lia.
    - intros s' Hs'. rewrite Hc.
      rewrite Forall_forall in Hm.
      specialize (Hm (Z.to_nat s')).
      rewrite Z2Nat.id in Hm by lia. apply Hm.
      apply in_seq. lia. }
  split; [exact Hcase|].
  split.
  - intros ->. 
    assert (Hall : forall i, i < 48 ->
                     nth_error series i = nth_error series (Z.to_nat idx)).
    { intros i Hi.
      set (d := ((Z.of_nat i - idx) mod 48)%Z).
      assert (Hd : (0 <= d < 48)%Z) by (apply Z.mod_pos_bound; lia).
      specialize (Hcase (if (d =? 0)%Z then 48%Z else d)).
      assert (Hk : ((idx + (if (d =? 0)%Z then 48 else d)) mod 48
                    = Z.of_nat i)%Z).
      { subst d. destruct (Z.eqb_spec ((Z.of_nat i - idx) mod 48) 0);
          Z.to_euclidean_division_equations; lia. }
      rewrite Hk, Nat2Z.id in Hcase. apply Hcase.
      destruct (Z.eqb_spec d 0); lia. }
    intros i j Hi Hj. rewrite (Hall i Hi), (Hall j Hj). reflexivity.
  - intros Hsame. destruct r as [j|]; [|reflexivity]. exfalso.
    destruct Hcase as [step [H1 [H2 [H3 _]]]].
    assert (Hb : (0 <= j < 48)%Z)
      by (rewrite H2; apply Z.mod_pos_bound; lia).
    apply H3. apply Hsame; lia.
Qed.

Lemma next_change_idx_first_differing_witness :
  length (repeat "off" 12 ++ repeat "on" 36) = 48
  /\ (0 <= 20 < 48)%Z
  /\ next_change_idx (repeat "off" 12 ++ repeat "on" 36) 20 = Ok (Some 0%Z).
Proof.
  split; [reflexivity|]. split; [lia|].
  destruct (next_change_idx_first_differing
              (repeat "off" 12 ++ repeat "on" 36) 20 eq_refl)
    as [r [Hr _]]; [lia|].
  vm_compute. reflexivity.
Defined.

(** *** The search sequence of [find_next_at] *)

Lemma nth_map_seq {A : Type} (f : nat -> A) (a len n : nat) (d : A) :
  n < len -> nth n (map f (seq a len)) d = f (a + n).
Proof.
  intros H.
  rewrite (nth_indep _ d (f 0)) by (rewrite length_map, length_seq; lia).
  rewrite map_nth. now rewrite seq_nth by lia.
Qed.

Lemma firstn_as_map (xs : list string) (k : nat) :
  k <= length xs ->
  firstn k xs = map (fun i => nth i xs "") (seq 0 k).
Proof.
  intros Hk. apply nth_ext with (d := "") (d' := "").
  - rewrite length_firstn, length_map, length_seq. lia.
  - intros n Hn. rewrite length_firstn in Hn.
    rewrite nth_firstn, nth_map_seq by lia.
    destruct (Nat.ltb_spec n k) as [L|L]; [reflexivity|lia].
Qed.

Lemma skipn_as_map (xs : list string) (k : nat) :
  skipn k xs = map (fun i => nth i xs "") (seq k (length xs - k)).
Proof.
  apply nth_ext with (d := "") (d' := "").
  - rewrite length_skipn, length_map, length_seq. reflexivity.
  - intros n Hn. rewrite length_skipn in Hn.
    now rewrite nth_skipn, nth_map_seq by lia.
Qed.

Lemma slice_bound_in_range (n : nat) (a : Z) :
  (0 <= a <= Z.of_nat n)%Z -> slice_bound n a = Z.to_nat a.
Proof.
  intros H. unfold slice_bound.
  destruct (Z.ltb_spec a 0); [lia|]. lia.
Qed.

Lemma slice_bound_le (n : nat) (a : Z) : slice_bound n a <= n.
Proof.
  unfold slice_bound. destruct (Z.ltb_spec a 0); lia.
Qed.

(** The rotation holds every entry of the list, whatever the index. *)
Lemma rotation_In (xs : list string) (a : Z) (s : string) :
  In s (slice_from xs a ++ slice_to xs a) <-> In s xs.
Proof.
  unfold slice_from, slice_to. rewrite in_app_iff.
  rewrite <- (firstn_skipn (slice_bound (length xs) a) xs) at 5.
  rewrite in_app_iff. tauto.
Qed.

Lemma search_order_permutation (idx : nat) :
  idx < 48 -> Permutation (search_order idx) (seq 0 48).
Proof.
  intros H. unfold search_order.
  assert (E : seq 0 48 = seq 0 (idx + 1) ++ seq (idx + 1) (47 - idx)).
  { pose proof (seq_app (idx + 1) (47 - idx) 0) as A.
    change (0 + (idx + 1)) with (idx + 1) in A.
    rewrite <- A. f_equal. lia. }
  rewrite E. apply Permutation_app_comm.
Qed.

Lemma search_sequence_spec (today_half : list string) (idx : Z)
      (tomorrow_pack : option pack) :
  length today_half = 48 ->
  (0 <= idx < 48)%Z ->
  (forall d hc th, tomorrow_pack = Some (d, hc, th) -> length th = 48) ->
  search_sequence today_half idx tomorrow_pack
  = spec_search_sequence today_half (Z.to_nat idx) tomorrow_pack.
Proof.
  intros Hlen Hidx Htom.
  unfold search_sequence, spec_search_sequence, search_order.
  unfold slice_from, slice_to.
  rewrite slice_bound_in_range by lia.
  replace (Z.to_nat (idx + 1)) with (Z.to_nat idx + 1) by lia.
  rewrite skipn_as_map, firstn_as_map by lia.
  rewrite Hlen, map_app.
  replace (48 - (Z.to_nat idx + 1)) with (47 - Z.to_nat idx) by lia.
  destruct tomorrow_pack as [[[d hc] th]|]; [|now rewrite app_nil_r].
  f_equal.
  rewrite <- (firstn_all th) at 1.
  rewrite (Htom d hc th eq_refl). apply firstn_as_map.
  rewrite (Htom d hc th eq_refl). lia.
Qed.

(** [first_match] finds the first position whose entry is a target. *)
Lemma first_match_Some (ts xs : list string) (p : nat) :
  first_match ts xs = Some p <->
  (exists s, nth_error xs p = Some s /\ str_in s ts = true)
  /\ (forall q s', q < p -> nth_error xs q = Some s' -> str_in s' ts = false).
Proof.
  revert p. induction xs as [|x xs IH]; intros p; simpl.
  - split; [discriminate|].
    intros [[s [H _]] _]. destruct p; discriminate.
  - destruct (str_in x ts) eqn:E.
    + split.
      * intros H. injection H as <-. split.
        -- exists x. auto.
        -- intros q s' Hq. lia.
      * intros [_ H]. destruct p as [|p]; [reflexivity|].
        specialize (H 0 x (Nat.lt_0_succ p) eq_refl). congruence.
    + destruct p as [|p].
      * split.
        -- destruct (first_match ts xs); discriminate.
        -- intros [[s [H1 H2]] _]. simpl in H1. congruence.
      * specialize (IH p).
        assert (Hshift :
          ((exists s, nth_error (x :: xs) (S p) = Some s
                      /\ str_in s ts = true)
           /\ (forall q s', q < S p -> nth_error (x :: xs) q = Some s'
                            -> str_in s' ts = false))
          <-> ((exists s, nth_error xs p = Some s /\ str_in s ts = true)
               /\ (forall q s', q < p -> nth_error xs q = Some s'
                                -> str_in s' ts = false))).
        { simpl. split; intros [H1 H2]; (split; [exact H1|]).
          - intros q s' Hq Hs'. apply (H2 (S q)); [lia|exact Hs'].
          - intros [|q] s' Hq Hs'; simpl in Hs'; [congruence|].
            apply (H2 q); [lia|exact Hs']. }
        rewrite Hshift, <- IH.
        destruct (first_match ts xs) as [p'|]; simpl.
        -- split; intros H; injection H as H; now subst.
        -- split; discriminate.
Qed.

Lemma first_match_None (ts xs : list string) :
  first_match ts xs = None <-> forall s, In s xs -> str_in s ts = false.
Proof.
  induction xs as [|x xs IH]; simpl.
  - split; [intros _ s []|reflexivity].
  - destruct (str_in x ts) eqn:E.
    + split; [discriminate|]. intros H.
      rewrite (H x) in E by (left; reflexivity). discriminate.
    + destruct (first_match ts xs) as [p|]; simpl.
      * split; [discriminate|]. intros H.
        assert (C : Some p = None)
          by (apply IH; intros s Hs; apply H; right; exact Hs).
        discriminate.
      * split; [|reflexivity]. intros _ s [<-|Hs]; [exact E|].
        now apply (proj1 IH).
Qed.

Lemma first_match_lt (ts xs : list string) (p : nat) :
  first_match ts xs = Some p -> p < length xs.
Proof.
  intros H. apply first_match_Some in H.
  destruct H as [[s [H _]] _].
  apply nth_error_Some. congruence.
Qed.

(** *** Wall-clock arithmetic *)

Lemma wall_minutes_add_minutes (d : datetime) (k : Z) :
  wall_minutes (add_minutes d k) = (wall_minutes d + k)%Z.
Proof.
  unfold wall_minutes, add_minutes. simpl.
  Z.to_euclidean_division_equations. lia.
Qed.

Lemma add_minutes_valid (d : datetime) (k : Z) :
  valid_datetime d -> valid_datetime (add_minutes d k).
Proof.
  unfold valid_datetime, add_minutes. simpl. intros H.
  repeat split; try tauto; Z.to_euclidean_division_equations; lia.
Qed.

Lemma base_aligned_valid (now : datetime) :
  valid_datetime now -> valid_datetime (base_aligned now).
Proof.
  unfold valid_datetime, base_aligned. simpl. intros H.
  destruct (Z.ltb_spec (dt_minute now) 30); lia.
Qed.

(** [base_aligned now] is the start of the half hour that holds
    [now]. *)
Lemma base_aligned_truncates (now : datetime) :
  valid_datetime now ->
  dt_date (base_aligned now) = dt_date now
  /\ dt_hour (base_aligned now) = dt_hour now
  /\ dt_minute (base_aligned now) = (30 * (dt_minute now / 30))%Z
  /\ (dt_minute (base_aligned now) = 0 \/ dt_minute (base_aligned now) = 30)%Z
  /\ dt_second (base_aligned now) = 0%Z
  /\ dt_microsecond (base_aligned now) = 0%Z
  /\ (wall_micros (base_aligned now) <= wall_micros now
      < wall_micros (base_aligned now) + 30 * 60 * 1000000)%Z.
Proof.
  unfold valid_datetime, base_aligned, wall_micros, wall_minutes.
  cbn [dt_date dt_hour dt_minute dt_second dt_microsecond].
  intros H.
  destruct (Z.ltb_spec (dt_minute now) 30) as [L|L].
  - assert (E : (dt_minute now / 30 = 0)%Z) by (apply Z.div_small; lia).
    rewrite E. repeat split; lia.
  - assert (E : (dt_minute now / 30 = 1)%Z).
    { symmetry. apply (Z.div_unique _ 30 1 (dt_minute now - 30)); lia. }
    rewrite E. repeat split; lia.
Qed.

(** Half-hour steps from an aligned base stay on :00 and :30. *)
Lemma add_half_hours_aligned (now : datetime) (k : Z) :
  valid_datetime now ->
  (dt_minute (add_minutes (base_aligned now) (k * 30)) = 0
   \/ dt_minute (add_minutes (base_aligned now) (k * 30)) = 30)%Z
  /\ dt_second (add_minutes (base_aligned now) (k * 30)) = 0%Z
  /\ dt_microsecond (add_minutes (base_aligned now) (k * 30)) = 0%Z.
Proof.
  unfold valid_datetime, add_minutes, base_aligned. simpl. intros H.
  destruct (Z.ltb_spec (dt_minute now) 30);
    (split; [|split; reflexivity]);
    Z.to_euclidean_division_equations; lia.
Qed.

(** C4: on a timeline of 48-slot grids and a slot index in 0..47,
    [find_next_at] searches today's slots idx+1..47, then 0..idx, each
    slot of today once, then tomorrow's slots 0..47 when tomorrow is
    present; when the first entry of that sequence in the target states
    is at position [p], the result is the start of the half hour that
    holds [now] plus (p+1)*30 minutes, an instant on :00 or :30 with
    zero seconds and microseconds. *)
Theorem find_next_at_aligned (target_states : list string) (base_date : date)
        (today_half : list string) (idx : Z) (tomorrow_pack : option pack)
        (now : datetime) :
  length today_half = 48 ->
  (0 <= idx < 48)%Z ->
  (forall d hc th, tomorrow_pack = Some (d, hc, th) -> length th = 48) ->
  valid_datetime now ->
  search_sequence today_half idx tomorrow_pack
  = spec_search_sequence today_half (Z.to_nat idx) tomorrow_pack
  /\ Permutation (search_order (Z.to_nat idx)) (seq 0 48)
  /\ (dt_date (base_aligned now) = dt_date now
      /\ dt_hour (base_aligned now) = dt_hour now
      /\ dt_minute (base_aligned now) = (30 * (dt_minute now / 30))%Z
      /\ dt_second (base_aligned now) = 0%Z
      /\ dt_microsecond (base_aligned now) = 0%Z)
  /\ forall (p : nat) (s : string),
      nth_error (spec_search_sequence today_half (Z.to_nat idx) tomorrow_pack)
                p = Some s ->
      str_in s target_states = true ->
      (forall q s',
          q < p ->
          nth_error
            (spec_search_sequence today_half (Z.to_nat idx) tomorrow_pack) q
          = Some s' ->
          str_in s' target_states = false) ->
      exists r,
        find_next_at target_states base_date today_half idx tomorrow_pack now
        = Some r
        /\ r = add_minutes (base_aligned now) ((Z.of_nat p + 1) * 30)
        /\ wall_minutes r
           = (wall_minutes (base_aligned now) + (Z.of_nat p + 1) * 30)%Z
        /\ (dt_minute r = 0 \/ dt_minute r = 30)%Z
        /\ dt_second r = 0%Z
        /\ dt_microsecond r = 0%Z
        /\ valid_datetime r.
Proof.
  intros Hlen Hidx Htom Hnow.
  pose proof (search_sequence_spec today_half idx tomorrow_pack
                                   Hlen Hidx Htom) as Hseq.
  split; [exact Hseq|].
  split; [apply search_order_permutation; lia|].
  split.
  { pose proof (base_aligned_truncates now Hnow). tauto. }
  intros p s Hp Hs Hfirst.
  assert (F : first_match target_states
                (search_sequence today_half idx tomorrow_pack) = Some p).
  { rewrite Hseq. apply first_match_Some. split; [eauto|exact Hfirst]. }
  unfold find_next_at. rewrite F.
  eexists. split; [reflexivity|]. split; [reflexivity|].
  split; [apply wall_minutes_add_minutes|].
  pose proof (add_half_hours_aligned now (Z.of_nat p + 1) Hnow) as A.
  repeat split; try tauto.
  all: apply add_minutes_valid, base_aligned_valid; exact Hnow.
Qed.

Lemma find_next_at_aligned_witness :
  find_next_at ["on"] 739252%Z (repeat "off" 12 ++ repeat "on" 36) 3 None
               (mkDatetime 739252 1 47 12 345)
  = Some (mkDatetime 739252 6 0 0 0).
Proof.
  destruct (find_next_at_aligned
              ["on"] 739252%Z (repeat "off" 12 ++ repeat "on" 36) 3 None
              (mkDatetime 739252 1 47 12 345))
    as [_ [_ [_ H]]].
  - reflexivity.
  - lia.
  - intros d hc th E. discriminate E.
  - unfold valid_datetime. simpl. lia.
  - destruct (H 8 "on") as [r [Hr [-> _]]].
    + reflexivity.
    + reflexivity.
    + intros q s' Hq Hs'.
      do 8 (destruct q as [|q]; [simpl in Hs'; injection Hs' as <-;
                                 reflexivity|]).
      lia.
    + exact Hr.
Defined.

Lemma search_sequence_In (today_half : list string) (idx : Z)
      (tomorrow_pack : option pack) (s : string) :
  In s (search_sequence today_half idx tomorrow_pack) <->
  In s today_half
  \/ exists d hc th, tomorrow_pack = Some (d, hc, th) /\ In s th.
Proof.
  unfold search_sequence.
  destruct tomorrow_pack as [[[d hc] th]|].
  - rewrite in_app_iff, rotation_In. split.
    + intros [H|H]; [left; exact H|right; eauto].
    + intros [H|[d' [hc' [th' [E H]]]]]; [left; exact H|].
      injection E as -> -> ->. right; exact H.
  - rewrite rotation_In. split; [auto|].
    intros [H|[d [hc [th [E _]]]]]; [exact H|discriminate].
Qed.

Lemma search_sequence_length_today (today_half : list string) (idx : Z) :
  length (search_sequence today_half idx None) = length today_half.
Proof.
  unfold search_sequence, slice_from, slice_to.
  rewrite length_app, length_skipn, length_firstn.
  pose proof (slice_bound_le (length today_half) (idx + 1)). lia.
Qed.

(** C9: [find_next_at] returns absent exactly when no slot of today's
    48-slot grid and, when tomorrow is present, no slot of tomorrow's
    grid is in the target states.  In particular, with no tomorrow
    schedule, a target state that occurs in a slot of today at or
    before [idx] still gives an instant, after the start of the current
    half hour and at most 24 hours after it. *)
Theorem find_next_at_absent_iff (target_states : list string)
        (base_date : date) (today_half : list string) (idx : Z)
        (tomorrow_pack : option pack) (now : datetime) :
  length today_half = 48 ->
  (0 <= idx < 48)%Z ->
  (find_next_at target_states base_date today_half idx tomorrow_pack now
   = None
   <-> (forall s, In s today_half -> str_in s target_states = false)
       /\ (forall d hc th,
              tomorrow_pack = Some (d, hc, th) ->
              forall s, In s th -> str_in s target_states = false))
  /\ (forall (k : nat) (s : string),
         tomorrow_pack = None ->
         (Z.of_nat k <= idx)%Z ->
         nth_error today_half k = Some s ->
         str_in s target_states = true ->
         exists r,
           find_next_at target_states base_date today_half idx None now
           = Some r
           /\ (wall_minutes (base_aligned now) < wall_minutes r
               <= wall_minutes (base_aligned now) + 24 * 60)%Z).
Proof.
  intros Hlen Hidx. split.
  - unfold find_next_at.
    destruct (first_match target_states
                (search_sequence today_half idx tomorrow_pack))
      as [p|] eqn:F.
    + split; [discriminate|]. intros [H1 H2]. exfalso.
      apply first_match_Some in F. destruct F as [[s [Hs Ht]] _].
      apply nth_error_In in Hs. apply search_sequence_In in Hs.
      destruct Hs as [Hs|[d [hc [th [E Hs]]]]].
      * rewrite (H1 s Hs) in Ht. discriminate.
      * rewrite (H2 d hc th E s Hs) in Ht. discriminate.
    + split; [|reflexivity]. intros _.
      pose proof (proj1 (first_match_None _ _) F) as N.
      split.
      * intros s Hs. apply N. apply search_sequence_In. left; exact Hs.
      * intros d hc th E s Hs. apply N. apply search_sequence_In.
        right. eauto.
  - intros k s _ Hk Hs Ht. unfold find_next_at.
    destruct (first_match target_states
                (search_sequence today_half idx None)) as [p|] eqn:F.
    + eexists. split; [reflexivity|].
      rewrite wall_minutes_add_minutes.
      apply first_match_lt in F.
      rewrite search_sequence_length_today, Hlen in F. lia.
    + exfalso.
      pose proof (proj1 (first_match_None _ _) F s) as N.
      rewrite N in Ht; [discriminate|].
      apply search_sequence_In. left. eapply nth_error_In; exact Hs.
Qed.

Lemma find_next_at_absent_iff_witness :
  exists r,
    find_next_at ["off"] 739252 (repeat "off" 12 ++ repeat "on" 36) 40 None
                 (mkDatetime 739252 20 10 0 0)
    = Some r
    /\ (wall_minutes (base_aligned (mkDatetime 739252 20 10 0 0))
        < wall_minutes r
        <= wall_minutes (base_aligned (mkDatetime 739252 20 10 0 0))
           + 24 * 60)%Z.
Proof.
  destruct (find_next_at_absent_iff
              ["off"] 739252 (repeat "off" 12 ++ repeat "on" 36) 40 None
              (mkDatetime 739252 20 10 0 0)) as [_ H].
  - reflexivity.
  - lia.
  - apply (H 5 "off").
    + reflexivity.
    + lia.
    + reflexivity.
    + reflexivity.
Defined.

(** A day that is on throughout and has no tomorrow schedule has no
    next off instant. *)
Example find_next_at_all_on :
  find_next_at ["off"] 739252 (repeat "on" 48) 20 None
               (mkDatetime 739252 10 15 0 0) = None.
Proof. reflexivity. Qed.

(** C6: the slot index is [hour*2 + (1 if minute >= 30 else 0)] when
    the date of [now] is the date of today's schedule, and 0 when the
    dates differ; 10:15 gives 20 and 10:45 gives 21. *)
Theorem current_slot_index_cases :
  (forall now today_date,
      dt_date now = today_date ->
      current_slot_index now today_date
      = (dt_hour now * 2 + (if 30 <=? dt_minute now then 1 else 0))%Z)
  /\ (forall now today_date,
         dt_date now <> today_date ->
         current_slot_index now today_date = 0%Z)
  /\ (forall d s us, current_slot_index (mkDatetime d 10 15 s us) d = 20%Z)
  /\ (forall d s us, current_slot_index (mkDatetime d 10 45 s us) d = 21%Z).
Proof.
  unfold current_slot_index. repeat split.
  - intros now today_date E.
    destruct (Z.eqb_spec (dt_date now) today_date); [reflexivity|].
    contradiction.
  - intros now today_date E.
    destruct (Z.eqb_spec (dt_date now) today_date); [|reflexivity].
    contradiction.
  - intros d s us. simpl. now rewrite Z.eqb_refl.
  - intros d s us. simpl. now rewrite Z.eqb_refl.
Qed.

(** For a valid reading of the clock the slot index is in 0..47. *)
Lemma current_slot_index_range (now : datetime) (today_date : date) :
  valid_datetime now ->
  (0 <= current_slot_index now today_date < 48)%Z.
Proof.
  unfold valid_datetime, current_slot_index. intros H.
  destruct (negb _); [lia|].
  destruct (Z.leb_spec 30 (dt_minute now)); lia.
Qed.

(** ** Interval builder *)

Lemma at_time_slot (day : date) (n : nat) :
  n < 48 ->
  at_time day (Z.of_nat (n / 2)) (if negb (n mod 2 =? 0) then 30%Z else 0%Z)
  = Ok (mkDatetime day (Z.of_nat (n / 2))
                   (if n mod 2 =? 0 then 0%Z else 30%Z) 0 0).
Proof.
  intros Hn. unfold at_time.
  assert (B : n / 2 < 24) by (apply Nat.Div0.div_lt_upper_bound; lia).
  replace (0 <=? Z.of_nat (n / 2))%Z with true by (symmetry; lia).
  replace (Z.of_nat (n / 2) <? 24)%Z with true by (symmetry; lia).
  destruct (n mod 2 =? 0); reflexivity.
Qed.

(** [_make_event] succeeds on the slot ranges of a day, with the event
    of the run. *)
Lemma make_event_value (summary : string) (as_utc : datetime -> datetime)
      (day : date) (a e : nat) :
  a < 48 -> e <= 48 ->
  _make_event summary as_utc day a e = Ok (run_event summary as_utc day a e).
Proof.
  intros Ha He. unfold _make_event, run_event, slot_time.
  rewrite (at_time_slot day a Ha). cbn [bind].
  destruct (Nat.ltb_spec e 48) as [L|L]; cbv iota.
  - rewrite (at_time_slot day e L). reflexivity.
  - reflexivity.
Qed.

Lemma run_event_bounds (summary : string) (as_utc : datetime -> datetime)
      (day : date) (a e : nat) :
  a < 48 ->
  ev_start (run_event summary as_utc day a e) = as_utc (slot_boundary day a)
  /\ ev_end (run_event summary as_utc day a e) = as_utc (slot_boundary day e).
Proof.
  intros Ha. unfold run_event, slot_boundary. cbn [ev_start ev_end].
  destruct (Nat.ltb_spec a 48) as [_|L]; [|lia]. split; reflexivity.
Qed.

(** One iteration keeps the invariant and raises nothing. *)
Lemma run_step_inv (summary : string) (as_utc : datetime -> datetime)
      (base_day : date) (halfhours : list string) (k : nat)
      (st : run_state) :
  length halfhours = 48 -> k < 48 ->
  run_inv summary as_utc base_day halfhours k st ->
  exists st',
    run_step summary as_utc base_day halfhours st k = Ok st'
    /\ run_inv summary as_utc base_day halfhours (S k) st'.
Proof.
  intros Hlen Hk [I1 [I2 [I3 [runs [b [Hev [Hchain [Hb Hcov]]]]]]]].
  unfold run_step.
  destruct (getitem_lt halfhours k) as [h [Hg Hn]]; [lia|].
  rewrite Hg. cbn [bind].
  destruct (String.eqb_spec h (current_state st)) as [E|E]; cbn [negb];
    cbv iota.
  - exists st. split; [reflexivity|].
    split; [lia|]. split.
    { intros i Hi. destruct (Nat.eq_dec i k) as [->|N].
      - now rewrite Hn, E.
      - apply I2. lia. }
    split; [exact I3|]. exists runs, b. auto.
  - assert (Hprev : nth_error halfhours (k - 1) = Some (current_state st))
      by (apply I2; lia).
    assert (Hbefore : k = 0 \/ nth_error halfhours (k - 1) <> Some h).
    { right. rewrite Hprev. intros C. injection C as C. congruence. }
    destruct (String.eqb_spec (current_state st) "off") as [O|O].
    + rewrite (make_event_value summary as_utc base_day (start_idx st) k)
        by lia.
      cbn [bind]. eexists. split; [reflexivity|].
      unfold run_inv. cbn [events current_state start_idx].
      split; [lia|]. split.
      { intros i Hi. assert (i = k) by lia. subst i. exact Hn. }
      split; [exact Hbefore|].
      exists (runs ++ [(start_idx st, k)]), (S k).
      split; [rewrite Hev, map_app; reflexivity|].
      split.
      { apply run_chain_snoc with (b := b); [exact Hchain|lia|].
        unfold is_off_run. split; [lia|]. split; [|split].
        - intros i Hi. rewrite I2 by lia. now rewrite O.
        - destruct I3 as [Z0|N]; [left; exact Z0|right].
          now rewrite <- O.
        - right. rewrite Hn. intros C. injection C as C. congruence. }
      split.
      { destruct (String.eqb_spec h "off") as [Eh|_]; [congruence|lia]. }
      intros i Hi Hoff.
      destruct (Nat.lt_ge_cases i (start_idx st)) as [L|L].
      * destruct (Hcov i L Hoff) as [r [Hin Hr]].
        exists r. split; [apply in_app_iff; left; exact Hin|exact Hr].
      * exists (start_idx st, k).
        split; [apply in_app_iff; right; left; reflexivity|].
        cbn [fst snd]. lia.
    + cbn [bind]. eexists. split; [reflexivity|].
      unfold run_inv. cbn [events current_state start_idx].
      split; [lia|]. split.
      { intros i Hi. assert (i = k) by lia. subst i. exact Hn. }
      split; [exact Hbefore|].
      exists runs, b. split; [exact Hev|]. split; [exact Hchain|].
      split.
      { destruct (String.eqb_spec (current_state st) "off") as [O'|_];
          [contradiction|].
        destruct (h =? "off")%string; lia. }
      intros i Hi Hoff.
      destruct (Nat.lt_ge_cases i (start_idx st)) as [L|L].
      * exact (Hcov i L Hoff).
      * exfalso. rewrite I2 in Hoff by lia. congruence.
Qed.

(** The loop from iteration [k] to iteration 47. *)
Lemma run_loop_inv (summary : string) (as_utc : datetime -> datetime)
      (base_day : date) (halfhours : list string) (n k : nat)
      (st : run_state) :
  length halfhours = 48 -> k + n = 48 ->
  run_inv summary as_utc base_day halfhours k st ->
  exists st',
    run_loop summary as_utc base_day halfhours st (seq k n) = Ok st'
    /\ run_inv summary as_utc base_day halfhours 48 st'.
Proof.
  intros Hlen. revert k st. induction n as [|n IH]; intros k st Hk Hinv.
  - simpl. exists st. split; [reflexivity|].
    replace 48 with k by lia. exact Hinv.
  - simpl.
    destruct (run_step_inv summary as_utc base_day halfhours k st Hlen
                           ltac:(lia) Hinv) as [st1 [H1 Hinv1]].
    rewrite H1. cbn [bind]. apply IH; [lia|exact Hinv1].
Qed.

Lemma run_chain_In (halfhours : list string) (runs : list (nat * nat))
      (b : nat) :
  run_chain halfhours runs b ->
  forall r, In r runs ->
    is_off_run halfhours (fst r) (snd r) /\ S (snd r) <= b.
Proof.
  induction 1 as [|runs b s e Hc IH Hb Hrun]; intros r Hin.
  - destruct Hin.
  - apply in_app_iff in Hin. destruct Hin as [Hin|[<-|[]]].
    + destruct (IH r Hin) as [H1 H2]. split; [exact H1|].
      destruct Hrun as [Hr _]. lia.
    + cbn [fst snd]. split; [exact Hrun|lia].
Qed.

Lemma run_chain_length (halfhours : list string) (runs : list (nat * nat))
      (b : nat) :
  run_chain halfhours runs b -> 2 * length runs <= b.
Proof.
  induction 1 as [|runs b s e Hc IH Hb Hrun]; [simpl; lia|].
  rewrite length_app. simpl. destruct Hrun as [Hr _]. lia.
Qed.

Lemma run_chain_ordered (halfhours : list string) (runs : list (nat * nat))
      (b : nat) :
  run_chain halfhours runs b ->
  forall i j r1 r2,
    i < j ->
    nth_error runs i = Some r1 ->
    nth_error runs j = Some r2 ->
    snd r1 < fst r2.
Proof.
  induction 1 as [|runs b s e Hc IH Hb Hrun];
    intros i j r1 r2 Hij H1 H2.
  - destruct i; discriminate.
  - assert (Hj : j < length (runs ++ [(s, e)]))
      by (apply nth_error_Some; congruence).
    rewrite length_app in Hj. simpl in Hj.
    destruct (Nat.lt_ge_cases j (length runs)) as [L|L].
    + rewrite nth_error_app1 in H1, H2 by lia.
      exact (IH i j r1 r2 Hij H1 H2).
    + assert (j = length runs) by lia. subst j.
      rewrite nth_error_app1 in H1 by lia.
      rewrite nth_error_app2, Nat.sub_diag in H2 by lia.
      injection H2 as <-.
      destruct (run_chain_In _ _ _ Hc r1 (nth_error_In _ _ H1)) as [_ A].
      cbn [fst]. lia.
Qed.

Lemma off_runs_meet (halfhours : list string) (s e s' e' i : nat) :
  is_off_run halfhours s e -> is_off_run halfhours s' e' ->
  s <= i < e -> s' <= i < e' ->
  s' = s /\ e' = e.
Proof.
  intros [R1 [R2 [R3 R4]]] [R1' [R2' [R3' R4']]] Hi Hi'.
  assert (Hs : s' = s).
  { destruct (Nat.lt_trichotomy s' s) as [L|[E|L]]; [|exact E|].
    - exfalso. destruct R3 as [Z0|N]; [lia|]. apply N. apply R2'. lia.
    - exfalso. destruct R3' as [Z0|N]; [lia|]. apply N. apply R2. lia. }
  split; [exact Hs|].
  destruct (Nat.lt_trichotomy e' e) as [L|[E|L]]; [|exact E|].
  - exfalso. destruct R4' as [Z0|N]; [lia|]. apply N. apply R2. lia.
  - exfalso. destruct R4 as [Z0|N]; [lia|]. apply N. apply R2'. lia.
Qed.

(** On a dated day with a grid of 48 slots the builder returns the
    events of a chain of whole off runs that hold every off slot; when
    the day ends off, the last run reaches slot 48 and no other does. *)
Lemma build_day_events_runs (summary : string)
      (date_fromisoformat : string -> option date)
      (as_utc : datetime -> datetime)
      (s : string) (base_day : date) (halfhours : list string) :
  s <> "" ->
  date_fromisoformat s = Some base_day ->
  length halfhours = 48 ->
  exists runs b,
    _build_day_events summary date_fromisoformat as_utc (Some s) halfhours
    = Ok (map (fun r => run_event summary as_utc base_day (fst r) (snd r))
              runs)
    /\ run_chain halfhours runs b
    /\ b <= 49
    /\ (forall i, i < 48 ->
          nth_error halfhours i = Some "off" ->
          exists r, In r runs /\ fst r <= i < snd r)
    /\ (nth_error halfhours 47 = Some "off" ->
        exists pre a,
          runs = pre ++ [(a, 48)]
          /\ forall r, In r pre -> snd r < 48).
Proof.
  intros Hs Hd Hlen. unfold _build_day_events.
  destruct (String.eqb_spec s "") as [E|_]; [contradiction|].
  rewrite Hlen. cbn [orb negb Nat.eqb]. cbv iota. rewrite Hd.
  destruct (getitem_lt halfhours 0) as [h0 [Hg Hn]]; [lia|].
  rewrite Hg. cbn [bind].
  destruct (run_loop_inv summary as_utc base_day halfhours 47 1
                         (mkRunState [] h0 0) Hlen eq_refl)
    as [st [Hrun [I1 [I2 [I3 [runs [b [Hev [Hchain [Hb Hcov]]]]]]]]]].
  { unfold run_inv. cbn [events current_state start_idx].
    split; [lia|].
    split; [intros i Hi; assert (i = 0) by lia; now subst i|].
    split; [left; reflexivity|].
    exists [], 0. split; [reflexivity|]. split; [constructor|].
    split; [lia|]. intros i Hi. lia. }
  rewrite Hrun. cbn [bind].
  assert (H47 : nth_error halfhours 47 = Some (current_state st))
    by (apply I2; lia).
  destruct (String.eqb_spec (current_state st) "off") as [O|O].
  - rewrite (make_event_value summary as_utc base_day (start_idx st) 48)
      by lia.
    cbn [bind].
    exists (runs ++ [(start_idx st, 48)]), 49.
    split; [rewrite Hev, map_app; reflexivity|].
    split.
    { apply run_chain_snoc with (b := b); [exact Hchain|lia|].
      unfold is_off_run. split; [lia|]. split; [|split].
      - intros i Hi. rewrite I2 by lia. now rewrite O.
      - destruct I3 as [Z0|N]; [left; exact Z0|right]. now rewrite <- O.
      - left; reflexivity. }
    split; [lia|]. split.
    + intros i Hi Hoff.
      destruct (Nat.lt_ge_cases i (start_idx st)) as [L|L].
      * destruct (Hcov i L Hoff) as [r [Hin Hr]].
        exists r. split; [apply in_app_iff; left; exact Hin|exact Hr].
      * exists (start_idx st, 48).
        split; [apply in_app_iff; right; left; reflexivity|].
        cbn [fst snd]. lia.
    + intros _. exists runs, (start_idx st). split; [reflexivity|].
      intros r Hin.
      destruct (run_chain_In _ _ _ Hchain r Hin) as [_ A]. lia.
  - exists runs, b. split; [rewrite Hev; reflexivity|].
    split; [exact Hchain|].
    split.
    { destruct (String.eqb_spec (current_state st) "off") as [O'|_];
        [contradiction|lia]. }
    split.
    + intros i Hi Hoff.
      destruct (Nat.lt_ge_cases i (start_idx st)) as [L|L].
      * exact (Hcov i L Hoff).
      * exfalso. rewrite I2 in Hoff by lia. congruence.
    + intros Hoff. exfalso. rewrite H47 in Hoff. congruence.
Qed.

(** *** Re-expansion *)

Lemma increasing_on_day_lt (as_utc : datetime -> datetime) (day : date)
      (i j : nat) :
  increasing_on_day as_utc day ->
  i < j -> j <= 48 ->
  (wall_micros (as_utc (slot_boundary day i))
   < wall_micros (as_utc (slot_boundary day j)))%Z.
Proof.
  intros Hinc Hij. induction j as [|j IH]; intros Hj; [lia|].
  destruct (Nat.eq_dec i j) as [->|N].
  - apply Hinc. lia.
  - specialize (IH ltac:(lia) ltac:(lia)).
    pose proof (Hinc j ltac:(lia)). lia.
Qed.

Lemma steady_on_day_increasing (as_utc : datetime -> datetime) (day : date) :
  steady_on_day as_utc day -> increasing_on_day as_utc day.
Proof. intros H i Hi. rewrite (H i Hi). lia. Qed.

Lemma steady_on_day_span (as_utc : datetime -> datetime) (day : date)
      (i j : nat) :
  steady_on_day as_utc day ->
  i <= j -> j <= 48 ->
  wall_micros (as_utc (slot_boundary day j))
  = (wall_micros (as_utc (slot_boundary day i))
     + Z.of_nat (j - i) * (30 * 60 * 1000000))%Z.
Proof.
  intros Hst Hij. induction j as [|j IH]; intros Hj.
  - assert (i = 0) by lia. subst i. simpl. lia.
  - destruct (Nat.eq_dec i (S j)) as [->|N].
    + rewrite Nat.sub_diag. simpl. lia.
    + rewrite (Hst j) by lia. rewrite IH by lia.
      replace (S j - i) with (S (j - i)) by lia. lia.
Qed.




(** The zone of the samples at the turn of the year: every half hour
    of 1 January 2025 lasts thirty minutes. *)
Lemma kyiv_steady_new_year : steady_on_day Sample.kyiv_as_utc 739252.
Proof.
  intros i Hi.
  do 48 (destruct i as [|i]; [vm_compute; reflexivity|]). lia.
Qed.

Lemma kyiv_increasing_new_year : increasing_on_day Sample.kyiv_as_utc 739252.
Proof. apply steady_on_day_increasing, kyiv_steady_new_year. Qed.




(** C10: for every input day, when the date label is absent (or empty)
    or the grid does not have exactly 48 entries, [_build_day_events]
    returns the empty event sequence and raises nothing; on no input at
    all does it raise an [IndexError], and with a date label that
    parses it returns a sequence of events. *)
Theorem build_day_events_guard (summary : string)
        (date_fromisoformat : string -> option date)
        (as_utc : datetime -> datetime)
        (date_str : option string) (halfhours : list string) :
  (date_str = None \/ date_str = Some "" \/ length halfhours <> 48 ->
   _build_day_events summary date_fromisoformat as_utc date_str halfhours
   = Ok [])
  /\ _build_day_events summary date_fromisoformat as_utc date_str halfhours
     <> Raise IndexError
  /\ (forall s day,
         date_str = Some s -> date_fromisoformat s = Some day ->
         exists evs,
           _build_day_events summary date_fromisoformat as_utc date_str
                             halfhours
           = Ok evs).
Proof.
  assert (G : date_str = None \/ date_str = Some ""
              \/ length halfhours <> 48 ->
              _build_day_events summary date_fromisoformat as_utc date_str
                                halfhours
              = Ok []).
  { intros H. unfold _build_day_events.
    destruct H as [-> | [-> | H]]; [reflexivity|reflexivity|].
    destruct (Nat.eqb_spec (length halfhours) 48) as [E|_]; [contradiction|].
    cbn [negb]. now rewrite !orb_true_r. }
  assert (T : forall s day,
             date_str = Some s -> date_fromisoformat s = Some day ->
             exists evs,
               _build_day_events summary date_fromisoformat as_utc date_str
                                 halfhours = Ok evs).
  { intros s day -> Hd.
    destruct (String.eqb_spec s "") as [->|Hs].
    { exists []. apply G. auto. }
    destruct (Nat.eq_dec (length halfhours) 48) as [Hlen|Hlen].
    - destruct (build_day_events_runs summary date_fromisoformat as_utc s
                                      day halfhours Hs Hd Hlen)
        as [runs [b [H _]]].
      eexists. exact H.
    - exists []. apply G. auto. }
  split; [exact G|]. split; [|exact T].
  destruct date_str as [s|]; [|rewrite G by auto; discriminate].
  destruct (date_fromisoformat s) as [day|] eqn:Hd.
  - destruct (T s day eq_refl Hd) as [evs ->]. discriminate.
  - unfold _build_day_events. rewrite Hd.
    destruct (_ || _ || _); discriminate.
Qed.

Lemma build_day_events_guard_witness :
  _build_day_events "Power outage" Sample.date_fromisoformat
                    Sample.kyiv_as_utc
                    (Some "2025-01-01") (repeat "off" 46) = Ok []
  /\ _build_day_events "Power outage" Sample.date_fromisoformat
                       Sample.kyiv_as_utc
                       None (repeat "off" 48) = Ok [].
Proof.
  split.
  - apply (proj1 (build_day_events_guard
                    "Power outage" Sample.date_fromisoformat
                    Sample.kyiv_as_utc
                    (Some "2025-01-01") (repeat "off" 46))).
    right; right. simpl. lia.
  - apply (proj1 (build_day_events_guard
                    "Power outage" Sample.date_fromisoformat
                    Sample.kyiv_as_utc
                    None (repeat "off" 48))).
    left; reflexivity.
Defined.

(** ** Precise scheduler *)

(** The text "HH:MM" written by [_build_payload] is read back by
    [_schedule_precise_refresh] as the same hour and minute. *)
Lemma hhmm_roundtrip (h m : Z) :
  (0 <= h < 24)%Z -> (0 <= m < 60)%Z ->
  exists x y,
    split_colon (fmt_hhmm h m) = [x; y]
    /\ py_int x = Ok h /\ py_int y = Ok m.
Proof.
  intros Hh Hm.
  assert (C : forallb
                (fun a =>
                   forallb
                     (fun b =>
                        match split_colon (fmt_hhmm (Z.of_nat a) (Z.of_nat b))
                        with
                        | [x; y] =>
                            match py_int x, py_int y with
                            | Ok u, Ok v =>
                                ((u =? Z.of_nat a) && (v =? Z.of_nat b))%Z
                            | _, _ => false
                            end
                        | _ => false
                        end)
                     (seq 0 60))
                (seq 0 24) = true) by (vm_compute; reflexivity).
  rewrite forallb_forall in C.
  assert (Ih : In (Z.to_nat h) (seq 0 24)) by (apply in_seq; lia).
  assert (Im : In (Z.to_nat m) (seq 0 60)) by (apply in_seq; lia).
  specialize (C (Z.to_nat h) Ih). rewrite forallb_forall in C.
  specialize (C (Z.to_nat m) Im).
  rewrite !Z2Nat.id in C by lia.
  destruct (split_colon (fmt_hhmm h m)) as [|x [|y [|z l]]];
    try discriminate.
  destruct (py_int x) as [u|] eqn:Px; [|discriminate].
  destruct (py_int y) as [v|] eqn:Py; [|discriminate].
  apply andb_true_iff in C. destruct C as [C1 C2].
  apply Z.eqb_eq in C1, C2. subst u v.
  exists x, y. auto.
Qed.

(** The instant armed for "HH:MM" on the day [base_day]: that time on
    [base_day] when it is after [now], else the same time one day
    later. *)
Lemma precise_candidate_spec (date_fromisoformat : string -> option date)
      (base_date_iso : string) (base_day : date) (h m : Z) (now : datetime) :
  date_fromisoformat base_date_iso = Some base_day ->
  (0 <= h < 24)%Z -> (0 <= m < 60)%Z ->
  precise_candidate date_fromisoformat (fmt_hhmm h m) base_date_iso now
  = Ok (if dt_leb (mkDatetime base_day h m 0 0) now
        then mkDatetime (base_day + 1) h m 0 0
        else mkDatetime base_day h m 0 0).
Proof.
  intros Hd Hh Hm. unfold precise_candidate. rewrite Hd.
  destruct (hhmm_roundtrip h m Hh Hm) as [x [y [Hs [Hx Hy]]]].
  rewrite Hs, Hx. cbn [bind]. rewrite Hy. cbn [bind].
  unfold at_time.
  replace (0 <=? h)%Z with true by (symmetry; lia).
  replace (h <? 24)%Z with true by (symmetry; lia).
  replace (0 <=? m)%Z with true by (symmetry; lia).
  replace (m <? 60)%Z with true by (symmetry; lia).
  cbn [andb bind]. cbv iota.
  destruct (dt_leb _ now); reflexivity.
Qed.

(** When the schedule's day is the day of [now], or a later day, the
    armed instant is after [now]. *)
Lemma precise_candidate_future (date_fromisoformat : string -> option date)
      (base_date_iso : string) (base_day : date) (h m : Z) (now : datetime) :
  date_fromisoformat base_date_iso = Some base_day ->
  (0 <= h < 24)%Z -> (0 <= m < 60)%Z ->
  valid_datetime now ->
  (dt_date now <= base_day)%Z ->
  exists armed,
    precise_candidate date_fromisoformat (fmt_hhmm h m) base_date_iso now
    = Ok armed
    /\ dt_lt now armed
    /\ dt_hour armed = h /\ dt_minute armed = m
    /\ dt_second armed = 0%Z /\ dt_microsecond armed = 0%Z
    /\ (dt_date armed = base_day \/ dt_date armed = (base_day + 1)%Z).
Proof.
  intros Hd Hh Hm Hnow Hday.
  rewrite (precise_candidate_spec _ _ _ _ _ _ Hd Hh Hm).
  eexists. split; [reflexivity|].
  unfold dt_leb, dt_lt, wall_micros, wall_minutes, valid_datetime in *.
  destruct (Z.leb_spec
              ((((dt_date (mkDatetime base_day h m 0 0) * 1440
                  + dt_hour (mkDatetime base_day h m 0 0) * 60
                  + dt_minute (mkDatetime base_day h m 0 0)) * 60
                 + dt_second (mkDatetime base_day h m 0 0)) * 1000000
                + dt_microsecond (mkDatetime base_day h m 0 0)))%Z
              ((((dt_date now * 1440 + dt_hour now * 60 + dt_minute now) * 60
                 + dt_second now) * 1000000 + dt_microsecond now))%Z)
    as [L|L]; cbn [dt_date dt_hour dt_minute dt_second dt_microsecond] in *;
    repeat split; auto; lia.
Qed.

(** The rollover examples: "06:00" on 1 January polled at 05:00 arms
    06:00 of that day, polled at 06:30 arms 06:00 of 2 January. *)
Example precise_candidate_before :
  precise_candidate Sample.date_fromisoformat "06:00" "2025-01-01"
                    (mkDatetime 739252 5 0 0 0)
  = Ok (mkDatetime 739252 6 0 0 0).
Proof. vm_compute. reflexivity. Qed.

Example precise_candidate_after :
  precise_candidate Sample.date_fromisoformat "06:00" "2025-01-01"
                    (mkDatetime 739252 6 30 0 0)
  = Ok (mkDatetime 739253 6 0 0 0).
Proof. vm_compute. reflexivity. Qed.

(** C7, on the code: the published table is still the one of 1 January
    (off until 06:00) when the poll runs on 2 January at 07:00.  The
    candidate, 1 January 06:00, is not after now, one day is added, and
    the timer is armed for 2 January 06:00, an hour before now. *)
Theorem precise_refresh_armed_in_past :
  exists st p,
    _async_update_data Sample.date_isoformat Sample.date_fromisoformat
      Sample.fresh_coordinator Sample.morning_off_pack None None
      "2025-01-02T05:00:00+00:00" "https://svitlo.live/kyiv"
      (Sample.clock_at (mkDatetime 739253 7 0 0 0))
      (mkDatetime 739253 7 0 0 0)
    = Ok st
    /\ data st = Some p
    /\ pl_date p = "2025-01-01"
    /\ pl_next_change_at p = Some "06:00"
    /\ unsub_precise st = Some (mkDatetime 739253 6 0 0 0)
    /\ dt_leb (mkDatetime 739253 6 0 0 0) (mkDatetime 739253 7 0 0 0) = true.
Proof.
  eexists. eexists. split; [vm_compute; reflexivity|].
  repeat split; reflexivity.
Qed.

(** ** Republishing from the cache *)

Lemma next_change_idx_total (series : list string) (idx : Z) :
  (0 <= idx < Z.of_nat (length series))%Z ->
  exists r, next_change_idx series idx = Ok r.
Proof.
  intros H. unfold next_change_idx.
  destruct (getitem_z_in_range series idx H) as [cur [Hg _]].
  rewrite Hg. cbn [bind].
  destruct (scan_change_spec series cur idx (seq 1 (length series)))
    as [r [Hr _]]; [lia|].
  exists r. exact Hr.
Qed.

(** The index that [next_change_idx] returns is the first one after
    [idx], going round the series, whose entry differs from the entry
    at [idx]; no index is returned only when every entry equals it. *)
Lemma next_change_idx_first (series : list string) (idx : Z) :
  (0 <= idx < Z.of_nat (length series))%Z ->
  exists r,
    next_change_idx series idx = Ok r
    /\ match r with
       | Some j =>
           exists step : Z,
             (1 <= step <= Z.of_nat (length series))%Z
             /\ j = ((idx + step) mod Z.of_nat (length series))%Z
             /\ nth_error series (Z.to_nat j)
                <> nth_error series (Z.to_nat idx)
             /\ forall s' : Z,
                 (1 <= s' < step)%Z ->
                 nth_error series
                   (Z.to_nat ((idx + s') mod Z.of_nat (length series)))
                 = nth_error series (Z.to_nat idx)
       | None =>
           forall i, i < length series ->
             nth_error series i = nth_error series (Z.to_nat idx)
       end.
Proof.
  intros Hidx. unfold next_change_idx.
  destruct (getitem_z_in_range series idx Hidx) as [cur [Hg Hc]].
  rewrite Hg. cbn [bind].
  destruct (scan_change_spec series cur idx (seq 1 (length series)))
    as [r [Hr Hm]]; [lia|].
  exists r. split; [exact Hr|].
  set (n := Z.of_nat (length series)) in *.
  destruct r as [j|].
  - destruct Hm as [pre [s [post [H1 [H2 [H3 H4]]]]]].
    pose proof (seq_split_at _ _ _ _ _ H1) as [Hs Hpre].
    assert (Hin : In s (seq 1 (length series)))
      by (rewrite H1; apply in_elt).
    apply in_seq in Hin.
    exists (Z.of_nat s). split; [lia|]. split; [exact H2|].
    split; [now rewrite Hc|].
    intros s' Hs'. rewrite Hc.
    rewrite Forall_forall in H4.
    specialize (H4 (Z.to_nat s')).
    rewrite Z2Nat.id in H4 by lia. apply H4.
    rewrite Hpre. apply in_seq. lia.
  - intros i Hi. rewrite Hc. rewrite Forall_forall in Hm.
    set (s := (if Z.of_nat i <=? idx then Z.of_nat i - idx + n
               else Z.of_nat i - idx)%Z).
    assert (Hs : (1 <= s <= n)%Z)
      by (subst s n; destruct (Z.leb_spec (Z.of_nat i) idx); lia).
    assert (Hk : ((idx + s) mod n = Z.of_nat i)%Z).
    { subst s. destruct (Z.leb_spec (Z.of_nat i) idx).
      - replace (idx + (Z.of_nat i - idx + n))%Z
          with (Z.of_nat i + 1 * n)%Z by lia.
        rewrite Z.mod_add by lia. apply Z.mod_small. lia.
      - replace (idx + (Z.of_nat i - idx))%Z with (Z.of_nat i) by lia.
        apply Z.mod_small. lia. }
    specialize (Hm (Z.to_nat s)).
    rewrite Z2Nat.id, Hk, Nat2Z.id in Hm by lia.
    apply Hm. apply in_seq. lia.
Qed.

(** On a grid of 48 slots [_build_payload] returns a record: the
    metadata are its arguments, the schedule fields are the packs, the
    other fields are computed from the clock. *)
Lemma build_payload_ok (date_isoformat : date -> string)
      (self_queue : string) (today_date : date)
      (hour_classes halfhours : list string) (tomorrow_pack : option pack)
      (updated source_url : string) (source_last_modified : option string)
      (clock : readings) :
  length halfhours = 48 ->
  valid_datetime (now_payload clock) ->
  exists cur next_change_hhmm,
    _build_payload date_isoformat self_queue
                   (today_date, hour_classes, halfhours) tomorrow_pack
                   updated source_url source_last_modified clock
    = Ok (mkPayload self_queue (date_isoformat today_date) cur
            (current_slot_index (now_payload clock) today_date)
            next_change_hhmm hour_classes halfhours updated source_url
            source_last_modified
            (find_next_at ["on"] today_date halfhours
               (current_slot_index (now_payload clock) today_date)
               tomorrow_pack (now_next_on clock))
            (find_next_at ["off"] today_date halfhours
               (current_slot_index (now_payload clock) today_date)
               tomorrow_pack (now_next_off clock))
            (option_map (fun t => date_isoformat (fst (fst t))) tomorrow_pack)
            (option_map (fun t => snd (fst t)) tomorrow_pack)
            (option_map (fun t => snd t) tomorrow_pack))
    /\ nth_error halfhours
         (Z.to_nat (current_slot_index (now_payload clock) today_date))
       = Some cur.
Proof.
  intros Hlen Hnow. unfold _build_payload.
  pose proof (current_slot_index_range (now_payload clock) today_date Hnow)
    as Hidx.
  destruct (getitem_z_in_range halfhours
              (current_slot_index (now_payload clock) today_date))
    as [cur [Hg Hn]]; [lia|].
  rewrite Hg. cbn [bind].
  destruct (next_change_idx_total halfhours
              (current_slot_index (now_payload clock) today_date))
    as [r Hr]; [lia|].
  rewrite Hr. cbn [bind].
  eexists _, _. split; [reflexivity|exact Hn].
Qed.

(** C8: when the timer fires on a coordinator that holds a cached
    schedule (a grid of 48 slots) and a published record [d], the
    record published by the tick has the [updated], [source] and
    [source_last_modified] of [d]; its schedule fields are the cached
    packs; its slot index, state and next instants are computed from
    the clock of the tick; its [next_change_at] is the "HH:MM" of the
    first slot after the current one, going round the day, whose state
    differs from the current state, and is absent only when all 48
    slots hold the current state; and one refresh is requested. *)
Theorem precise_tick_keeps_metadata (date_isoformat : date -> string)
        (self : coordinator) (today_date : date)
        (hour_classes halfhours : list string) (d : payload)
        (clock : readings) (utcnow_iso : string) :
  today_pack_cached self = Some (today_date, hour_classes, halfhours) ->
  data self = Some d ->
  length halfhours = 48 ->
  valid_datetime (now_payload clock) ->
  exists p,
    _precise_tick date_isoformat self clock utcnow_iso
    = Ok (mkCoordinator (queue self) (unsub_precise self)
            (today_pack_cached self) (tomorrow_pack_cached self)
            (Some p) (S (refresh_requests self)))
    /\ pl_updated p = pl_updated d
    /\ pl_source p = pl_source d
    /\ pl_source_last_modified p = pl_source_last_modified d
    /\ pl_queue p = queue self
    /\ pl_date p = date_isoformat today_date
    /\ pl_today_24h_classes p = hour_classes
    /\ pl_today_48half p = halfhours
    /\ pl_tomorrow_48half p = option_map snd (tomorrow_pack_cached self)
    /\ pl_now_halfhour_index p
       = current_slot_index (now_payload clock) today_date
    /\ nth_error halfhours (Z.to_nat (pl_now_halfhour_index p))
       = Some (pl_now_status p)
    /\ pl_next_on_at p
       = find_next_at ["on"] today_date halfhours
           (current_slot_index (now_payload clock) today_date)
           (tomorrow_pack_cached self) (now_next_on clock)
    /\ pl_next_off_at p
       = find_next_at ["off"] today_date halfhours
           (current_slot_index (now_payload clock) today_date)
           (tomorrow_pack_cached self) (now_next_off clock)
    /\ pl_tomorrow_date p
       = option_map (fun t => date_isoformat (fst (fst t)))
                    (tomorrow_pack_cached self)
    /\ pl_tomorrow_24h_classes p
       = option_map (fun t => snd (fst t)) (tomorrow_pack_cached self)
    /\ match pl_next_change_at p with
       | Some t =>
           exists step : Z,
             (1 <= step <= 48)%Z
             /\ t = fmt_hhmm
                      (((pl_now_halfhour_index p + step) mod 48) / 2)
                      (if ((pl_now_halfhour_index p + step) mod 48) mod 2 =? 0
                       then 0 else 30)%Z
             /\ nth_error halfhours
                  (Z.to_nat ((pl_now_halfhour_index p + step) mod 48))
                <> Some (pl_now_status p)
             /\ forall s' : Z,
                 (1 <= s' < step)%Z ->
                 nth_error halfhours
                   (Z.to_nat ((pl_now_halfhour_index p + s') mod 48))
                 = Some (pl_now_status p)
       | None =>
           forall i, i < 48 -> nth_error halfhours i = Some (pl_now_status p)
       end.
Proof.
  intros Hc Hd Hlen Hnow. unfold _precise_tick. rewrite Hc, Hd.
  pose proof (current_slot_index_range (now_payload clock) today_date Hnow)
    as Hidx.
  unfold _build_payload.
  set (idx := current_slot_index (now_payload clock) today_date) in *.
  destruct (getitem_z_in_range halfhours idx) as [cur [Hg Hcur]]; [lia|].
  rewrite Hg. cbn [bind].
  destruct (next_change_idx_first halfhours idx) as [r [Hr Hf]]; [lia|].
  rewrite Hr. cbn [bind].
  cbn [queue unsub_precise today_pack_cached tomorrow_pack_cached data
       refresh_requests].
  eexists. split; [reflexivity|].
  cbn [pl_updated pl_source pl_source_last_modified pl_queue pl_date
       pl_today_24h_classes pl_today_48half pl_tomorrow_48half
       pl_now_halfhour_index pl_now_status pl_next_on_at pl_next_off_at
       pl_tomorrow_date pl_tomorrow_24h_classes pl_next_change_at].
  do 9 (split; [reflexivity|]). split; [exact Hcur|].
  do 4 (split; [reflexivity|]).
  rewrite Hlen in Hf. change (Z.of_nat 48) with 48%Z in Hf.
  rewrite Hcur in Hf.
  destruct r as [j|].
  - destruct Hf as [step [H1 [H2 [H3 H4]]]].
    exists step. split; [exact H1|]. rewrite <- H2.
    split; [|split; [exact H3|exact H4]].
    destruct (Z.eqb_spec (j mod 2) 0); reflexivity.
  - exact Hf.
Qed.

(** A poll that succeeds caches its packs and publishes a record that
    carries the poll's own metadata. *)
Lemma async_update_data_state (date_isoformat : date -> string)
      (date_fromisoformat : string -> option date)
      (self st : coordinator) (today_pack : pack)
      (tomorrow_pack : option pack) (source_last_modified : option string)
      (polled_at url : string) (clock : readings) (now_schedule : datetime) :
  _async_update_data date_isoformat date_fromisoformat self today_pack
    tomorrow_pack source_last_modified polled_at url clock now_schedule
  = Ok st ->
  today_pack_cached st = Some today_pack
  /\ tomorrow_pack_cached st = tomorrow_pack
  /\ exists p,
      data st = Some p
      /\ pl_updated p = polled_at
      /\ pl_source p = url
      /\ pl_source_last_modified p = source_last_modified.
Proof.
  unfold _async_update_data.
  cbn [queue unsub_precise today_pack_cached tomorrow_pack_cached data
       refresh_requests].
  destruct (_build_payload _ _ _ _ _ _ _ _) as [p|e] eqn:B;
    cbn [bind]; [|discriminate].
  intros H. injection H as <-.
  assert (M : pl_updated p = polled_at /\ pl_source p = url
              /\ pl_source_last_modified p = source_last_modified).
  { unfold _build_payload in B. destruct today_pack as [[dd hc] hh].
    destruct (getitem_z hh _); cbn [bind] in B; [|discriminate].
    destruct (next_change_idx hh _); cbn [bind] in B; [|discriminate].
    injection B as <-. auto. }
  unfold _schedule_precise_refresh.
  cbn [queue unsub_precise today_pack_cached tomorrow_pack_cached data
       refresh_requests].
  repeat match goal with
         | |- context [match ?x with _ => _ end] => destruct x
         end;
    cbn [queue unsub_precise today_pack_cached tomorrow_pack_cached data
         refresh_requests];
    (split; [reflexivity|]; split; [reflexivity|]; exists p; tauto).
Qed.

Example async_update_data_at_0500 :
  _async_update_data Sample.date_isoformat Sample.date_fromisoformat
    Sample.fresh_coordinator Sample.morning_off_pack None
    (Some "2025-01-01T02:40:00+00:00")
    "2025-01-01T03:00:00+00:00" "https://svitlo.live/kyiv"
    (Sample.clock_at (mkDatetime 739252 5 0 0 0))
    (mkDatetime 739252 5 0 0 0)
  = Ok Sample.polled_coordinator.
Proof. vm_compute. reflexivity. Qed.

Lemma precise_tick_keeps_metadata_witness :
  exists p,
    _precise_tick Sample.date_isoformat Sample.polled_coordinator
                  (Sample.clock_at (mkDatetime 739252 6 0 0 0))
                  "2025-01-01T04:00:00+00:00"
    = Ok (mkCoordinator "1.1" (Some (mkDatetime 739252 6 0 0 0))
            (Some Sample.morning_off_pack) None (Some p) 1)
    /\ pl_updated p = "2025-01-01T03:00:00+00:00"
    /\ pl_source p = "https://svitlo.live/kyiv"
    /\ pl_source_last_modified p = Some "2025-01-01T02:40:00+00:00"
    /\ pl_now_halfhour_index p = 12%Z
    /\ pl_next_change_at p = Some "00:00".
Proof.
  destruct (precise_tick_keeps_metadata
              Sample.date_isoformat Sample.polled_coordinator 739252
              (repeat "off" 6 ++ repeat "on" 18)
              (repeat "off" 12 ++ repeat "on" 36)
              Sample.polled_payload
              (Sample.clock_at (mkDatetime 739252 6 0 0 0))
              "2025-01-01T04:00:00+00:00")
    as [p [H1 [H2 [H3 [H4 [_ [_ [_ [_ [_ [H5 _]]]]]]]]]]].
  - reflexivity.
  - reflexivity.
  - reflexivity.
  - unfold valid_datetime. simpl. lia.
  - exists p. split; [exact H1|]. split; [exact H2|]. split; [exact H3|].
    split; [exact H4|]. split; [exact H5|].
    pose proof H1 as E. vm_compute in E. injection E as <-. reflexivity.
Defined.

Lemma current_slot_index_cases_witness :
  current_slot_index (mkDatetime 739252 10 15 7 0) 739252 = 20%Z
  /\ current_slot_index (mkDatetime 739252 10 45 7 0) 739252 = 21%Z
  /\ current_slot_index (mkDatetime 739253 10 45 7 0) 739252 = 0%Z.
Proof.
  destruct current_slot_index_cases as [H1 [H2 _]].
  split; [|split].
  - apply (H1 (mkDatetime 739252 10 15 7 0) 739252%Z). reflexivity.
  - apply (H1 (mkDatetime 739252 10 45 7 0) 739252%Z). reflexivity.
  - apply (H2 (mkDatetime 739253 10 45 7 0) 739252%Z). simpl. lia.
Defined.

(** The schedule of 46 half hours that [parse_table] returns for a row
    of 23 hour cells has no slot for 23:00 and later: building the
    record at 23:30 of that day raises [IndexError]. *)
Example build_payload_short_grid :
  _build_payload Sample.date_isoformat "1.1"
                 (739252%Z, repeat "off" 23, repeat "off" 46) None
                 "2025-01-01T21:30:00+00:00" "https://svitlo.live/kyiv" None
                 (Sample.clock_at (mkDatetime 739252 23 30 0 0))
  = Raise IndexError.
Proof. vm_compute. reflexivity. Qed.

(** * Further properties of the coordinator *)

(** ** [next_change_idx] on a series of any length *)

Lemma nth_error_same_all {A : Type} (xs : list A) (a : A) :
  (forall i, i < length xs -> nth_error xs i = Some a) ->
  forall x, In x xs -> x = a.
Proof.
  intros H x Hx. apply In_nth_error in Hx. destruct Hx as [i Hi].
  assert (L : i < length xs) by (apply nth_error_Some; congruence).
  rewrite (H i L) in Hi. congruence.
Qed.

Lemma next_change_idx_result (series : list string) (idx : Z) :
  (0 <= idx < Z.of_nat (length series))%Z ->
  exists r,
    next_change_idx series idx = Ok r
    /\ (forall j, r = Some j ->
          (0 <= j < Z.of_nat (length series))%Z
          /\ j <> idx
          /\ nth_error series (Z.to_nat j)
             <> nth_error series (Z.to_nat idx))
    /\ (r = None <-> forall x y, In x series -> In y series -> x = y).
Proof.
  intros Hidx. unfold next_change_idx.
  destruct (getitem_z_in_range series idx Hidx) as [cur [Hg Hc]].
  rewrite Hg. cbn [bind].
  set (n := Z.of_nat (length series)) in *.
  destruct (scan_change_spec series cur idx (seq 1 (length series)))
    as [r [Hr Hm]]; [lia|].
  fold n in Hm.
  exists r. split; [exact Hr|]. split.
  - intros j ->. destruct Hm as [pre [s [post [H1 [H2 [H3 _]]]]]].
    assert (Hb : (0 <= j < n)%Z) by (rewrite H2; apply Z.mod_pos_bound; lia).
    split; [exact Hb|].
    assert (Hne : nth_error series (Z.to_nat j)
                  <> nth_error series (Z.to_nat idx)) by now rewrite Hc.
    split; [|exact Hne]. intros E. apply Hne. now rewrite E.
  - split.
    + intros ->. rewrite Forall_forall in Hm.
      assert (Hall : forall i, i < length series ->
                       nth_error series i = Some cur).
      { intros i Hi.
        set (s := (if Z.of_nat i <=? idx then Z.of_nat i - idx + n
                   else Z.of_nat i - idx)%Z).
        assert (Hs : (1 <= s <= n)%Z)
          by (subst s; destruct (Z.leb_spec (Z.of_nat i) idx); lia).
        assert (Hk : ((idx + s) mod n = Z.of_nat i)%Z).
        { subst s. destruct (Z.leb_spec (Z.of_nat i) idx).
          - replace (idx + (Z.of_nat i - idx + n))%Z
              with (Z.of_nat i + 1 * n)%Z by lia.
            rewrite Z.mod_add by lia. apply Z.mod_small. lia.
          - replace (idx + (Z.of_nat i - idx))%Z with (Z.of_nat i) by lia.
            apply Z.mod_small. lia. }
        specialize (Hm (Z.to_nat s)).
        rewrite Z2Nat.id, Hk, Nat2Z.id in Hm by lia.
        apply Hm. apply in_seq. lia. }
      intros x y Hx Hy.
      rewrite (nth_error_same_all series cur Hall x Hx).
      now rewrite (nth_error_same_all series cur Hall y Hy).
    + intros Hsame. destruct r as [j|]; [|reflexivity]. exfalso.
      destruct Hm as [pre [s [post [H1 [H2 [H3 _]]]]]].
      assert (Hb : (0 <= j < n)%Z)
        by (rewrite H2; apply Z.mod_pos_bound; lia).
      destruct (nth_error series (Z.to_nat j)) as [x|] eqn:Ex.
      * apply H3. f_equal. apply Hsame.
        -- eapply nth_error_In; exact Ex.
        -- eapply nth_error_In; exact Hc.
      * apply nth_error_None in Ex. lia.
Qed.

(** X1: on a series of any length and an index inside it,
    [next_change_idx] returns; a returned index lies inside the series,
    is not [idx], and holds a state other than the one at [idx]; the
    result is absent exactly when all entries are equal. *)
Theorem next_change_idx_any_length (series : list string) (idx : Z) :
  (0 <= idx < Z.of_nat (length series))%Z ->
  exists r,
    next_change_idx series idx = Ok r
    /\ (forall j, r = Some j ->
          (0 <= j < Z.of_nat (length series))%Z
          /\ j <> idx
          /\ nth_error series (Z.to_nat j)
             <> nth_error series (Z.to_nat idx))
    /\ (r = None <-> forall x y, In x series -> In y series -> x = y).
Proof. exact (next_change_idx_result series idx). Qed.

Lemma next_change_idx_any_length_witness :
  exists r,
    next_change_idx ["on"; "on"; "off"; "on"; "on"] 3 = Ok r
    /\ (forall j, r = Some j ->
          (0 <= j < 5)%Z /\ j <> 3%Z
          /\ nth_error ["on"; "on"; "off"; "on"; "on"] (Z.to_nat j)
             <> nth_error ["on"; "on"; "off"; "on"; "on"] (Z.to_nat 3)).
Proof.
  destruct (next_change_idx_any_length ["on"; "on"; "off"; "on"; "on"] 3)
    as [r [H1 [H2 _]]].
  - simpl. lia.
  - exists r. split; [exact H1|exact H2].
Defined.

(** X2: an index beyond either end of the series, and any index on the
    empty series, is an [IndexError]; an index in [-len .. -1] counts
    from the end and gives the result of the index [idx + len]. *)
Theorem next_change_idx_index_edges (series : list string) (idx : Z) :
  ((Z.of_nat (length series) <= idx \/ idx < - Z.of_nat (length series))%Z ->
   next_change_idx series idx = Raise IndexError)
  /\ ((- Z.of_nat (length series) <= idx < 0)%Z ->
      next_change_idx series idx
      = next_change_idx series (idx + Z.of_nat (length series))).
Proof.
  set (n := Z.of_nat (length series)). split.
  - intros H. unfold next_change_idx, getitem_z. fold n.
    destruct (Z.ltb_spec idx 0) as [L|L].
    + destruct (Z.ltb_spec (idx + n) 0) as [L'|L']; [reflexivity|lia].
    + destruct (Z.ltb_spec idx 0) as [L'|_]; [lia|].
      unfold getitem.
      destruct (nth_error series (Z.to_nat idx)) eqn:E; [|reflexivity].
      assert (Z.to_nat idx < length series)
        by (apply nth_error_Some; congruence).
      lia.
  - intros H. unfold next_change_idx.
    assert (G : getitem_z series idx = getitem_z series (idx + n)).
    { unfold getitem_z. fold n.
      destruct (Z.ltb_spec idx 0) as [_|L]; [|lia].
      destruct (Z.ltb_spec (idx + n) 0) as [L|_]; [lia|].
      destruct (Z.ltb_spec (idx + n) 0) as [L|_]; [lia|reflexivity]. }
    rewrite G. clear G.
    destruct (getitem_z series (idx + n)) as [cur|e]; [|reflexivity].
    cbn [bind]. generalize (seq 1 (length series)) as steps.
    induction steps as [|s steps IH]; [reflexivity|].
    cbn [scan_change]. fold n.
    replace ((idx + n + Z.of_nat s) mod n)%Z
      with ((idx + Z.of_nat s) mod n)%Z.
    + destruct (getitem_z series ((idx + Z.of_nat s) mod n)) as [sj|e];
        [|reflexivity].
      cbn [bind]. destruct (negb _); [reflexivity|exact IH].
    + replace (idx + n + Z.of_nat s)%Z with (idx + Z.of_nat s + 1 * n)%Z
        by lia.
      symmetry. apply Z.mod_add. lia.
Qed.

Lemma next_change_idx_index_edges_witness :
  next_change_idx ["on"; "off"; "on"] 3 = Raise IndexError
  /\ next_change_idx ["on"; "off"; "on"] (-1)
     = next_change_idx ["on"; "off"; "on"] 2.
Proof.
  split.
  - apply (proj1 (next_change_idx_index_edges ["on"; "off"; "on"] 3)).
    left. simpl. lia.
  - apply (proj2 (next_change_idx_index_edges ["on"; "off"; "on"] (-1))).
    simpl. lia.
Defined.

(** ** [find_next_at]: where the returned local time lies *)

Lemma wall_micros_add_minutes (d : datetime) (k : Z) :
  wall_micros (add_minutes d k) = (wall_micros d + k * 60 * 1000000)%Z.
Proof.
  unfold wall_micros. rewrite wall_minutes_add_minutes.
  unfold add_minutes. cbn [dt_second dt_microsecond]. lia.
Qed.

Lemma first_match_app (ts xs ys : list string) :
  first_match ts (xs ++ ys)
  = match first_match ts xs with
    | Some p => Some p
    | None => option_map (fun q => length xs + q) (first_match ts ys)
    end.
Proof.
  induction xs as [|x xs IH]; simpl.
  - destruct (first_match ts ys); reflexivity.
  - destruct (str_in x ts); [reflexivity|].
    rewrite IH. destruct (first_match ts xs); [reflexivity|].
    destruct (first_match ts ys); reflexivity.
Qed.

Lemma search_sequence_tomorrow (today_half : list string) (idx : Z)
      (d : date) (hc th : list string) :
  search_sequence today_half idx (Some (d, hc, th))
  = search_sequence today_half idx None ++ th.
Proof. reflexivity. Qed.

(** The half hours of tomorrow's pack, [[]] when there is none. *)
Lemma search_sequence_length (today_half : list string) (idx : Z)
      (tomorrow_pack : option pack) :
  length (search_sequence today_half idx tomorrow_pack)
  = length today_half
    + match tomorrow_pack with
      | Some (_, _, th) => length th
      | None => 0
      end.
Proof.
  destruct tomorrow_pack as [[[d hc] th]|].
  - rewrite search_sequence_tomorrow, length_app,
      search_sequence_length_today. reflexivity.
  - rewrite search_sequence_length_today. lia.
Qed.

(** X3: the local time [next_local] that [find_next_at] computes is
    the start of the current half hour of [now] moved forward on the
    wall clock by a whole number of half hours: at least one, and at
    most as many as there are slots in today's and tomorrow's grids.
    The statement reads wall-clock fields and does not order
    instants. *)
Theorem find_next_at_wall_clock_bound (target_states : list string)
        (base_date : date) (today_half : list string) (idx : Z)
        (tomorrow_pack : option pack) (now r : datetime) :
  find_next_at target_states base_date today_half idx tomorrow_pack now
  = Some r ->
  exists n : Z,
    (1 <= n <= Z.of_nat (length today_half
                         + match tomorrow_pack with
                           | Some (_, _, th) => length th
                           | None => 0
                           end))%Z
    /\ r = add_minutes (base_aligned now) (n * 30)
    /\ wall_minutes r = (wall_minutes (base_aligned now) + n * 30)%Z
    /\ dt_second r = 0%Z /\ dt_microsecond r = 0%Z.
Proof.
  unfold find_next_at.
  destruct (first_match target_states
              (search_sequence today_half idx tomorrow_pack))
    as [p|] eqn:F; [|discriminate].
  intros H. injection H as <-.
  apply first_match_lt in F. rewrite search_sequence_length in F.
  exists (Z.of_nat p + 1)%Z. split; [lia|]. split; [reflexivity|].
  split; [apply wall_minutes_add_minutes|]. split; reflexivity.
Qed.

Lemma find_next_at_wall_clock_bound_witness :
  exists n : Z,
    (1 <= n <= 48)%Z
    /\ mkDatetime 739253 0 0 0 0
       = add_minutes (base_aligned (mkDatetime 739252 20 10 30 0)) (n * 30).
Proof.
  destruct (find_next_at_wall_clock_bound
              ["off"] 739252 (repeat "off" 12 ++ repeat "on" 36) 40 None
              (mkDatetime 739252 20 10 30 0) (mkDatetime 739253 0 0 0 0))
    as [n [H1 [H2 _]]].
  - reflexivity.
  - exists n. split; [exact H1|exact H2].
Defined.

Lemma search_sequence_nth (today_half : list string) (idx : Z) (p : nat) :
  length today_half = 48 ->
  (0 <= idx < 48)%Z ->
  p < 48 ->
  nth_error (search_sequence today_half idx None) p
  = nth_error today_half (Z.to_nat ((idx + 1 + Z.of_nat p) mod 48)).
Proof.
  intros Hlen Hidx Hp.
  unfold search_sequence, slice_from, slice_to.
  rewrite slice_bound_in_range by lia.
  set (b := Z.to_nat (idx + 1)).
  assert (Hb : b <= 48) by (subst b; lia).
  destruct (Nat.lt_ge_cases p (48 - b)) as [L|L].
  - rewrite nth_error_app1 by (rewrite length_skipn; lia).
    rewrite nth_error_skipn. f_equal.
    rewrite Z.mod_small by lia. lia.
  - rewrite nth_error_app2 by (rewrite length_skipn; lia).
    rewrite length_skipn, Hlen.
    rewrite nth_error_firstn.
    destruct (Nat.ltb_spec (p - (48 - b)) b) as [L'|L']; [|lia].
    f_equal.
    replace (idx + 1 + Z.of_nat p)%Z
      with ((idx + 1 + Z.of_nat p - 48) + 1 * 48)%Z by lia.
    rewrite Z.mod_add by lia. rewrite Z.mod_small by lia. lia.
Qed.

(** The first target slot of today after [idx], going round the day,
    is where the search stops, with or without tomorrow's pack. *)
Lemma first_match_round_the_day (target_states today_half : list string)
      (idx k : Z) (tomorrow_pack : option pack) (s : string) :
  length today_half = 48 ->
  (0 <= idx < 48)%Z ->
  (0 <= k < 48)%Z ->
  nth_error today_half (Z.to_nat k) = Some s ->
  str_in s target_states = true ->
  (forall q s',
      (0 <= q < (k - idx - 1) mod 48)%Z ->
      nth_error today_half (Z.to_nat ((idx + 1 + q) mod 48)) = Some s' ->
      str_in s' target_states = false) ->
  first_match target_states (search_sequence today_half idx tomorrow_pack)
  = Some (Z.to_nat ((k - idx - 1) mod 48)).
Proof.
  intros Hlen Hidx Hk Hs Ht Hfirst.
  set (p := ((k - idx - 1) mod 48)%Z) in *.
  assert (Hp : (0 <= p < 48)%Z) by (apply Z.mod_pos_bound; lia).
  assert (Hkp : ((idx + 1 + p) mod 48 = k)%Z)
    by (subst p; Z.to_euclidean_division_equations; lia).
  assert (F0 : first_match target_states
                 (search_sequence today_half idx None)
               = Some (Z.to_nat p)).
  { apply first_match_Some. split.
    - exists s. split; [|exact Ht].
      rewrite search_sequence_nth by lia.
      rewrite Z2Nat.id by lia. now rewrite Hkp.
    - intros q s' Hq Hs'.
      rewrite search_sequence_nth in Hs' by lia.
      apply (Hfirst (Z.of_nat q) s'); [lia|exact Hs']. }
  destruct tomorrow_pack as [[[d hc] th]|]; [|exact F0].
  rewrite search_sequence_tomorrow, first_match_app. now rewrite F0.
Qed.

(** From the start of slot [idx] of a day, the half hours up to slot
    [k], going round the day, end at the start of slot [k]. *)
Lemma round_the_day_instant (now : datetime) (today_date : date) (k : Z) :
  valid_datetime now ->
  dt_date now = today_date ->
  (0 <= k < 48)%Z ->
  add_minutes (base_aligned now)
    ((Z.of_nat (Z.to_nat ((k - current_slot_index now today_date - 1)
                            mod 48)) + 1) * 30)
  = mkDatetime
      (today_date
       + (if k <=? current_slot_index now today_date then 1 else 0))%Z
      (k / 2)%Z (if k mod 2 =? 0 then 0 else 30)%Z 0 0.
Proof.
  intros Hnow Hdate Hk.
  pose proof (current_slot_index_range now today_date Hnow) as Hidx.
  assert (Hslot : (dt_hour now * 60
                   + (if dt_minute now <? 30 then 0 else 30)
                   = 30 * current_slot_index now today_date)%Z).
  { unfold current_slot_index. rewrite Hdate, Z.eqb_refl.
    cbn [negb]. unfold valid_datetime in Hnow.
    destruct (Z.ltb_spec (dt_minute now) 30);
      destruct (Z.leb_spec 30 (dt_minute now)); lia. }
  set (idx := current_slot_index now today_date) in *.
  assert (Hp : (0 <= (k - idx - 1) mod 48 < 48)%Z)
    by (apply Z.mod_pos_bound; lia).
  unfold add_minutes, base_aligned.
  cbn [dt_date dt_hour dt_minute dt_second dt_microsecond].
  rewrite Z2Nat.id by lia. rewrite Hslot, Hdate.
  destruct (Z.leb_spec k idx); destruct (Z.eqb_spec (k mod 2) 0);
    f_equal; Z.to_euclidean_division_equations; lia.
Qed.

(** X4: with [now] in slot [idx] of today's date and a grid of 48
    slots, when slot [k] of today is the first slot after [idx], going
    round the day, that holds a target state, [find_next_at] returns
    the start of slot [k]: on today's date when [k] is after [idx], on
    the following date when [k] is [idx] or before it.  Tomorrow's pack
    plays no part. *)
Theorem find_next_at_today_slot (target_states : list string)
        (today_date : date) (today_half : list string)
        (tomorrow_pack : option pack) (now : datetime) (k : Z) (s : string) :
  length today_half = 48 ->
  valid_datetime now ->
  dt_date now = today_date ->
  (0 <= k < 48)%Z ->
  nth_error today_half (Z.to_nat k) = Some s ->
  str_in s target_states = true ->
  (forall q s',
      (0 <= q < (k - current_slot_index now today_date - 1) mod 48)%Z ->
      nth_error today_half
        (Z.to_nat ((current_slot_index now today_date + 1 + q) mod 48))
      = Some s' ->
      str_in s' target_states = false) ->
  find_next_at target_states today_date today_half
               (current_slot_index now today_date) tomorrow_pack now
  = Some (mkDatetime
            (today_date
             + (if k <=? current_slot_index now today_date then 1 else 0))
            (k / 2) (if k mod 2 =? 0 then 0 else 30) 0 0)%Z.
Proof.
  intros Hlen Hnow Hdate Hk Hs Ht Hfirst.
  pose proof (current_slot_index_range now today_date Hnow) as Hidx.
  unfold find_next_at.
  rewrite (first_match_round_the_day target_states today_half
             (current_slot_index now today_date) k tomorrow_pack s
             Hlen Hidx Hk Hs Ht Hfirst).
  f_equal. apply round_the_day_instant; assumption.
Qed.

Lemma find_next_at_today_slot_witness :
  find_next_at ["off"] 739252 (repeat "off" 12 ++ repeat "on" 36)
               (current_slot_index (mkDatetime 739252 20 10 30 0) 739252)
               (Some (739253%Z, repeat "on" 24, repeat "on" 48))
               (mkDatetime 739252 20 10 30 0)
  = Some (mkDatetime 739253 0 0 0 0).
Proof.
  apply (find_next_at_today_slot
           ["off"] 739252 (repeat "off" 12 ++ repeat "on" 36)
           (Some (739253%Z, repeat "on" 24, repeat "on" 48))
           (mkDatetime 739252 20 10 30 0) 0 "off").
  - reflexivity.
  - unfold valid_datetime. simpl. lia.
  - reflexivity.
  - lia.
  - reflexivity.
  - reflexivity.
  - intros q s' Hq Hs'.
    change (current_slot_index (mkDatetime 739252 20 10 30 0) 739252)
      with 40%Z in *.
    change ((0 - 40 - 1) mod 48)%Z with 7%Z in Hq.
    assert (E : (q = 0 \/ q = 1 \/ q = 2 \/ q = 3 \/ q = 4 \/ q = 5
                 \/ q = 6)%Z) by lia.
    destruct E as [-> | [-> | [-> | [-> | [-> | [-> | ->]]]]]];
      vm_compute in Hs'; injection Hs' as <-; reflexivity.
Defined.

(** X5: when no slot of today holds a target state and slot [q] is the
    first slot of tomorrow's grid that does, [find_next_at] returns the
    instant [len(today) + q + 1] half hours after the start of the
    current half hour.  With a grid of 48 slots and [now] in slot [idx]
    of today's date, that is [idx + 1] half hours after the start of
    slot [q] of the following date. *)
Theorem find_next_at_tomorrow_slot (target_states : list string)
        (today_date : date) (today_half : list string) (idx : Z)
        (d : date) (hc th : list string) (now : datetime)
        (q : nat) (s : string) :
  (forall x, In x today_half -> str_in x target_states = false) ->
  nth_error th q = Some s ->
  str_in s target_states = true ->
  (forall q' s', q' < q -> nth_error th q' = Some s' ->
                 str_in s' target_states = false) ->
  exists r,
    find_next_at target_states today_date today_half idx
                 (Some (d, hc, th)) now = Some r
    /\ wall_minutes r
       = (wall_minutes (base_aligned now)
          + 30 * (Z.of_nat (length today_half) + Z.of_nat q + 1))%Z
    /\ (length today_half = 48 ->
        valid_datetime now ->
        dt_date now = today_date ->
        idx = current_slot_index now today_date ->
        wall_minutes r
        = (slot_start (today_date + 1) q + 30 * (idx + 1))%Z).
Proof.
  intros Hnone Hq Hs Hfirst.
  assert (F0 : first_match target_states
                 (search_sequence today_half idx None) = None).
  { apply first_match_None. intros x Hx. apply Hnone.
    apply search_sequence_In in Hx.
    destruct Hx as [Hx|[d' [hc' [th' [E _]]]]]; [exact Hx|discriminate]. }
  assert (F1 : first_match target_states th = Some q).
  { apply first_match_Some. split; [eauto|exact Hfirst]. }
  unfold find_next_at.
  rewrite search_sequence_tomorrow, first_match_app, F0, F1.
  cbn [option_map]. rewrite search_sequence_length_today.
  eexists. split; [reflexivity|].
  rewrite wall_minutes_add_minutes. split; [lia|].
  intros Hlen Hnow Hdate Hidx. rewrite Hlen.
  unfold slot_start, wall_minutes, base_aligned.
  cbn [dt_date dt_hour dt_minute].
  subst idx. unfold current_slot_index. rewrite Hdate, Z.eqb_refl.
  cbn [negb]. unfold valid_datetime in Hnow.
  destruct (Z.ltb_spec (dt_minute now) 30);
    destruct (Z.leb_spec 30 (dt_minute now)); lia.
Qed.

Lemma find_next_at_tomorrow_slot_witness :
  exists r,
    find_next_at ["off"] 739252 (repeat "on" 48) 20
                 (Some (739253%Z, repeat "off" 6 ++ repeat "on" 18,
                        repeat "off" 12 ++ repeat "on" 36))
                 (mkDatetime 739252 10 15 0 0) = Some r
    /\ wall_minutes r = wall_minutes (mkDatetime 739253 10 30 0 0).
Proof.
  destruct (find_next_at_tomorrow_slot
              ["off"] 739252 (repeat "on" 48) 20 739253
              (repeat "off" 6 ++ repeat "on" 18)
              (repeat "off" 12 ++ repeat "on" 36)
              (mkDatetime 739252 10 15 0 0) 0 "off")
    as [r [H1 [H2 _]]].
  - intros x Hx. apply repeat_spec in Hx. now subst x.
  - reflexivity.
  - reflexivity.
  - intros q' s' Hq'. lia.
  - exists r. split; [exact H1|]. rewrite H2. reflexivity.
Defined.

(** ** The record built by [_build_payload] *)

Lemma getitem_z_beyond {A : Type} (xs : list A) (i : Z) :
  (Z.of_nat (length xs) <= i)%Z -> getitem_z xs i = Raise IndexError.
Proof.
  intros H. rewrite getitem_z_nonneg by lia. unfold getitem.
  destruct (nth_error xs (Z.to_nat i)) eqn:E; [|reflexivity].
  assert (Z.to_nat i < length xs) by (apply nth_error_Some; congruence).
  lia.
Qed.

(** X6: [_build_payload] raises [IndexError] when the grid has no slot
    for the current half hour, and otherwise returns a record in which
    the slot index is the current one, the state is the grid's entry at
    that slot, and [next_change_at] is absent exactly when all entries
    of the grid are equal; when present it is the text "HH:MM" of the
    start of a slot other than the current one whose state differs. *)
Theorem build_payload_record (date_isoformat : date -> string)
        (self_queue : string) (today_date : date)
        (hour_classes halfhours : list string) (tomorrow_pack : option pack)
        (updated source_url : string) (source_last_modified : option string)
        (clock : readings) :
  valid_datetime (now_payload clock) ->
  ((Z.of_nat (length halfhours)
    <= current_slot_index (now_payload clock) today_date)%Z ->
   _build_payload date_isoformat self_queue
                  (today_date, hour_classes, halfhours) tomorrow_pack
                  updated source_url source_last_modified clock
   = Raise IndexError)
  /\ ((current_slot_index (now_payload clock) today_date
       < Z.of_nat (length halfhours))%Z ->
      exists p,
        _build_payload date_isoformat self_queue
                       (today_date, hour_classes, halfhours) tomorrow_pack
                       updated source_url source_last_modified clock
        = Ok p
        /\ pl_now_halfhour_index p
           = current_slot_index (now_payload clock) today_date
        /\ nth_error halfhours (Z.to_nat (pl_now_halfhour_index p))
           = Some (pl_now_status p)
        /\ (pl_next_change_at p = None
            <-> forall x y, In x halfhours -> In y halfhours -> x = y)
        /\ (forall t,
               pl_next_change_at p = Some t ->
               exists j,
                 (0 <= j < Z.of_nat (length halfhours))%Z
                 /\ j <> pl_now_halfhour_index p
                 /\ nth_error halfhours (Z.to_nat j)
                    <> Some (pl_now_status p)
                 /\ t = fmt_hhmm (j / 2)
                                 (if (j mod 2 =? 0)%Z then 0 else 30))).
Proof.
  intros Hnow.
  pose proof (current_slot_index_range (now_payload clock) today_date Hnow)
    as Hidx.
  set (idx := current_slot_index (now_payload clock) today_date) in *.
  split.
  - intros H. unfold _build_payload. fold idx.
    now rewrite (getitem_z_beyond halfhours idx H).
  - intros H. unfold _build_payload. fold idx.
    destruct (getitem_z_in_range halfhours idx) as [cur [Hg Hc]]; [lia|].
    rewrite Hg. cbn [bind].
    destruct (next_change_idx_result halfhours idx) as [r [Hr [R1 R2]]];
      [lia|].
    rewrite Hr. cbn [bind]. eexists. split; [reflexivity|].
    cbn [pl_now_halfhour_index pl_now_status pl_next_change_at].
    split; [reflexivity|]. split; [exact Hc|]. split.
    + rewrite <- R2. destruct r; split; intros E; try discriminate;
        reflexivity.
    + intros t Ht. destruct r as [j|]; [|discriminate].
      injection Ht as <-.
      destruct (R1 j eq_refl) as [J1 [J2 J3]].
      exists j. split; [exact J1|]. split; [exact J2|].
      split; [now rewrite <- Hc|].
      destruct (Z.eqb_spec (j mod 2) 0); reflexivity.
Qed.

Lemma build_payload_record_witness :
  _build_payload Sample.date_isoformat "1.1"
                 (739252%Z, repeat "off" 23, repeat "off" 46) None
                 "2025-01-01T21:10:00+00:00" "https://svitlo.live/kyiv" None
                 (Sample.clock_at (mkDatetime 739252 23 10 0 0))
  = Raise IndexError.
Proof.
  apply (proj1 (build_payload_record
                  Sample.date_isoformat "1.1" 739252
                  (repeat "off" 23) (repeat "off" 46) None
                  "2025-01-01T21:10:00+00:00" "https://svitlo.live/kyiv"
                  None (Sample.clock_at (mkDatetime 739252 23 10 0 0))
                  ltac:(unfold valid_datetime; simpl; lia))).
  vm_compute. discriminate.
Defined.

(** X7: take a grid of 48 "on"/"off" slots and three clock readings of
    one run of [_build_payload] that all fall in the same half hour of
    the schedule's date.  In the record built, a [next_change_at] that
    is present is the time of day of the local time computed for the
    other state: of [next_on_at] when the state is "off", of
    [next_off_at] when it is "on"; that local time is the start of a
    slot, at zero seconds, on the schedule's date or the date after
    it. *)
Theorem payload_next_change_is_next_other_state
        (date_isoformat : date -> string)
        (self_queue : string) (today_date : date)
        (hour_classes halfhours : list string) (tomorrow_pack : option pack)
        (updated source_url : string) (source_last_modified : option string)
        (clock : readings) :
  length halfhours = 48 ->
  (forall x, In x halfhours -> x = "on" \/ x = "off") ->
  valid_datetime (now_payload clock) ->
  valid_datetime (now_next_on clock) ->
  valid_datetime (now_next_off clock) ->
  dt_date (now_payload clock) = today_date ->
  dt_date (now_next_on clock) = today_date ->
  dt_date (now_next_off clock) = today_date ->
  current_slot_index (now_next_on clock) today_date
  = current_slot_index (now_payload clock) today_date ->
  current_slot_index (now_next_off clock) today_date
  = current_slot_index (now_payload clock) today_date ->
  exists p,
    _build_payload date_isoformat self_queue
                   (today_date, hour_classes, halfhours) tomorrow_pack
                   updated source_url source_last_modified clock
    = Ok p
    /\ forall t,
        pl_next_change_at p = Some t ->
        exists r,
          (if (pl_now_status p =? "off")%string
           then pl_next_on_at p else pl_next_off_at p) = Some r
          /\ t = fmt_hhmm (dt_hour r) (dt_minute r)
          /\ (dt_date r = today_date \/ dt_date r = (today_date + 1)%Z)
          /\ (dt_minute r = 0 \/ dt_minute r = 30)%Z
          /\ dt_second r = 0%Z /\ dt_microsecond r = 0%Z.
Proof.
  intros Hlen Honoff Hnow Hnow1 Hnow2 Hdate Hdate1 Hdate2 Hslot1 Hslot2.
  pose proof (current_slot_index_range (now_payload clock) today_date Hnow)
    as Hidx.
  unfold _build_payload.
  set (idx := current_slot_index (now_payload clock) today_date) in *.
  destruct (getitem_z_in_range halfhours idx) as [cur [Hg Hc]]; [lia|].
  rewrite Hg. cbn [bind].
  unfold next_change_idx. rewrite Hg. cbn [bind].
  destruct (scan_change_spec halfhours cur idx (seq 1 (length halfhours)))
    as [r [Hr Hm]]; [lia|].
  rewrite Hr. cbn [bind]. eexists. split; [reflexivity|].
  cbn [pl_next_change_at pl_now_status pl_next_on_at pl_next_off_at].
  intros t Ht. destruct r as [j|]; [|discriminate]. injection Ht as <-.
  destruct Hm as [pre [s [post [H1 [H2 [H3 H4]]]]]].
  rewrite Hlen in H1, H2, H4. change (Z.of_nat 48) with 48%Z in H2, H4.
  pose proof (seq_split_at _ _ _ _ _ H1) as [Hs Hpre].
  assert (Hin : In s (seq 1 48)) by (rewrite H1; apply in_elt).
  apply in_seq in Hin.
  assert (Hj : (0 <= j < 48)%Z) by (rewrite H2; apply Z.mod_pos_bound; lia).
  assert (Hjs : ((j - idx - 1) mod 48 = Z.of_nat s - 1)%Z)
    by (rewrite H2; Z.to_euclidean_division_equations; lia).
  destruct (nth_error halfhours (Z.to_nat j)) as [sj|] eqn:Ej;
    [|apply nth_error_None in Ej; lia].
  assert (Hsj : sj <> cur) by (intros ->; now apply H3).
  assert (Hcur : cur = "on" \/ cur = "off")
    by (apply Honoff; eapply nth_error_In; exact Hc).
  assert (Hsj' : sj = "on" \/ sj = "off")
    by (apply Honoff; eapply nth_error_In; exact Ej).
  set (target := if (cur =? "off")%string then "on" else "off").
  assert (Htarget : sj = target /\ str_in cur [target] = false).
  { subst target.
    destruct Hcur as [-> | ->]; destruct Hsj' as [-> | ->];
      try contradiction; split; reflexivity. }
  destruct Htarget as [Etarget Hcurno].
  assert (F : forall now,
             valid_datetime now -> dt_date now = today_date ->
             current_slot_index now today_date = idx ->
             find_next_at [target] today_date halfhours idx tomorrow_pack now
             = Some (mkDatetime
                       (today_date + (if j <=? idx then 1 else 0))
                       (j / 2) (if j mod 2 =? 0 then 0 else 30) 0 0)%Z).
  { intros now Vnow Dnow Snow. unfold find_next_at.
    rewrite (first_match_round_the_day [target] halfhours idx j tomorrow_pack
               sj Hlen Hidx Hj Ej).
    - f_equal. rewrite <- Snow. apply round_the_day_instant; assumption.
    - rewrite Etarget. simpl. now rewrite String.eqb_refl.
    - intros q s' Hq Hs'. rewrite Hjs in Hq.
      rewrite Forall_forall in H4.
      specialize (H4 (Z.to_nat (q + 1))).
      rewrite Z2Nat.id in H4 by lia.
      replace (idx + (q + 1))%Z with (idx + 1 + q)%Z in H4 by lia.
      rewrite H4 in Hs'.
      + injection Hs' as <-. exact Hcurno.
      + rewrite Hpre. apply in_seq. lia. }
  exists (mkDatetime (today_date + (if j <=? idx then 1 else 0))
                     (j / 2) (if j mod 2 =? 0 then 0 else 30) 0 0)%Z.
  split.
  { subst target. destruct (String.eqb_spec cur "off") as [E|E];
      apply F; assumption. }
  cbn [dt_date dt_hour dt_minute dt_second dt_microsecond].
  split.
  { destruct (Z.eqb_spec (j mod 2) 0); reflexivity. }
  split; [destruct (Z.leb_spec j idx); [right|left]; lia|].
  split; [destruct (Z.eqb_spec (j mod 2) 0); [left|right]; reflexivity|].
  split; reflexivity.
Qed.

Lemma payload_next_change_is_next_other_state_witness :
  exists p,
    _build_payload Sample.date_isoformat "1.1" Sample.morning_off_pack None
                   "2025-01-01T03:00:00+00:00" "https://svitlo.live/kyiv"
                   None
                   (mkReadings (mkDatetime 739252 5 0 0 0)
                               (mkDatetime 739252 5 0 0 250)
                               (mkDatetime 739252 5 0 0 400))
    = Ok p
    /\ pl_next_change_at p = Some "06:00"
    /\ pl_next_on_at p = Some (mkDatetime 739252 6 0 0 0).
Proof.
  destruct (payload_next_change_is_next_other_state
              Sample.date_isoformat "1.1" 739252
              (repeat "off" 6 ++ repeat "on" 18)
              (repeat "off" 12 ++ repeat "on" 36) None
              "2025-01-01T03:00:00+00:00" "https://svitlo.live/kyiv" None
              (mkReadings (mkDatetime 739252 5 0 0 0)
                          (mkDatetime 739252 5 0 0 250)
                          (mkDatetime 739252 5 0 0 400)))
    as [p [Hp _]].
  - reflexivity.
  - intros x Hx. simpl in Hx.
    repeat (destruct Hx as [<-|Hx]; [auto|]). contradiction.
  - unfold valid_datetime. simpl. lia.
  - unfold valid_datetime. simpl. lia.
  - unfold valid_datetime. simpl. lia.
  - reflexivity.
  - reflexivity.
  - reflexivity.
  - reflexivity.
  - reflexivity.
  - exists p. split; [exact Hp|].
    vm_compute in Hp. injection Hp as <-. split; reflexivity.
Defined.

(** ** [parse_table] and [parse_queue] *)

(** X8: every schedule that [parse_table] returns has at most 24 hour
    classes, each one a key of [CLASS_MAP] or "on", and exactly twice
    as many half hours, each one "on" or "off". *)
Theorem parse_table_shape (CLASS_MAP : list string)
        (strptime_dmy : string -> option date) (rows : list (list td))
        (day : date) (hour_classes halfhours : list string) :
  parse_table CLASS_MAP strptime_dmy rows
  = Ok (day, hour_classes, halfhours) ->
  length hour_classes <= 24
  /\ length halfhours = 2 * length hour_classes
  /\ (forall c, In c hour_classes ->
                c = "on" \/ str_in c CLASS_MAP = true)
  /\ (forall x, In x halfhours -> x = "on" \/ x = "off").
Proof.
  intros H.
  destruct rows as [|[|header row0] [|row1 rest]];
    try (vm_compute in H; discriminate).
  destruct (strptime_dmy (td_text header)) as [d|] eqn:Hd.
  - rewrite (parse_table_result CLASS_MAP strptime_dmy header row0 row1 rest
               d Hd) in H.
    remember (firstn 24 (skipn 1 row1)) as cells eqn:Ecells.
    assert (Hcells : length cells <= 24)
      by (rewrite Ecells, length_firstn; lia).
    clear Ecells. injection H as <- <- <-.
    rewrite <- expand_halfhours_concat.
    split; [rewrite length_map; exact Hcells|].
    split; [apply expand_halfhours_length|].
    split; [|apply expand_halfhours_on_off].
    intros c Hc. apply in_map_iff in Hc. destruct Hc as [cell [<- _]].
    unfold cell_class.
    destruct (find _ (td_get_class cell)) as [k|] eqn:F; [|left; reflexivity].
    apply find_some in F. right. tauto.
  - unfold parse_table in H. cbn [length Nat.ltb Nat.leb getitem nth_error bind]
      in H.
    rewrite Hd in H. discriminate.
Qed.

Lemma parse_table_shape_witness :
  length (repeat "off" 24) <= 24
  /\ length (repeat "off" 48) = 2 * length (repeat "off" 24).
Proof.
  destruct (parse_table_shape
              Sample.class_map Sample.strptime_dmy Sample.rows_25_cells
              739252 (repeat "off" 24) (repeat "off" 48))
    as [H1 [H2 _]].
  - vm_compute. reflexivity.
  - split; [exact H1|exact H2].
Defined.

(** X9: [parse_queue] raises [ValueError] when the queue's [div] is
    missing or holds no table; it reads the first table as today and
    the second, when there is one, as tomorrow, and nothing of any
    further table; when it returns, today's pack is the parse of the
    first table, tomorrow's pack is absent exactly when there is one
    table, and the last-modified text is absent exactly when the
    document has none. *)
Theorem parse_queue_tables (CLASS_MAP : list string)
        (strptime_dmy : string -> option date)
        (last_modified_as_utc : string -> option string)
        (doc : document) :
  (doc_tables doc = None \/ doc_tables doc = Some [] ->
   parse_queue CLASS_MAP strptime_dmy last_modified_as_utc doc
   = Raise ValueError)
  /\ (forall t0 t1 rest,
         doc_tables doc = Some (t0 :: t1 :: rest) ->
         parse_queue CLASS_MAP strptime_dmy last_modified_as_utc doc
         = parse_queue CLASS_MAP strptime_dmy last_modified_as_utc
                       (mkDocument (Some [t0; t1]) (doc_last_modified doc)))
  /\ (forall today_pack tomorrow_pack slm,
         parse_queue CLASS_MAP strptime_dmy last_modified_as_utc doc
         = Ok (today_pack, tomorrow_pack, slm) ->
         exists t0 rest,
           doc_tables doc = Some (t0 :: rest)
           /\ parse_table CLASS_MAP strptime_dmy t0 = Ok today_pack
           /\ (tomorrow_pack = None <-> rest = [])
           /\ (forall tp, tomorrow_pack = Some tp ->
                 exists t1 rest',
                   rest = t1 :: rest'
                   /\ parse_table CLASS_MAP strptime_dmy t1 = Ok tp)
           /\ (slm = None <-> doc_last_modified doc = None)).
Proof.
  split; [|split].
  - intros [H|H]; unfold parse_queue; rewrite H; reflexivity.
  - intros t0 t1 rest H. unfold parse_queue. rewrite H. reflexivity.
  - intros today_pack tomorrow_pack slm H. unfold parse_queue in H.
    destruct (doc_tables doc) as [[|t0 rest]|]; try discriminate.
    exists t0, rest. split; [reflexivity|].
    cbn [length Nat.eqb getitem nth_error bind] in H.
    destruct (parse_table CLASS_MAP strptime_dmy t0) as [tp0|e];
      cbn [bind] in H; [|discriminate].
    assert (Hslm : forall x, convert_last_modified last_modified_as_utc x
                             = None <-> x = None).
    { intros [x|]; [|tauto]. unfold convert_last_modified.
      destruct (_ && _ && _); [destruct (last_modified_as_utc x)|];
        split; discriminate. }
    destruct rest as [|t1 rest'].
    + cbn [length Nat.ltb Nat.leb bind] in H. injection H as <- <- <-.
      split; [reflexivity|]. split; [tauto|].
      split; [discriminate|apply Hslm].
    + cbn [length Nat.ltb Nat.leb getitem nth_error bind] in H.
      destruct (parse_table CLASS_MAP strptime_dmy t1) as [tp1|e] eqn:P1;
        cbn [bind] in H; [|discriminate].
      injection H as <- <- <-.
      split; [reflexivity|]. split; [split; discriminate|].
      split; [|apply Hslm].
      intros tp E. injection E as <-. eauto.
Qed.

Lemma parse_queue_tables_witness :
  parse_queue Sample.class_map Sample.strptime_dmy (fun _ => None)
              (mkDocument (Some []) (Some "2025-01-01 04:40"))
  = Raise ValueError.
Proof.
  apply (proj1 (parse_queue_tables
                  Sample.class_map Sample.strptime_dmy (fun _ => None)
                  (mkDocument (Some []) (Some "2025-01-01 04:40")))).
  right. reflexivity.
Defined.

(** ** A whole poll *)

Lemma fmt_hhmm_not_empty (h m : Z) : (fmt_hhmm h m =? "")%string = false.
Proof.
  unfold fmt_hhmm. destruct (fmt_02d h); reflexivity.
Qed.

Lemma poll_after_parse (CLASS_MAP : list string)
      (strptime_dmy : string -> option date)
      (last_modified_as_utc : string -> option string)
      (date_isoformat : date -> string)
      (date_fromisoformat : string -> option date)
      (self : coordinator) (doc : document) (polled_at url : string)
      (clock : readings) (now_schedule : datetime)
      (today_pack : pack) (tomorrow_pack : option pack)
      (slm : option string) :
  parse_queue CLASS_MAP strptime_dmy last_modified_as_utc doc
  = Ok (today_pack, tomorrow_pack, slm) ->
  poll CLASS_MAP strptime_dmy last_modified_as_utc date_isoformat
       date_fromisoformat self doc polled_at url clock now_schedule
  = match _async_update_data date_isoformat date_fromisoformat self
            today_pack tomorrow_pack slm polled_at url clock now_schedule
    with
    | Ok st => Published st
    | Raise e =>
        Propagated e (mkCoordinator (queue self) (unsub_precise self)
                                    (Some today_pack) tomorrow_pack
                                    (data self) (refresh_requests self))
    end.
Proof.
  intros H. unfold poll, _async_update_data. rewrite H.
  cbn [queue]. destruct (_build_payload _ _ _ _ _ _ _ _); reflexivity.
Qed.

(** X10: a poll whose document cannot be parsed (no [div] for the
    queue, no table, or a first or second table that [parse_table]
    rejects) ends in [UpdateFailed] and leaves the coordinator as it
    was: caches, timer and published record. *)
Theorem poll_parse_failure (CLASS_MAP : list string)
        (strptime_dmy : string -> option date)
        (last_modified_as_utc : string -> option string)
        (date_isoformat : date -> string)
        (date_fromisoformat : string -> option date)
        (self : coordinator) (doc : document) (polled_at url : string)
        (clock : readings) (now_schedule : datetime) :
  (doc_tables doc = None
   \/ doc_tables doc = Some []
   \/ (exists t0 rest e,
          doc_tables doc = Some (t0 :: rest)
          /\ parse_table CLASS_MAP strptime_dmy t0 = Raise e)
   \/ (exists t0 t1 rest e,
          doc_tables doc = Some (t0 :: t1 :: rest)
          /\ parse_table CLASS_MAP strptime_dmy t1 = Raise e)) ->
  poll CLASS_MAP strptime_dmy last_modified_as_utc date_isoformat
       date_fromisoformat self doc polled_at url clock now_schedule
  = UpdateFailed self.
Proof.
  intros H. unfold poll, parse_queue.
  destruct H as [H | [H | [[t0 [rest [e [H P]]]]
                          | [t0 [t1 [rest [e [H P]]]]]]]];
    rewrite H; try reflexivity.
  - cbn [length Nat.eqb getitem nth_error bind]. rewrite P. reflexivity.
  - cbn [length Nat.eqb Nat.ltb Nat.leb getitem nth_error bind].
    destruct (parse_table CLASS_MAP strptime_dmy t0); cbn [bind];
      [|reflexivity].
    rewrite P. reflexivity.
Qed.

Lemma poll_parse_failure_witness :
  poll Sample.class_map Sample.strptime_dmy (fun _ => None)
       Sample.date_isoformat Sample.date_fromisoformat
       Sample.polled_coordinator
       (mkDocument (Some [Sample.rows_25_cells; [[mkTd "soon" None]]]) None)
       "2025-01-01T04:00:00+00:00" "https://svitlo.live/kyiv"
       (Sample.clock_at (mkDatetime 739252 6 0 0 0))
       (mkDatetime 739252 6 0 0 0)
  = UpdateFailed Sample.polled_coordinator.
Proof.
  apply poll_parse_failure.
  right; right; right.
  exists Sample.rows_25_cells, [[mkTd "soon" None]], [], ValueError.
  split; reflexivity.
Defined.

(** X11: a poll of a schedule of 48 slots, with dates that are read
    back as they are written, publishes a record, caches the packs,
    and replaces the timer: no timer is left armed when all slots are
    equal; otherwise the timer is armed for the start of the first slot
    after the current one, going round the day, whose state differs
    from the current state, on the schedule's date when that is after
    now, else on the date after it, at zero seconds. *)
Theorem async_update_data_timer (date_isoformat : date -> string)
        (date_fromisoformat : string -> option date)
        (self : coordinator) (today_date : date)
        (hour_classes halfhours : list string) (tomorrow_pack : option pack)
        (source_last_modified : option string) (polled_at url : string)
        (clock : readings) (now_schedule : datetime) :
  length halfhours = 48 ->
  valid_datetime (now_payload clock) ->
  date_fromisoformat (date_isoformat today_date) = Some today_date ->
  date_isoformat today_date <> "" ->
  exists st p,
    _async_update_data date_isoformat date_fromisoformat self
      (today_date, hour_classes, halfhours) tomorrow_pack
      source_last_modified polled_at url clock now_schedule
    = Ok st
    /\ data st = Some p
    /\ today_pack_cached st = Some (today_date, hour_classes, halfhours)
    /\ tomorrow_pack_cached st = tomorrow_pack
    /\ refresh_requests st = refresh_requests self
    /\ (unsub_precise st = None
        <-> forall x y, In x halfhours -> In y halfhours -> x = y)
    /\ (forall c,
           unsub_precise st = Some c ->
           exists j step : Z,
             (0 <= j < 48)%Z
             /\ (1 <= step <= 48)%Z
             /\ j = ((current_slot_index (now_payload clock) today_date
                      + step) mod 48)%Z
             /\ nth_error halfhours (Z.to_nat j)
                <> nth_error halfhours
                     (Z.to_nat (current_slot_index (now_payload clock)
                                                   today_date))
             /\ (forall s' : Z,
                    (1 <= s' < step)%Z ->
                    nth_error halfhours
                      (Z.to_nat
                         ((current_slot_index (now_payload clock) today_date
                           + s') mod 48))
                    = nth_error halfhours
                        (Z.to_nat (current_slot_index (now_payload clock)
                                                      today_date)))
             /\ pl_next_change_at p
                = Some (fmt_hhmm (dt_hour c) (dt_minute c))
             /\ c = mkDatetime
                      (today_date
                       + (if dt_leb (mkDatetime today_date (j / 2)
                                       (if j mod 2 =? 0 then 0 else 30) 0 0)
                                    now_schedule
                          then 1 else 0))
                      (j / 2) (if j mod 2 =? 0 then 0 else 30) 0 0)%Z.
Proof.
  intros Hlen Hnow Hiso Hne.
  pose proof (current_slot_index_range (now_payload clock) today_date Hnow)
    as Hidx.
  unfold _async_update_data, _build_payload.
  cbn [queue unsub_precise today_pack_cached tomorrow_pack_cached data
       refresh_requests].
  set (idx := current_slot_index (now_payload clock) today_date) in *.
  destruct (getitem_z_in_range halfhours idx) as [cur [Hg Hc]]; [lia|].
  rewrite Hg. cbn [bind].
  destruct (next_change_idx_result halfhours idx) as [r [Hr [R1 R2]]];
    [lia|].
  destruct (next_change_idx_first halfhours idx) as [r' [Hr' Hf]]; [lia|].
  assert (Er : r' = r) by congruence. subst r'. clear Hr'.
  rewrite Hlen in Hf. change (Z.of_nat 48) with 48%Z in Hf.
  rewrite Hr. cbn [bind].
  unfold _schedule_precise_refresh.
  cbn [queue unsub_precise today_pack_cached tomorrow_pack_cached data
       refresh_requests pl_next_change_at pl_date].
  destruct r as [j|].
  - destruct (R1 j eq_refl) as [J1 [J2 J3]]. rewrite Hlen in J1.
    change (Z.of_nat 48) with 48%Z in J1.
    destruct Hf as [step [F1 [F2 [_ F4]]]].
    rewrite fmt_hhmm_not_empty.
    destruct (String.eqb_spec (date_isoformat today_date) "") as [E|_];
      [contradiction|].
    cbn [orb].
    assert (Hm : (if negb (j mod 2 =? 0)%Z then 30%Z else 0%Z)
                 = (if (j mod 2 =? 0)%Z then 0%Z else 30%Z))
      by (destruct (j mod 2 =? 0)%Z; reflexivity).
    rewrite Hm.
    rewrite (precise_candidate_spec date_fromisoformat
               (date_isoformat today_date) today_date (j / 2)
               (if (j mod 2 =? 0)%Z then 0 else 30)%Z now_schedule Hiso)
      by (destruct (j mod 2 =? 0)%Z; Z.to_euclidean_division_equations; lia).
    cbn [queue unsub_precise today_pack_cached tomorrow_pack_cached data
         refresh_requests].
    eexists. eexists. split; [reflexivity|].
    cbn [queue unsub_precise today_pack_cached tomorrow_pack_cached data
         refresh_requests pl_next_change_at].
    repeat (split; [reflexivity|]).
    split.
    + split; [discriminate|]. intros Hall. apply R2 in Hall. discriminate.
    + intros c E. injection E as <-. exists j, step.
      split; [exact J1|]. split; [exact F1|]. split; [exact F2|].
      split; [exact J3|]. split; [exact F4|].
      destruct (dt_leb _ now_schedule);
        cbn [dt_hour dt_minute]; split; try reflexivity;
        f_equal; lia.
  - cbn [queue unsub_precise today_pack_cached tomorrow_pack_cached data
         refresh_requests].
    eexists. eexists. split; [reflexivity|].
    cbn [queue unsub_precise today_pack_cached tomorrow_pack_cached data
         refresh_requests].
    repeat (split; [reflexivity|]).
    split.
    + split; [intros _; now apply R2|reflexivity].
    + discriminate.
Qed.

Lemma async_update_data_timer_witness :
  exists st,
    _async_update_data Sample.date_isoformat Sample.date_fromisoformat
      Sample.polled_coordinator
      (739252%Z, repeat "on" 24, repeat "on" 48) None None
      "2025-01-01T04:00:00+00:00" "https://svitlo.live/kyiv"
      (Sample.clock_at (mkDatetime 739252 6 0 0 0))
      (mkDatetime 739252 6 0 0 0)
    = Ok st
    /\ unsub_precise st = None.
Proof.
  destruct (async_update_data_timer
              Sample.date_isoformat Sample.date_fromisoformat
              Sample.polled_coordinator 739252
              (repeat "on" 24) (repeat "on" 48) None None
              "2025-01-01T04:00:00+00:00" "https://svitlo.live/kyiv"
              (Sample.clock_at (mkDatetime 739252 6 0 0 0))
              (mkDatetime 739252 6 0 0 0))
    as [st [p [H1 [_ [_ [_ [_ [H2 _]]]]]]]].
  - reflexivity.
  - unfold valid_datetime. simpl. lia.
  - reflexivity.
  - discriminate.
  - exists st. split; [exact H1|]. apply H2.
    intros x y Hx Hy. apply repeat_spec in Hx, Hy. congruence.
Defined.

(** X12: when the parsed grid of today has no slot for the current
    half hour, the poll ends with the [IndexError] of [_build_payload]:
    the new packs are cached already, while the timer, the published
    record and the count of refresh requests are those from before. *)
Theorem poll_grid_too_short (CLASS_MAP : list string)
        (strptime_dmy : string -> option date)
        (last_modified_as_utc : string -> option string)
        (date_isoformat : date -> string)
        (date_fromisoformat : string -> option date)
        (self : coordinator) (doc : document) (polled_at url : string)
        (clock : readings) (now_schedule : datetime)
        (today_date : date) (hour_classes halfhours : list string)
        (tomorrow_pack : option pack) (slm : option string) :
  parse_queue CLASS_MAP strptime_dmy last_modified_as_utc doc
  = Ok ((today_date, hour_classes, halfhours), tomorrow_pack, slm) ->
  (Z.of_nat (length halfhours)
   <= current_slot_index (now_payload clock) today_date)%Z ->
  poll CLASS_MAP strptime_dmy last_modified_as_utc date_isoformat
       date_fromisoformat self doc polled_at url clock now_schedule
  = Propagated IndexError
      (mkCoordinator (queue self) (unsub_precise self)
                     (Some (today_date, hour_classes, halfhours))
                     tomorrow_pack (data self) (refresh_requests self)).
Proof.
  intros Hparse Hshort.
  rewrite (poll_after_parse _ _ _ _ _ _ _ _ _ _ _ _ _ _ Hparse).
  unfold _async_update_data, _build_payload.
  now rewrite (getitem_z_beyond halfhours _ Hshort).
Qed.

Lemma poll_grid_too_short_witness :
  poll Sample.class_map Sample.strptime_dmy (fun _ => None)
       Sample.date_isoformat Sample.date_fromisoformat
       Sample.polled_coordinator
       (mkDocument (Some [Sample.rows_23_cells]) None)
       "2025-01-01T21:30:00+00:00" "https://svitlo.live/kyiv"
       (Sample.clock_at (mkDatetime 739252 23 30 0 0))
       (mkDatetime 739252 23 30 0 0)
  = Propagated IndexError
      (mkCoordinator "1.1" (Some (mkDatetime 739252 6 0 0 0))
                     (Some (739252%Z, repeat "off" 23, repeat "off" 46))
                     None (Some Sample.polled_payload) 0).
Proof.
  apply (poll_grid_too_short
           Sample.class_map Sample.strptime_dmy (fun _ => None)
           Sample.date_isoformat Sample.date_fromisoformat
           Sample.polled_coordinator
           (mkDocument (Some [Sample.rows_23_cells]) None)
           "2025-01-01T21:30:00+00:00" "https://svitlo.live/kyiv"
           (Sample.clock_at (mkDatetime 739252 23 30 0 0))
           (mkDatetime 739252 23 30 0 0)
           739252 (repeat "off" 23) (repeat "off" 46) None None).
  - vm_compute. reflexivity.
  - vm_compute. discriminate.
Defined.

(** ** The tick of the precise timer *)

Lemma build_payload_metadata (date_isoformat : date -> string)
      (self_queue : string) (today_pack : pack) (tomorrow_pack : option pack)
      (updated source_url : string) (source_last_modified : option string)
      (clock : readings) (p : payload) :
  _build_payload date_isoformat self_queue today_pack tomorrow_pack updated
                 source_url source_last_modified clock = Ok p ->
  pl_updated p = updated
  /\ pl_source p = source_url
  /\ pl_source_last_modified p = source_last_modified.
Proof.
  unfold _build_payload. destruct today_pack as [[dd hc] hh].
  destruct (getitem_z hh _); cbn [bind]; [|discriminate].
  destruct (next_change_idx hh _); cbn [bind]; [|discriminate].
  intros H. injection H as <-. auto.
Qed.

(** X13: a second tick at the same readings of the clock publishes the
    record of the first tick again, whatever text of the current time
    it is given, and requests one more refresh. *)
Theorem precise_tick_twice (date_isoformat : date -> string)
        (self st1 : coordinator) (clock : readings)
        (utcnow_iso utcnow_iso' : string) :
  _precise_tick date_isoformat self clock utcnow_iso = Ok st1 ->
  _precise_tick date_isoformat st1 clock utcnow_iso'
  = Ok (mkCoordinator (queue st1) (unsub_precise st1)
          (today_pack_cached st1) (tomorrow_pack_cached st1)
          (data st1) (S (refresh_requests st1))).
Proof.
  unfold _precise_tick.
  destruct (today_pack_cached self) as [tp|] eqn:Hc.
  - destruct (_build_payload date_isoformat (queue self) tp
                (tomorrow_pack_cached self) _ _ _ clock) as [p|e] eqn:B;
      cbn [bind]; [|discriminate].
    intros H. injection H as <-.
    cbn [queue unsub_precise today_pack_cached tomorrow_pack_cached data
         refresh_requests].
    destruct (build_payload_metadata _ _ _ _ _ _ _ _ _ B) as [M1 [M2 M3]].
    rewrite ?Hc. rewrite M1, M2, M3, B. reflexivity.
  - cbn [bind]. intros H. injection H as <-.
    cbn [queue unsub_precise today_pack_cached tomorrow_pack_cached data
         refresh_requests].
    rewrite ?Hc. reflexivity.
Qed.

Lemma precise_tick_twice_witness :
  exists st1,
    _precise_tick Sample.date_isoformat Sample.polled_coordinator
                  (Sample.clock_at (mkDatetime 739252 6 0 0 0))
                  "2025-01-01T04:00:00+00:00" = Ok st1
    /\ exists st2,
        _precise_tick Sample.date_isoformat st1
                      (Sample.clock_at (mkDatetime 739252 6 0 0 0))
                      "2025-01-01T04:00:07+00:00" = Ok st2
        /\ data st2 = data st1 /\ refresh_requests st2 = 2.
Proof.
  eexists. split; [vm_compute; reflexivity|].
  eexists. split.
  - apply (precise_tick_twice _ Sample.polled_coordinator _ _
                              "2025-01-01T04:00:00+00:00").
    vm_compute. reflexivity.
  - split; reflexivity.
Defined.

(** X14: a tick on a coordinator without cached schedule only requests
    a refresh.  With a cached schedule it raises [IndexError] when the
    grid has no slot for the current half hour, leaving nothing
    published and no refresh requested; otherwise it publishes a
    record, keeps the caches and the timer, and requests one
    refresh. *)
Theorem precise_tick_outcomes (date_isoformat : date -> string)
        (self : coordinator) (clock : readings) (utcnow_iso : string) :
  valid_datetime (now_payload clock) ->
  (today_pack_cached self = None ->
   _precise_tick date_isoformat self clock utcnow_iso
   = Ok (mkCoordinator (queue self) (unsub_precise self) None
           (tomorrow_pack_cached self) (data self)
           (S (refresh_requests self))))
  /\ (forall today_date hour_classes halfhours,
         today_pack_cached self
         = Some (today_date, hour_classes, halfhours) ->
         ((Z.of_nat (length halfhours)
           <= current_slot_index (now_payload clock) today_date)%Z ->
          _precise_tick date_isoformat self clock utcnow_iso
          = Raise IndexError)
         /\ ((current_slot_index (now_payload clock) today_date
              < Z.of_nat (length halfhours))%Z ->
             exists p,
               _precise_tick date_isoformat self clock utcnow_iso
               = Ok (mkCoordinator (queue self) (unsub_precise self)
                       (today_pack_cached self) (tomorrow_pack_cached self)
                       (Some p) (S (refresh_requests self))))).
Proof.
  intros Hnow. split.
  - intros Hc. unfold _precise_tick. rewrite Hc. cbn [bind].
    now rewrite Hc.
  - intros today_date hour_classes halfhours Hc.
    pose proof (current_slot_index_range (now_payload clock) today_date Hnow)
      as Hidx.
    split.
    + intros Hshort. unfold _precise_tick, _build_payload. rewrite Hc.
      now rewrite (getitem_z_beyond halfhours _ Hshort).
    + intros Hin. unfold _precise_tick, _build_payload. rewrite Hc.
      destruct (getitem_z_in_range halfhours
                  (current_slot_index (now_payload clock) today_date))
        as [cur [Hg _]]; [lia|].
      rewrite Hg. cbn [bind].
      destruct (next_change_idx_total halfhours
                  (current_slot_index (now_payload clock) today_date))
        as [r Hr]; [lia|].
      rewrite Hr. cbn [bind].
      cbn [queue unsub_precise today_pack_cached tomorrow_pack_cached data
           refresh_requests].
      eexists. reflexivity.
Qed.

Lemma precise_tick_outcomes_witness :
  _precise_tick Sample.date_isoformat Sample.fresh_coordinator
                (Sample.clock_at (mkDatetime 739252 6 0 0 0))
                "2025-01-01T04:00:00+00:00"
  = Ok (mkCoordinator "1.1" None None None None 1).
Proof.
  apply (proj1 (precise_tick_outcomes
                  Sample.date_isoformat Sample.fresh_coordinator
                  (Sample.clock_at (mkDatetime 739252 6 0 0 0))
                  "2025-01-01T04:00:00+00:00"
                  ltac:(unfold valid_datetime; simpl; lia))).
  reflexivity.
Defined.

(** ** The instant that is armed *)

(** X15: for a record whose [next_change_at] is a time "HH:MM" and
    whose date is not before the date of [now],
    [_schedule_precise_refresh] arms the timer for an instant after
    [now], at that time and zero seconds, whatever timer was armed
    before; the other attributes of the coordinator stay as they
    are. *)
Theorem schedule_precise_refresh_future
        (date_fromisoformat : string -> option date)
        (self : coordinator) (d : payload) (now : datetime)
        (base_day : date) (h m : Z) :
  pl_next_change_at d = Some (fmt_hhmm h m) ->
  pl_date d <> "" ->
  date_fromisoformat (pl_date d) = Some base_day ->
  (0 <= h < 24)%Z -> (0 <= m < 60)%Z ->
  valid_datetime now ->
  (dt_date now <= base_day)%Z ->
  exists armed,
    _schedule_precise_refresh date_fromisoformat self d now
    = mkCoordinator (queue self) (Some armed) (today_pack_cached self)
                    (tomorrow_pack_cached self) (data self)
                    (refresh_requests self)
    /\ dt_lt now armed
    /\ dt_hour armed = h /\ dt_minute armed = m
    /\ dt_second armed = 0%Z /\ dt_microsecond armed = 0%Z.
Proof.
  intros Hn Hne Hd Hh Hm Hnow Hday.
  destruct (precise_candidate_future date_fromisoformat (pl_date d) base_day
              h m now Hd Hh Hm Hnow Hday)
    as [armed [H1 [H2 [H3 [H4 [H5 [H6 _]]]]]]].
  exists armed. split; [|tauto].
  unfold _schedule_precise_refresh. rewrite Hn, fmt_hhmm_not_empty.
  destruct (String.eqb_spec (pl_date d) "") as [E|_]; [contradiction|].
  cbn [orb]. rewrite H1. reflexivity.
Qed.

Lemma schedule_precise_refresh_future_witness :
  exists armed,
    _schedule_precise_refresh Sample.date_fromisoformat
                              Sample.polled_coordinator Sample.polled_payload
                              (mkDatetime 739252 6 0 0 0)
    = mkCoordinator "1.1" (Some armed) (Some Sample.morning_off_pack) None
                    (Some Sample.polled_payload) 0
    /\ dt_lt (mkDatetime 739252 6 0 0 0) armed.
Proof.
  destruct (schedule_precise_refresh_future
              Sample.date_fromisoformat Sample.polled_coordinator
              Sample.polled_payload (mkDatetime 739252 6 0 0 0)
              739252 6 0)
    as [armed [H1 [H2 _]]].
  - reflexivity.
  - discriminate.
  - reflexivity.
  - lia.
  - lia.
  - unfold valid_datetime. simpl. lia.
  - simpl. lia.
  - exists armed. split; [exact H1|exact H2].
Defined.





(** * Further properties of the calendar *)

(** ** The events of a day are its whole off runs *)

(** X17: on a dated day with 48 slots the events are exactly the whole
    runs of off slots: an event is in the result if and only if it is
    the event of such a run, with the summary, from the instant of the
    start of the run's first slot to the instant of the start of the
    slot after its last one (midnight of the following day for a run
    that ends the day), and the description that names both wall-clock
    times. *)
Theorem build_day_events_whole_runs (summary : string)
        (date_fromisoformat : string -> option date)
        (as_utc : datetime -> datetime)
        (s : string) (base_day : date) (halfhours : list string) :
  s <> "" ->
  date_fromisoformat s = Some base_day ->
  length halfhours = 48 ->
  exists evs,
    _build_day_events summary date_fromisoformat as_utc (Some s) halfhours
    = Ok evs
    /\ (forall ev, In ev evs <->
          exists a e,
            is_off_run halfhours a e
            /\ ev = run_event summary as_utc base_day a e).
Proof.
  intros Hs Hd Hlen.
  destruct (build_day_events_runs summary date_fromisoformat as_utc s
                                  base_day halfhours Hs Hd Hlen)
    as [runs [b [Hev [Hchain [Hb [Hcover _]]]]]].
  eexists. split; [exact Hev|].
  intros ev. rewrite in_map_iff. split.
  - intros [r [<- Hr]].
    destruct (run_chain_In _ _ _ Hchain r Hr) as [Hrun _].
    exists (fst r), (snd r). split; [exact Hrun|reflexivity].
  - intros [a [e [Hrun ->]]].
    assert (Ha : a < 48) by (destruct Hrun as [R _]; lia).
    assert (Hoff : nth_error halfhours a = Some "off")
      by (destruct Hrun as [R1 [R2 _]]; apply R2; lia).
    destruct (Hcover a Ha Hoff) as [r [Hr Hra]].
    destruct (run_chain_In _ _ _ Hchain r Hr) as [Hrun' _].
    destruct (off_runs_meet halfhours a e (fst r) (snd r) a Hrun Hrun')
      as [E1 E2]; [destruct Hrun as [R _]; lia|exact Hra|].
    exists r. split; [now rewrite E1, E2|exact Hr].
Qed.

Lemma build_day_events_whole_runs_witness :
  exists evs,
    _build_day_events "Power outage" Sample.date_fromisoformat
                      Sample.kyiv_as_utc (Some "2025-01-01")
                      (repeat "off" 12 ++ repeat "on" 36) = Ok evs
    /\ forall ev, In ev evs <->
         exists a e,
           is_off_run (repeat "off" 12 ++ repeat "on" 36) a e
           /\ ev = run_event "Power outage" Sample.kyiv_as_utc 739252 a e.
Proof.
  apply (build_day_events_whole_runs
           "Power outage" Sample.date_fromisoformat Sample.kyiv_as_utc
           "2025-01-01" 739252 (repeat "off" 12 ++ repeat "on" 36)).
  - discriminate.
  - reflexivity.
  - reflexivity.
Defined.

(** X18: the events of a dated day with 48 slots are at most 24 and
    come in the order of their runs: the run of a later event starts
    after the slot that follows the run of an earlier one.  On a day
    every half hour of which lasts thirty minutes (the offset of the
    zone does not change), each event therefore lasts at least half an
    hour, and a later event starts at least half an hour after an
    earlier one ends. *)
Theorem build_day_events_ordered (summary : string)
        (date_fromisoformat : string -> option date)
        (as_utc : datetime -> datetime)
        (s : string) (base_day : date) (halfhours : list string) :
  s <> "" ->
  date_fromisoformat s = Some base_day ->
  length halfhours = 48 ->
  exists runs,
    _build_day_events summary date_fromisoformat as_utc (Some s) halfhours
    = Ok (map (fun r => run_event summary as_utc base_day (fst r) (snd r))
              runs)
    /\ length runs <= 24
    /\ (forall r, In r runs -> is_off_run halfhours (fst r) (snd r))
    /\ (forall i j r1 r2,
           i < j ->
           nth_error runs i = Some r1 ->
           nth_error runs j = Some r2 ->
           snd r1 < fst r2)
    /\ (steady_on_day as_utc base_day ->
        (forall r, In r runs ->
           (wall_micros
              (ev_start (run_event summary as_utc base_day (fst r) (snd r)))
            + 30 * 60 * 1000000
            <= wall_micros
                 (ev_end (run_event summary as_utc base_day (fst r) (snd r))))
             %Z)
        /\ (forall i j r1 r2,
               i < j ->
               nth_error runs i = Some r1 ->
               nth_error runs j = Some r2 ->
               (wall_micros
                  (ev_end (run_event summary as_utc base_day
                                     (fst r1) (snd r1)))
                + 30 * 60 * 1000000
                <= wall_micros
                     (ev_start (run_event summary as_utc base_day
                                          (fst r2) (snd r2))))%Z)).
Proof.
  intros Hs Hd Hlen.
  destruct (build_day_events_runs summary date_fromisoformat as_utc s
                                  base_day halfhours Hs Hd Hlen)
    as [runs [b [Hev [Hchain [Hb _]]]]].
  exists runs. split; [exact Hev|].
  split; [pose proof (run_chain_length _ _ _ Hchain); lia|].
  split; [intros r Hr; apply (run_chain_In _ _ _ Hchain r Hr)|].
  split; [exact (run_chain_ordered _ _ _ Hchain)|].
  intros Hst. split.
  - intros r Hr.
    destruct (run_chain_In _ _ _ Hchain r Hr) as [[R _] _].
    destruct (run_event_bounds summary as_utc base_day (fst r) (snd r))
      as [-> ->]; [lia|].
    rewrite (steady_on_day_span as_utc base_day (fst r) (snd r) Hst)
      by lia.
    nia.
  - intros i j r1 r2 Hij H1 H2.
    pose proof (run_chain_ordered _ _ _ Hchain i j r1 r2 Hij H1 H2) as Hlt.
    destruct (run_chain_In _ _ _ Hchain r1 (nth_error_In _ _ H1))
      as [[R1 _] _].
    destruct (run_chain_In _ _ _ Hchain r2 (nth_error_In _ _ H2))
      as [[R2 _] _].
    destruct (run_event_bounds summary as_utc base_day (fst r1) (snd r1))
      as [_ ->]; [lia|].
    destruct (run_event_bounds summary as_utc base_day (fst r2) (snd r2))
      as [-> _]; [lia|].
    rewrite (steady_on_day_span as_utc base_day (snd r1) (fst r2) Hst)
      by lia.
    nia.
Qed.

Lemma build_day_events_ordered_witness :
  exists runs,
    _build_day_events "Power outage" Sample.date_fromisoformat
                      Sample.kyiv_as_utc (Some "2025-01-01")
                      (repeat "off" 12 ++ repeat "on" 34 ++ repeat "off" 2)
    = Ok (map (fun r => run_event "Power outage" Sample.kyiv_as_utc 739252
                                  (fst r) (snd r)) runs)
    /\ length runs <= 24
    /\ forall r, In r runs ->
         (wall_micros
            (ev_start (run_event "Power outage" Sample.kyiv_as_utc 739252
                                 (fst r) (snd r)))
          + 30 * 60 * 1000000
          <= wall_micros
               (ev_end (run_event "Power outage" Sample.kyiv_as_utc 739252
                                  (fst r) (snd r))))%Z.
Proof.
  destruct (build_day_events_ordered
              "Power outage" Sample.date_fromisoformat Sample.kyiv_as_utc
              "2025-01-01" 739252
              (repeat "off" 12 ++ repeat "on" 34 ++ repeat "off" 2))
    as [runs [H1 [H2 [_ [_ H3]]]]].
  - discriminate.
  - reflexivity.
  - reflexivity.
  - exists runs. split; [exact H1|]. split; [exact H2|].
    apply H3. exact kyiv_steady_new_year.
Defined.

(** X19: a dated day with 48 slots of which none is off has no event;
    a day whose 48 slots are all off has exactly one, from the instant
    of 00:00 of the day to the instant of 00:00 of the following
    day. *)
Theorem build_day_events_extremes (summary : string)
        (date_fromisoformat : string -> option date)
        (as_utc : datetime -> datetime)
        (s : string) (base_day : date) (halfhours : list string) :
  s <> "" ->
  date_fromisoformat s = Some base_day ->
  length halfhours = 48 ->
  ((forall x, In x halfhours -> x <> "off") ->
   _build_day_events summary date_fromisoformat as_utc (Some s) halfhours
   = Ok [])
  /\ ((forall x, In x halfhours -> x = "off") ->
      _build_day_events summary date_fromisoformat as_utc (Some s) halfhours
      = Ok [mkCalendarEvent summary
              (as_utc (mkDatetime base_day 0 0 0 0))
              (as_utc (mkDatetime (base_day + 1) 0 0 0 0))
              "No electricity 00:00–00:00"]).
Proof.
  intros Hs Hd Hlen.
  destruct (build_day_events_runs summary date_fromisoformat as_utc s
                                  base_day halfhours Hs Hd Hlen)
    as [runs [b [Hev [Hchain [Hb [Hcover _]]]]]].
  rewrite Hev. split.
  - intros Hno. f_equal. destruct runs as [|r runs]; [reflexivity|].
    exfalso.
    destruct (run_chain_In _ _ _ Hchain r (or_introl eq_refl))
      as [[R1 [R2 _]] _].
    apply (Hno "off"); [|reflexivity].
    apply (nth_error_In halfhours (fst r)). apply R2. lia.
  - intros Hall.
    assert (Hslot : forall i, i < 48 -> nth_error halfhours i = Some "off").
    { intros i Hi.
      destruct (nth_error halfhours i) as [x|] eqn:E.
      - f_equal. apply Hall. eapply nth_error_In; exact E.
      - apply nth_error_None in E. lia. }
    assert (Hwhole : forall r, In r runs -> r = (0, 48)).
    { intros r Hin.
      destruct (run_chain_In _ _ _ Hchain r Hin)
        as [[R1 [R2 [R3 R4]]] _].
      assert (fst r = 0).
      { destruct R3 as [Z0|N]; [exact Z0|].
        exfalso. apply N. apply Hslot. lia. }
      assert (snd r = 48).
      { destruct R4 as [Z0|N]; [exact Z0|].
        destruct (Nat.eq_dec (snd r) 48) as [E|E]; [exact E|].
        exfalso. apply N. apply Hslot. lia. }
      destruct r as [a e]. cbn [fst snd] in *. now subst. }
    f_equal. destruct runs as [|r1 [|r2 rest]].
    + exfalso.
      destruct (Hcover 0 ltac:(lia) (Hslot 0 ltac:(lia))) as [r [[] _]].
    + rewrite (Hwhole r1 (or_introl eq_refl)). reflexivity.
    + exfalso.
      pose proof (run_chain_ordered _ _ _ Hchain 0 1 r1 r2
                    ltac:(lia) eq_refl eq_refl) as Hlt.
      rewrite (Hwhole r1 (or_introl eq_refl)) in Hlt.
      rewrite (Hwhole r2 (or_intror (or_introl eq_refl))) in Hlt.
      cbn [fst snd] in Hlt. lia.
Qed.

Lemma build_day_events_extremes_witness :
  _build_day_events "Power outage" Sample.date_fromisoformat
                    Sample.kyiv_as_utc
                    (Some "2025-01-01") (repeat "on" 48) = Ok [].
Proof.
  apply (proj1 (build_day_events_extremes
                  "Power outage" Sample.date_fromisoformat
                  Sample.kyiv_as_utc "2025-01-01"
                  739252 (repeat "on" 48)
                  ltac:(discriminate) eq_refl eq_refl)).
  intros x Hx. apply repeat_spec in Hx. subst x. discriminate.
Defined.

(** ** The events of a window *)

Lemma fold_left_filter {A : Type} (f : A -> bool) (l acc : list A) :
  fold_left (fun filtered x => if f x then filtered ++ [x] else filtered)
            l acc
  = acc ++ filter f l.
Proof.
  revert acc. induction l as [|x l IH]; intros acc; simpl.
  - now rewrite app_nil_r.
  - rewrite IH. destruct (f x); [|reflexivity].
    now rewrite <- app_assoc.
Qed.

(** On a dated day with 48 slots whose boundaries are increasing
    instants, the half hour of an off slot lies within one of the
    day's events, the event of the run that holds the slot. *)
Lemma off_slot_event (summary : string)
      (date_fromisoformat : string -> option date)
      (as_utc : datetime -> datetime)
      (s : string) (base_day : date) (halfhours : list string)
      (evs : list CalendarEvent) (i : nat) :
  s <> "" ->
  date_fromisoformat s = Some base_day ->
  length halfhours = 48 ->
  increasing_on_day as_utc base_day ->
  _build_day_events summary date_fromisoformat as_utc (Some s) halfhours
  = Ok evs ->
  i < 48 ->
  nth_error halfhours i = Some "off" ->
  exists ev,
    In ev evs
    /\ (wall_micros (ev_start ev)
        <= wall_micros (as_utc (slot_boundary base_day i)))%Z
    /\ (wall_micros (as_utc (slot_boundary base_day (S i)))
        <= wall_micros (ev_end ev))%Z.
Proof.
  intros Hs Hd Hlen Hinc Hev Hi Hoff.
  destruct (build_day_events_runs summary date_fromisoformat as_utc s
                                  base_day halfhours Hs Hd Hlen)
    as [runs [b [Hev' [Hchain [Hb [Hcover _]]]]]].
  rewrite Hev in Hev'. injection Hev' as ->.
  destruct (Hcover i Hi Hoff) as [r [Hr Hri]].
  destruct (run_chain_In _ _ _ Hchain r Hr) as [[R _] _].
  exists (run_event summary as_utc base_day (fst r) (snd r)).
  split; [apply in_map_iff; exists r; auto|].
  destruct (run_event_bounds summary as_utc base_day (fst r) (snd r))
    as [-> ->]; [lia|].
  split.
  - destruct (Nat.eq_dec (fst r) i) as [->|N]; [lia|].
    pose proof (increasing_on_day_lt as_utc base_day (fst r) i Hinc
                  ltac:(lia) ltac:(lia)).
    lia.
  - destruct (Nat.eq_dec (S i) (snd r)) as [->|N]; [lia|].
    pose proof (increasing_on_day_lt as_utc base_day (S i) (snd r) Hinc
                  ltac:(lia) ltac:(lia)).
    lia.
Qed.

(** An off slot of today whose half hour meets the window lies within
    a returned event. *)
Lemma window_off_slot (summary : string)
      (date_fromisoformat : string -> option date)
      (as_utc : datetime -> datetime)
      (coordinator_data : option payload) (d : payload)
      (start_date end_date : datetime)
      (evs : list CalendarEvent) (base_day : date) (i : nat) :
  async_get_events summary date_fromisoformat as_utc coordinator_data
                   start_date end_date
  = Ok evs ->
  coordinator_data = Some d ->
  pl_date d <> "" ->
  date_fromisoformat (pl_date d) = Some base_day ->
  length (pl_today_48half d) = 48 ->
  increasing_on_day as_utc base_day ->
  i < 48 ->
  nth_error (pl_today_48half d) i = Some "off" ->
  (wall_micros start_date
   < wall_micros (as_utc (slot_boundary base_day (S i))))%Z ->
  (wall_micros (as_utc (slot_boundary base_day i))
   < wall_micros end_date)%Z ->
  exists ev,
    In ev evs
    /\ (wall_micros (ev_start ev)
        <= wall_micros (as_utc (slot_boundary base_day i)))%Z
    /\ (wall_micros (as_utc (slot_boundary base_day (S i)))
        <= wall_micros (ev_end ev))%Z.
Proof.
  intros Hget -> Hne Hiso Hlen Hinc Hi Hoff Hs He.
  unfold async_get_events in Hget. cbn [option_map] in Hget.
  destruct (_build_day_events summary date_fromisoformat as_utc
              (Some (pl_date d)) (pl_today_48half d))
    as [te|] eqn:T; cbn [bind] in Hget; [|discriminate].
  destruct (_build_day_events summary date_fromisoformat as_utc
              (pl_tomorrow_date d) _)
    as [me|] eqn:M; cbn [bind] in Hget; [|discriminate].
  rewrite fold_left_filter in Hget. injection Hget as <-.
  destruct (off_slot_event summary date_fromisoformat as_utc (pl_date d)
              base_day (pl_today_48half d) te i Hne Hiso Hlen Hinc T Hi Hoff)
    as [ev [Hin [H1 H2]]].
  exists ev. split; [|split; assumption].
  apply filter_In. split; [apply in_app_iff; left; exact Hin|].
  unfold overlaps. apply andb_true_iff. split; apply Z.ltb_lt; lia.
Qed.

(** X20: [async_get_events] returns no event when the coordinator has
    no data.  Every event it returns starts before the end of the
    window and ends after its start.  When today's record has a
    readable date and 48 slots, on a day whose slot boundaries are
    increasing instants, the half hour of every off slot of today that
    meets the window lies within one of the returned events.  The
    window and the events are instants, compared as such. *)
Theorem async_get_events_window (summary : string)
        (date_fromisoformat : string -> option date)
        (as_utc : datetime -> datetime)
        (coordinator_data : option payload)
        (start_date end_date : datetime) (evs : list CalendarEvent) :
  (coordinator_data = None ->
   async_get_events summary date_fromisoformat as_utc None
                    start_date end_date
   = Ok [])
  /\ (async_get_events summary date_fromisoformat as_utc coordinator_data
                       start_date end_date = Ok evs ->
      (forall ev, In ev evs ->
         (wall_micros (ev_start ev) < wall_micros end_date
          /\ wall_micros start_date < wall_micros (ev_end ev))%Z)
      /\ (forall d base_day i,
             coordinator_data = Some d ->
             pl_date d <> "" ->
             date_fromisoformat (pl_date d) = Some base_day ->
             length (pl_today_48half d) = 48 ->
             increasing_on_day as_utc base_day ->
             i < 48 ->
             nth_error (pl_today_48half d) i = Some "off" ->
             (wall_micros start_date
              < wall_micros (as_utc (slot_boundary base_day (S i))))%Z ->
             (wall_micros (as_utc (slot_boundary base_day i))
              < wall_micros end_date)%Z ->
             exists ev,
               In ev evs
               /\ (wall_micros (ev_start ev)
                   <= wall_micros (as_utc (slot_boundary base_day i)))%Z
               /\ (wall_micros (as_utc (slot_boundary base_day (S i)))
                   <= wall_micros (ev_end ev))%Z)).
Proof.
  split; [intros _; reflexivity|].
  intros Hget. split.
  - intros ev Hin.
    unfold async_get_events in Hget.
    destruct (_build_day_events summary date_fromisoformat as_utc
                (option_map pl_date coordinator_data) _)
      as [te|]; cbn [bind] in Hget; [|discriminate].
    destruct (_build_day_events summary date_fromisoformat as_utc
                (match coordinator_data with
                 | Some d => pl_tomorrow_date d
                 | None => None
                 end) _)
      as [me|]; cbn [bind] in Hget; [|discriminate].
    rewrite fold_left_filter in Hget. injection Hget as <-.
    apply filter_In in Hin. destruct Hin as [_ Ho].
    unfold overlaps in Ho. apply andb_true_iff in Ho.
    destruct Ho as [O1 O2]. apply Z.ltb_lt in O1, O2. lia.
  - intros d base_day i Hd Hne Hiso Hlen Hinc Hi Hoff Hs He.
    exact (window_off_slot summary date_fromisoformat as_utc
             coordinator_data d start_date end_date evs base_day i
             Hget Hd Hne Hiso Hlen Hinc Hi Hoff Hs He).
Qed.

Lemma async_get_events_window_witness :
  exists ev,
    In ev [run_event "Power outage" Sample.kyiv_as_utc 739252 0 12]
    /\ (wall_micros (ev_start ev)
        <= wall_micros (Sample.kyiv_as_utc (slot_boundary 739252 10)))%Z
    /\ (wall_micros (Sample.kyiv_as_utc (slot_boundary 739252 11))
        <= wall_micros (ev_end ev))%Z.
Proof.
  apply (proj2 (proj2 (async_get_events_window
                         "Power outage" Sample.date_fromisoformat
                         Sample.kyiv_as_utc
                         (Some Sample.polled_payload)
                         (mkDatetime 739252 0 0 0 0)
                         (mkDatetime 739253 12 0 0 0)
                         [run_event "Power outage" Sample.kyiv_as_utc
                                    739252 0 12])
                      ltac:(vm_compute; reflexivity))
               Sample.polled_payload 739252%Z 10).
  - reflexivity.
  - discriminate.
  - reflexivity.
  - reflexivity.
  - exact kyiv_increasing_new_year.
  - lia.
  - reflexivity.
  - vm_compute. reflexivity.
  - vm_compute. reflexivity.
Defined.

(** ** The event that [async_update] selects *)

Lemma insert_by_start_In (ev x : CalendarEvent) (l : list CalendarEvent) :
  In x (insert_by_start ev l) <-> x = ev \/ In x l.
Proof.
  induction l as [|h t IH]; simpl.
  - intuition auto.
  - destruct (_ <? _)%Z; simpl; rewrite ?IH; intuition auto.
Qed.

Lemma sort_by_start_In (x : CalendarEvent) (l : list CalendarEvent) :
  In x (sort_by_start l) <-> In x l.
Proof.
  induction l as [|h t IH]; simpl; [tauto|].
  rewrite insert_by_start_In, IH. intuition auto.
Qed.

Lemma insert_by_start_sorted (ev : CalendarEvent) (l : list CalendarEvent) :
  StronglySorted (fun a b => (wall_micros (ev_start a)
                              <= wall_micros (ev_start b))%Z) l ->
  StronglySorted (fun a b => (wall_micros (ev_start a)
                              <= wall_micros (ev_start b))%Z)
                 (insert_by_start ev l).
Proof.
  induction 1 as [|h t Hs IH Hall]; simpl.
  - constructor; constructor.
  - destruct (Z.ltb_spec (wall_micros (ev_start h))
                         (wall_micros (ev_start ev))) as [L|L].
    + constructor; [exact IH|].
      apply Forall_forall. intros x Hx.
      apply insert_by_start_In in Hx. destruct Hx as [->|Hx]; [lia|].
      rewrite Forall_forall in Hall. now apply Hall.
    + constructor; [constructor; assumption|].
      constructor; [exact L|].
      rewrite Forall_forall in Hall |- *. intros x Hx.
      specialize (Hall x Hx). lia.
Qed.

Lemma sort_by_start_sorted (l : list CalendarEvent) :
  StronglySorted (fun a b => (wall_micros (ev_start a)
                              <= wall_micros (ev_start b))%Z)
                 (sort_by_start l).
Proof.
  induction l as [|h t IH]; simpl; [constructor|].
  now apply insert_by_start_sorted.
Qed.

(** In a list sorted by start, the first event that starts after [now]
    is the earliest of those that do. *)
Lemma find_upcoming_earliest (now : datetime) (l : list CalendarEvent)
      (e : CalendarEvent) :
  StronglySorted (fun a b => (wall_micros (ev_start a)
                              <= wall_micros (ev_start b))%Z) l ->
  find (fun x => (wall_micros now <? wall_micros (ev_start x))%Z) l = Some e ->
  forall x, In x l ->
    (wall_micros now < wall_micros (ev_start x))%Z ->
    (wall_micros (ev_start e) <= wall_micros (ev_start x))%Z.
Proof.
  induction 1 as [|h t Hs IH Hall]; simpl; [discriminate|].
  destruct (Z.ltb_spec (wall_micros now) (wall_micros (ev_start h)))
    as [L|L].
  - intros E x Hx Hn. injection E as <-.
    destruct Hx as [<-|Hx]; [lia|].
    rewrite Forall_forall in Hall. now apply Hall.
  - intros E x Hx Hn. destruct Hx as [<-|Hx]; [lia|].
    now apply IH.
Qed.

Lemma async_update_result (summary : string)
        (date_fromisoformat : string -> option date)
        (as_utc : datetime -> datetime)
        (coordinator_data : option payload) (now_utc : datetime)
        (evs : list CalendarEvent) :
  async_get_events summary date_fromisoformat as_utc coordinator_data
                   (add_days now_utc (-1)) (add_days now_utc 2) = Ok evs ->
  exists r,
    async_update summary date_fromisoformat as_utc coordinator_data now_utc
    = Ok r
    /\ (forall ev, r = Some ev -> In ev evs)
    /\ ((exists ev, In ev evs
                    /\ (wall_micros (ev_start ev) <= wall_micros now_utc
                        < wall_micros (ev_end ev))%Z) ->
        exists ev, r = Some ev
                   /\ (wall_micros (ev_start ev) <= wall_micros now_utc
                       < wall_micros (ev_end ev))%Z)
    /\ ((forall ev, In ev evs ->
           ~ (wall_micros (ev_start ev) <= wall_micros now_utc
              < wall_micros (ev_end ev))%Z) ->
        forall ev, r = Some ev ->
          (wall_micros now_utc < wall_micros (ev_start ev))%Z
          /\ forall x, In x evs ->
               (wall_micros now_utc < wall_micros (ev_start x))%Z ->
               (wall_micros (ev_start ev) <= wall_micros (ev_start x))%Z)
    /\ (r = None <->
        forall ev, In ev evs ->
          ~ (wall_micros (ev_start ev) <= wall_micros now_utc
             < wall_micros (ev_end ev))%Z
          /\ (wall_micros (ev_start ev) <= wall_micros now_utc)%Z).
Proof.
  intros Hget. unfold async_update. rewrite Hget. cbn [bind].
  set (holds := fun e => dt_leb (ev_start e) now_utc
                         && (wall_micros now_utc <? wall_micros (ev_end e))%Z).
  set (after := fun e => (wall_micros now_utc
                          <? wall_micros (ev_start e))%Z).
  assert (Hholds : forall e, holds e = true <->
                     (wall_micros (ev_start e) <= wall_micros now_utc
                      < wall_micros (ev_end e))%Z).
  { intros e. unfold holds, dt_leb.
    rewrite andb_true_iff, Z.leb_le, Z.ltb_lt. tauto. }
  assert (Hafter : forall e, after e = true <->
                     (wall_micros now_utc < wall_micros (ev_start e))%Z).
  { intros e. unfold after. apply Z.ltb_lt. }
  eexists. split; [reflexivity|].
  destruct (find holds (sort_by_start evs)) as [c|] eqn:C.
  - pose proof (find_some _ _ C) as [Cin Ch].
    apply (proj1 (sort_by_start_In _ _)) in Cin.
    apply (proj1 (Hholds _)) in Ch.
    split; [intros ev E; injection E as <-; exact Cin|].
    split; [intros _; exists c; auto|].
    split; [intros Hnone; exfalso; exact (Hnone c Cin Ch)|].
    split; [discriminate|].
    intros Hall. exfalso. exact (proj1 (Hall c Cin) Ch).
  - assert (Hnone : forall ev, In ev evs ->
               ~ (wall_micros (ev_start ev) <= wall_micros now_utc
                  < wall_micros (ev_end ev))%Z).
    { intros ev Hin Hh. apply (proj2 (Hholds _)) in Hh.
      apply (proj2 (sort_by_start_In _ _)) in Hin.
      pose proof (find_none _ _ C ev Hin). congruence. }
    destruct (find after (sort_by_start evs)) as [u|] eqn:U.
    + pose proof (find_some _ _ U) as [Uin Ua].
      apply (proj1 (sort_by_start_In _ _)) in Uin.
      apply (proj1 (Hafter _)) in Ua.
      split; [intros ev E; injection E as <-; exact Uin|].
      split; [intros [ev [Hin Hh]]; exfalso; exact (Hnone ev Hin Hh)|].
      split.
      * intros _ ev E. injection E as <-. split; [exact Ua|].
        intros x Hx Hn.
        apply (find_upcoming_earliest now_utc (sort_by_start evs) u
                 (sort_by_start_sorted evs) U x);
          [apply sort_by_start_In; exact Hx|exact Hn].
      * split; [discriminate|].
        intros Hall. exfalso. pose proof (proj2 (Hall u Uin)). lia.
    + split; [discriminate|].
      split; [intros [ev [Hin Hh]]; exfalso; exact (Hnone ev Hin Hh)|].
      split; [discriminate|].
      split; [|reflexivity].
      intros _ ev Hin. split; [exact (Hnone ev Hin)|].
      apply (proj2 (sort_by_start_In _ _)) in Hin.
      pose proof (find_none _ _ U ev Hin) as N.
      unfold after in N. apply Z.ltb_ge in N. exact N.
Qed.

(** X21: the event that [async_update] stores is taken from the events
    of the window from one day before to two days after now.  When one
    of them holds now, the stored event holds now; when none does, the
    stored event is the one that starts earliest among those that
    start after now; and nothing is stored exactly when no event of the
    window holds now or starts after it. *)
Theorem async_update_choice (summary : string)
        (date_fromisoformat : string -> option date)
        (as_utc : datetime -> datetime)
        (coordinator_data : option payload) (now_utc : datetime)
        (evs : list CalendarEvent) :
  async_get_events summary date_fromisoformat as_utc coordinator_data
                   (add_days now_utc (-1)) (add_days now_utc 2) = Ok evs ->
  exists r,
    async_update summary date_fromisoformat as_utc coordinator_data now_utc
    = Ok r
    /\ (forall ev, r = Some ev -> In ev evs)
    /\ ((exists ev, In ev evs
                    /\ (wall_micros (ev_start ev) <= wall_micros now_utc
                        < wall_micros (ev_end ev))%Z) ->
        exists ev, r = Some ev
                   /\ (wall_micros (ev_start ev) <= wall_micros now_utc
                       < wall_micros (ev_end ev))%Z)
    /\ ((forall ev, In ev evs ->
           ~ (wall_micros (ev_start ev) <= wall_micros now_utc
              < wall_micros (ev_end ev))%Z) ->
        forall ev, r = Some ev ->
          (wall_micros now_utc < wall_micros (ev_start ev))%Z
          /\ forall x, In x evs ->
               (wall_micros now_utc < wall_micros (ev_start x))%Z ->
               (wall_micros (ev_start ev) <= wall_micros (ev_start x))%Z)
    /\ (r = None <->
        forall ev, In ev evs ->
          ~ (wall_micros (ev_start ev) <= wall_micros now_utc
             < wall_micros (ev_end ev))%Z
          /\ (wall_micros (ev_start ev) <= wall_micros now_utc)%Z).
Proof. exact (async_update_result summary date_fromisoformat as_utc
                                  coordinator_data now_utc evs). Qed.

Lemma async_update_choice_witness :
  exists r,
    async_update "Power outage" Sample.date_fromisoformat Sample.kyiv_as_utc
                 (Some Sample.polled_payload) (mkDatetime 739252 3 0 0 0)
    = Ok r
    /\ exists ev, r = Some ev
         /\ (wall_micros (ev_start ev)
             <= wall_micros (mkDatetime 739252 3 0 0 0)
             < wall_micros (ev_end ev))%Z.
Proof.
  destruct (async_update_choice
              "Power outage" Sample.date_fromisoformat Sample.kyiv_as_utc
              (Some Sample.polled_payload) (mkDatetime 739252 3 0 0 0)
              [run_event "Power outage" Sample.kyiv_as_utc 739252 0 12])
    as [r [H1 [_ [H2 _]]]].
  - vm_compute. reflexivity.
  - exists r. split; [exact H1|]. apply H2.
    exists (run_event "Power outage" Sample.kyiv_as_utc 739252 0 12).
    split; [left; reflexivity|]. vm_compute. split; [discriminate|reflexivity].
Defined.

(** X22: while the instant now lies in the half hour of an off slot of
    today's schedule (a record with a readable date and 48 slots, on a
    day whose slot boundaries are increasing instants), [async_update]
    stores an event that holds now: the calendar shows the outage in
    progress. *)
Theorem async_update_during_outage (summary : string)
        (date_fromisoformat : string -> option date)
        (as_utc : datetime -> datetime)
        (d : payload) (now_utc : datetime) (evs : list CalendarEvent)
        (base_day : date) (i : nat) :
  async_get_events summary date_fromisoformat as_utc (Some d)
                   (add_days now_utc (-1)) (add_days now_utc 2) = Ok evs ->
  pl_date d <> "" ->
  date_fromisoformat (pl_date d) = Some base_day ->
  length (pl_today_48half d) = 48 ->
  increasing_on_day as_utc base_day ->
  i < 48 ->
  nth_error (pl_today_48half d) i = Some "off" ->
  (wall_micros (as_utc (slot_boundary base_day i)) <= wall_micros now_utc
   < wall_micros (as_utc (slot_boundary base_day (S i))))%Z ->
  exists ev,
    async_update summary date_fromisoformat as_utc (Some d) now_utc
    = Ok (Some ev)
    /\ In ev evs
    /\ (wall_micros (ev_start ev) <= wall_micros now_utc
        < wall_micros (ev_end ev))%Z.
Proof.
  intros Hget Hne Hiso Hlen Hinc Hi Hoff Hnow.
  assert (Hw1 : wall_micros (add_days now_utc (-1))
                = (wall_micros now_utc - 1440 * 60 * 1000000)%Z)
    by (unfold wall_micros, wall_minutes, add_days; simpl; lia).
  assert (Hw2 : wall_micros (add_days now_utc 2)
                = (wall_micros now_utc + 2 * 1440 * 60 * 1000000)%Z)
    by (unfold wall_micros, wall_minutes, add_days; simpl; lia).
  destruct (window_off_slot summary date_fromisoformat as_utc (Some d) d
              (add_days now_utc (-1)) (add_days now_utc 2) evs base_day i
              Hget eq_refl Hne Hiso Hlen Hinc Hi Hoff ltac:(lia) ltac:(lia))
    as [ev0 [Hin [H1 H2]]].
  destruct (async_update_result summary date_fromisoformat as_utc (Some d)
                                now_utc evs Hget)
    as [r [Hr [Hfrom [Hcur _]]]].
  destruct Hcur as [ev [-> Hh]].
  - exists ev0. split; [exact Hin|lia].
  - exists ev. split; [exact Hr|]. split; [now apply Hfrom|exact Hh].
Qed.

Lemma async_update_during_outage_witness :
  exists ev,
    async_update "Power outage" Sample.date_fromisoformat Sample.kyiv_as_utc
                 (Some Sample.polled_payload) (mkDatetime 739252 3 10 0 0)
    = Ok (Some ev)
    /\ (wall_micros (ev_start ev)
        <= wall_micros (mkDatetime 739252 3 10 0 0)
        < wall_micros (ev_end ev))%Z.
Proof.
  destruct (async_update_during_outage
              "Power outage" Sample.date_fromisoformat Sample.kyiv_as_utc
              Sample.polled_payload (mkDatetime 739252 3 10 0 0)
              [run_event "Power outage" Sample.kyiv_as_utc 739252 0 12]
              739252 10)
    as [ev [H1 [_ H2]]].
  - vm_compute. reflexivity.
  - discriminate.
  - reflexivity.
  - reflexivity.
  - exact kyiv_increasing_new_year.
  - lia.
  - reflexivity.
  - vm_compute. split; [discriminate|reflexivity].
  - exists ev. split; [exact H1|exact H2].
Defined.

(** * Further properties of the scheduler and of the configuration *)

(** X23: [_schedule_precise_refresh] leaves no timer armed, whatever
    was armed before, when the record has no [next_change_at], an empty
    one, one that is not two texts around a colon, an empty date, or a
    date that cannot be read; the other attributes stay as they are. *)
Theorem schedule_precise_refresh_idle
        (date_fromisoformat : string -> option date)
        (self : coordinator) (d : payload) (now : datetime) :
  (pl_next_change_at d = None
   \/ pl_next_change_at d = Some ""
   \/ pl_date d = ""
   \/ date_fromisoformat (pl_date d) = None
   \/ (exists t, pl_next_change_at d = Some t
                 /\ length (split_colon t) <> 2)) ->
  _schedule_precise_refresh date_fromisoformat self d now
  = mkCoordinator (queue self) None (today_pack_cached self)
                  (tomorrow_pack_cached self) (data self)
                  (refresh_requests self).
Proof.
  intros H. unfold _schedule_precise_refresh.
  cbn [queue unsub_precise today_pack_cached tomorrow_pack_cached data
       refresh_requests].
  destruct (pl_next_change_at d) as [t|] eqn:Ht; [|reflexivity].
  destruct ((t =? "")%string || (pl_date d =? "")%string) eqn:E;
    [reflexivity|].
  apply orb_false_iff in E. destruct E as [E1 E2].
  apply String.eqb_neq in E1, E2.
  assert (P : exists e, precise_candidate date_fromisoformat t (pl_date d) now
                        = Raise e).
  { unfold precise_candidate.
    destruct H as [H | [H | [H | [H | [t' [H1 H2]]]]]].
    - discriminate.
    - congruence.
    - contradiction.
    - rewrite H. eauto.
    - injection H1 as <-.
      destruct (date_fromisoformat (pl_date d)); [|eauto].
      destruct (split_colon t) as [|x [|y [|z l]]]; eauto.
      exfalso. apply H2. reflexivity. }
  destruct P as [e ->]. reflexivity.
Qed.

Lemma schedule_precise_refresh_idle_witness :
  _schedule_precise_refresh Sample.date_fromisoformat
                            Sample.polled_coordinator
                            (mkPayload "1.1" "01.01.2025" "on" 0
                                       (Some "06:00") [] [] "" "" None None
                                       None None None None)
                            (mkDatetime 739252 5 0 0 0)
  = mkCoordinator "1.1" None (Some Sample.morning_off_pack) None
                  (Some Sample.polled_payload) 0.
Proof.
  apply (schedule_precise_refresh_idle
           Sample.date_fromisoformat Sample.polled_coordinator
           (mkPayload "1.1" "01.01.2025" "on" 0 (Some "06:00") [] [] "" ""
                      None None None None None None)
           (mkDatetime 739252 5 0 0 0)).
  right; right; right; left. reflexivity.
Defined.

(** ** The format of a group *)

Lemma split_on_no_sep (sep : ascii) (s : string) :
  has_char sep s = false -> split_on sep s = [s].
Proof.
  induction s as [|c s IH]; simpl; [reflexivity|].
  intros H. apply orb_false_iff in H. destruct H as [H1 H2].
  rewrite H1, (IH H2). reflexivity.
Qed.

Lemma split_on_app (sep : ascii) (x y : string) :
  has_char sep x = false ->
  split_on sep (x ++ String sep y)%string = x :: split_on sep y.
Proof.
  induction x as [|c x IH]; simpl.
  - intros _. now rewrite Ascii.eqb_refl.
  - intros H. apply orb_false_iff in H. destruct H as [H1 H2].
    rewrite H1, (IH H2). reflexivity.
Qed.

Lemma split_on_one (sep : ascii) (s p : string) :
  split_on sep s = [p] -> s = p /\ has_char sep s = false.
Proof.
  revert p. induction s as [|c s IH]; simpl; intros p H.
  - injection H as <-. auto.
  - destruct (Ascii.eqb c sep) eqn:E.
    + destruct s; simpl in H; [discriminate|].
      destruct (Ascii.eqb a sep); [discriminate|].
      destruct (split_on sep s); discriminate.
    + destruct (split_on sep s) as [|h t] eqn:S.
      * destruct s; simpl in S; [discriminate|].
        destruct (Ascii.eqb a sep); [discriminate|].
        destruct (split_on sep s); discriminate.
      * injection H as <- ->.
        destruct (IH h eq_refl) as [-> Hn]. simpl. now rewrite Hn.
Qed.

Lemma split_on_nonempty (sep : ascii) (s : string) : split_on sep s <> [].
Proof.
  destruct s as [|c s]; simpl; [discriminate|].
  destruct (Ascii.eqb c sep); [discriminate|].
  destruct (split_on sep s); discriminate.
Qed.

Lemma split_on_two (sep : ascii) (s p0 p1 : string) :
  split_on sep s = [p0; p1] ->
  s = (p0 ++ String sep p1)%string
  /\ has_char sep p0 = false /\ has_char sep p1 = false.
Proof.
  revert p0. induction s as [|c s IH]; simpl; intros p0 H.
  - discriminate.
  - destruct (Ascii.eqb_spec c sep) as [->|N].
    + injection H as <- H. apply split_on_one in H.
      destruct H as [-> Hn]. simpl. auto.
    + destruct (split_on sep s) as [|h t] eqn:S.
      * discriminate.
      * injection H as <- ->.
        destruct (IH h eq_refl) as [-> [H1 H2]].
        split; [reflexivity|]. split; [|exact H2].
        simpl. rewrite H1.
        destruct (Ascii.eqb_spec c sep); [contradiction|reflexivity].
Qed.

(** X24: given that [isdigit] holds of no empty text and of no text
    with a dot, [_validate_group_format] accepts exactly the texts of
    the forms D and D.D, where D is a text of digits; the empty text, a
    leading or trailing dot, and two or more dots are rejected. *)
Theorem validate_group_format_iff (isdigit : string -> bool)
        (group : string) :
  isdigit "" = false ->
  (forall s, isdigit s = true -> has_char "." s = false) ->
  _validate_group_format isdigit group = true
  <-> (isdigit group = true
       \/ exists x y,
           group = (x ++ "." ++ y)%string
           /\ isdigit x = true /\ isdigit y = true).
Proof.
  intros Hempty Hdot. unfold _validate_group_format. split.
  - destruct (String.eqb_spec group "") as [->|Hne]; [discriminate|].
    destruct (split_on "." group) as [|p0 [|p1 [|p2 l]]] eqn:S;
      try discriminate.
    + intros H. apply split_on_one in S. destruct S as [-> _].
      left. exact H.
    + intros H. apply andb_true_iff in H. destruct H as [H0 H1].
      apply split_on_two in S. destruct S as [-> _].
      right. exists p0, p1. auto.
  - intros [H | [x [y [-> [Hx Hy]]]]].
    + destruct (String.eqb_spec group "") as [->|Hne]; [congruence|].
      now rewrite (split_on_no_sep "." group (Hdot group H)).
    + destruct (String.eqb_spec (x ++ "." ++ y)%string "") as [E|_].
      { destruct x; [discriminate E|discriminate E]. }
      change (x ++ "." ++ y)%string with (x ++ String "." y)%string.
      rewrite (split_on_app "." x y (Hdot x Hx)).
      rewrite (split_on_no_sep "." y (Hdot y Hy)).
      now rewrite Hx, Hy.
Qed.

Lemma ascii_isdigit_no_dot (s : string) :
  ascii_isdigit s = true -> has_char "." s = false.
Proof.
  unfold ascii_isdigit. intros H. apply andb_true_iff in H.
  destruct H as [_ H]. induction s as [|c s IH]; [reflexivity|].
  cbn [all_ascii_digits has_char] in H |- *.
  apply andb_true_iff in H. destruct H as [Hc Hs].
  rewrite (IH Hs), orb_false_r.
  apply andb_true_iff in Hc. destruct Hc as [C1 C2].
  destruct (Ascii.eqb_spec c ".") as [->|N]; [|reflexivity].
  vm_compute in C1. discriminate C1.
Qed.

Lemma validate_group_format_iff_witness :
  _validate_group_format ascii_isdigit "10.2" = true
  /\ _validate_group_format ascii_isdigit "1.2.3" = false.
Proof.
  split.
  - apply (proj2 (validate_group_format_iff ascii_isdigit "10.2" eq_refl
                    ascii_isdigit_no_dot)).
    right. exists "10", "2". repeat split.
  - reflexivity.
Defined.
